(** * Hotel refund intelligence: cleaning, metrics and validation

    A shallow embedding of [src/cleaning.py], [src/metrics.py] and
    [src/validation.py], and the properties of the pipeline proved on it.

    - A pandas [DataFrame] is a list of column names together with a list of
      rows; a row maps a column name to a cell ([gmap string Cell]).
    - A Python [float] (and a [float64] / [Float64] column entry) is a
      binary64 number, Rocq's primitive [float]; the missing value
      ([NaN], [pd.NA], [NaT], [None]) is [CNull].  A numeric column is
      read at the dtype [float64], so the one value of an [int64] column
      whose absolute value is not an [int64], [-2^63], is not a cell.
    - A Python [str] is a [string] of bytes (its UTF-8 encoding);
      [lower] and the substring tests act on the ASCII range, [strip]
      knows the white space of Unicode.
    - A raised exception is the [Raise] case of [Result].
    - What pandas itself computes (parsing a number, parsing a date,
      printing a number, adding up a column, searching a regular
      expression) is not code of this repository: it is the interface
      [Pandas], and every property below holds for each of its
      implementations. *)

From Stdlib Require Import ZArith Floats Ascii String.
From stdpp Require Import gmap strings list sorting.

Local Open Scope string_scope.
#[local] Set Warnings "-inexact-float".

(** ** Python strings *)

Module Str.

Definition lower_ascii (c : ascii) : ascii :=
  let n := nat_of_ascii c in
  if (65 <=? n)%nat && (n <=? 90)%nat then ascii_of_nat (n + 32) else c.

(** [str.lower()] *)
Fixpoint lower (s : string) : string :=
  match s with
  | EmptyString => EmptyString
  | String c s' => String (lower_ascii c) (lower s')
  end.

(** [str.isspace()] on one character of the ASCII range:
    tab, line feed, vertical tab, form feed, carriage return,
    the four separators 28..31 and the space. *)
Definition is_space (c : ascii) : bool :=
  let n := nat_of_ascii c in
  ((9 <=? n)%nat && (n <=? 13)%nat) || ((28 <=? n)%nat && (n <=? 32)%nat).

(** [str.isspace()] on a character of two bytes: U+0085 and U+00A0. *)
Definition is_space2 (a b : ascii) : bool :=
  let x := nat_of_ascii a in
  let y := nat_of_ascii b in
  (x =? 194)%nat && ((y =? 133)%nat || (y =? 160)%nat).

(** [str.isspace()] on a character of three bytes: U+1680, U+2000 to
    U+200A, U+2028, U+2029, U+202F, U+205F and U+3000. *)
Definition is_space3 (a b c : ascii) : bool :=
  let x := nat_of_ascii a in
  let y := nat_of_ascii b in
  let z := nat_of_ascii c in
  ((x =? 225)%nat && (y =? 154)%nat && (z =? 128)%nat)
  || ((x =? 226)%nat && (y =? 128)%nat
      && (((128 <=? z)%nat && (z <=? 138)%nat)
          || (z =? 168)%nat || (z =? 169)%nat || (z =? 175)%nat))
  || ((x =? 226)%nat && (y =? 129)%nat && (z =? 159)%nat)
  || ((x =? 227)%nat && (y =? 128)%nat && (z =? 128)%nat).

(** [str.lstrip()]: the white-space characters that start [s] are
    removed, whatever the number of their bytes. *)
Fixpoint lstrip (s : string) : string :=
  match s with
  | EmptyString => EmptyString
  | String a s1 =>
      if is_space a then lstrip s1
      else
        match s1 with
        | EmptyString => s
        | String b s2 =>
            if is_space2 a b then lstrip s2
            else
              match s2 with
              | EmptyString => s
              | String c s3 => if is_space3 a b c then lstrip s3 else s
              end
        end
  end.

(** [s.isspace()] for a non-empty [s], and true of the empty string:
    [s] is white space from end to end. *)
Definition all_space (s : string) : bool :=
  match lstrip s with
  | EmptyString => true
  | String _ _ => false
  end.

(** [str.rstrip()]: the longest end of [s] that is white space is
    removed. *)
Fixpoint rstrip (s : string) : string :=
  match s with
  | EmptyString => EmptyString
  | String c s' => if all_space s then EmptyString else String c (rstrip s')
  end.

(** [str.strip()] *)
Definition strip (s : string) : string := rstrip (lstrip s).

(** [s.startswith(p)] *)
Definition startswith (p s : string) : bool := String.prefix p s.

(** [sub in s] *)
Fixpoint contains (sub s : string) : bool :=
  String.prefix sub s ||
  match s with
  | EmptyString => false
  | String _ s' => contains sub s'
  end.

(** [s.replace(old, new)] for a non-empty [old]: the occurrences of [old]
    are found from left to right, without overlap; [skip] counts the
    characters of the occurrence just found that are still to be
    passed over. *)
Fixpoint replace_from (old new : string) (skip : nat) (s : string) : string :=
  match s with
  | EmptyString => EmptyString
  | String c s' =>
      match skip with
      | S k => replace_from old new k s'
      | O =>
          if String.prefix old s
          then new ++ replace_from old new (String.length old - 1) s'
          else String c (replace_from old new 0 s')
      end
  end.

Definition replace (old new s : string) : string := replace_from old new 0 s.

(** A character that a regular expression reads as itself and that,
    when the case is ignored, matches its own two cases only: a letter
    other than [i], [k] and [s] (which also match U+0130 and U+0131,
    U+212A, and U+017F), a digit, the space, or one of [_ - & / : ,]. *)
Definition plain_char (c : ascii) : bool :=
  let n := nat_of_ascii (lower_ascii c) in
  ((97 <=? n)%nat && (n <=? 122)%nat
   && negb ((n =? 105)%nat || (n =? 107)%nat || (n =? 115)%nat))
  || ((48 <=? n)%nat && (n <=? 57)%nat)
  || existsb (Nat.eqb n) [32; 95; 45; 38; 47; 58; 44]%nat.

(** A pattern of plain characters: as a regular expression it stands
    for its own text. *)
Fixpoint plain_pattern (s : string) : bool :=
  match s with
  | EmptyString => true
  | String c s' => plain_char c && plain_pattern s'
  end.

(** [s.split(sep)] for a separator of one character: always at least
    one segment. *)
Fixpoint split (sep : ascii) (s : string) : list string :=
  match s with
  | EmptyString => [EmptyString]
  | String c s' =>
      if Ascii.eqb c sep then EmptyString :: split sep s'
      else match split sep s' with
           | h :: t => String c h :: t
           | [] => [String c EmptyString]
           end
  end.

Fixpoint last_or (d : string) (l : list string) : string :=
  match l with
  | [] => d
  | x :: l' => last_or x l'
  end.

(** [Path(filename).name] on a POSIX path: the last component that is
    neither empty nor ["."]; the empty string when there is none. *)
Definition path_name (filename : string) : string :=
  last_or ""
    (filter (fun p => negb (String.eqb p "" || String.eqb p ".") = true)
            (split "/" filename)).

End Str.

(** ** Tables *)

Record Date := { year : Z; month : Z; day : Z }.

(** A [datetime64[ns]] value: a calendar date and the nanoseconds since
    midnight. *)
Record Timestamp := { ts_date : Date; ts_nanos : Z }.

Inductive Cell :=
| CNull
| CStr (s : string)
| CNum (f : float)
| CTime (t : Timestamp)
| CDate (d : Date).

Abbreviation Row := (gmap string Cell).

Record DataFrame := { columns : list string; rows : list Row }.

(** The exceptions raised; a [KeyError] carries the name it was looked
    up by, a message, or ([KeyErrorList]) a list of names. *)
Inductive Error :=
| ValueError (msg : string)
| KeyError (key : string)
| KeyErrorList (keys : list string)
| FileNotFoundError (msg : string)
| ZeroDivisionError.

Inductive Result (A : Type) :=
| Ok (a : A)
| Raise (e : Error).
Arguments Ok {A} a.
Arguments Raise {A} e.

Definition bind {A B} (r : Result A) (k : A -> Result B) : Result B :=
  match r with
  | Ok a => k a
  | Raise e => Raise e
  end.

Notation "'let*' x ':=' r 'in' k" := (bind r (fun x => k))
  (at level 10, x name, r at level 100, k at level 200).

Fixpoint mapM {A B} (f : A -> Result B) (l : list A) : Result (list B) :=
  match l with
  | [] => Ok []
  | x :: l' => let* y := f x in let* ys := mapM f l' in Ok (y :: ys)
  end.

Module Frame.

(** [c in df.columns] *)
Definition has_column (df : DataFrame) (c : string) : bool :=
  bool_decide (c ∈ columns df).

(** The entry of a row in a column. *)
Definition cell (r : Row) (c : string) : Cell := default CNull (r !! c).

(** [df[c]] as the list of its entries. *)
Definition column (df : DataFrame) (c : string) : list Cell :=
  map (fun r => cell r c) (rows df).

(** [df.empty]: one of the two axes has length zero. *)
Definition empty (df : DataFrame) : bool :=
  match rows df, columns df with
  | [], _ | _, [] => true
  | _, _ => false
  end.

Definition add_column_name (c : string) (cs : list string) : list string :=
  if bool_decide (c ∈ cs) then cs else cs ++ [c].

(** [df[c] = vals]: an existing column is overwritten in place, a new
    one is appended. *)
Definition set_column (df : DataFrame) (c : string) (vals : list Cell) : DataFrame :=
  {| columns := add_column_name c (columns df);
     rows := zip_with (fun r v => <[c := v]> r) (rows df) vals |}.

(** [df[c] = v] for a scalar [v]. *)
Definition set_scalar (df : DataFrame) (c : string) (v : Cell) : DataFrame :=
  set_column df c (map (fun _ => v) (rows df)).

(** [df.loc[mask]] *)
Fixpoint select {A} (mask : list bool) (l : list A) : list A :=
  match mask, l with
  | b :: mask', x :: l' => if b then x :: select mask' l' else select mask' l'
  | _, _ => []
  end.

Definition loc (df : DataFrame) (mask : list bool) : DataFrame :=
  {| columns := columns df; rows := select mask (rows df) |}.

(** [df.drop(columns=cs, errors="ignore")] *)
Definition drop_columns (df : DataFrame) (cs : list string) : DataFrame :=
  {| columns := filter (fun c => c ∉ cs) (columns df);
     rows := map (fun r => foldr delete r cs) (rows df) |}.

(** [pd.isna] of one entry: the missing value, or a float that is NaN. *)
Definition isna (c : Cell) : bool :=
  match c with
  | CNull => true
  | CNum f => is_nan f
  | _ => false
  end.

(** [a.fillna(b)] on two aligned series. *)
Definition fillna {A} (a b : list (option A)) : list (option A) :=
  zip_with (fun x y => match x with Some _ => x | None => y end) a b.

End Frame.

(** ** What pandas computes *)

Class Pandas := {
  (** [str(v)] of a number, a timestamp or a date. *)
  str_of_value : Cell -> string;
  (** [pd.to_numeric(_, errors="coerce")] of one text entry: NaN when the
      text is not a number. *)
  numeric_of_str : string -> float;
  (** [pd.to_numeric] of one timestamp. *)
  numeric_of_time : Timestamp -> float;
  (** [pd.to_datetime(s, errors="coerce", dayfirst=b)] of a whole series:
      [None] is [NaT].  The result has the length of the series, a
      missing entry is [NaT] and a timestamp is itself. *)
  to_datetime : bool -> list Cell -> list (option Timestamp);
  to_datetime_length : forall b s, length (to_datetime b s) = length s;
  to_datetime_null : forall b s i c,
    s !! i = Some c -> Frame.isna c = true -> to_datetime b s !! i = Some None;
  to_datetime_time : forall b s i t,
    s !! i = Some (CTime t) -> to_datetime b s !! i = Some (Some t);
  (** [Series.sum()] of a series of numbers, none missing and at least
      one: the sum in the order and with the rounding of numpy. *)
  series_sum : list float -> float;
  (** The [sum] and the [mean] of one group of a group-by, on the numbers
      of the group, at least one: pandas adds them up with a running
      compensation of the rounding error. *)
  group_sum : list float -> float;
  group_mean : list float -> float;
  (** [re.search(pat, s, re.IGNORECASE)] finds a match. *)
  regex_search : string -> string -> bool
}.

(** ** [src/cleaning.py] *)

Module Cleaning.

Record CleaningConfig := {
  max_refund_amount : float;
  refund_keyword : string;
  high_value_threshold : float
}.

(** [CleaningConfig()] *)
Definition default_config : CleaningConfig :=
  {| max_refund_amount := 1000.0;
     refund_keyword := "refund";
     high_value_threshold := 100.0 |}.

(** [config or CleaningConfig()] *)
Definition config_or_default (config : option CleaningConfig) : CleaningConfig :=
  default default_config config.

Definition drop_unnamed_columns (df : DataFrame) : DataFrame :=
  let cols_to_drop :=
    filter (fun c => Str.startswith "Unnamed:" c = true) (columns df) in
  Frame.drop_columns df cols_to_drop.

Definition site_map : gmap string string :=
  <["brighton" := "Brighton"]>
    (<["newheaven" := "Newhaven"]>
       (<["newhaven" := "Newhaven"]> ∅)).

Definition month_map : gmap string string :=
  <["november" := "Nov-2025"]>
    (<["nov" := "Nov-2025"]>
       (<["december" := "Dec-2025"]>
          (<["dec" := "Dec-2025"]>
             (<["january" := "Jan-2026"]>
                (<["jan" := "Jan-2026"]> ∅))))).

(** The name with every [".csv"] replaced by the empty string. *)
Definition strip_csv (name : string) : string := Str.replace ".csv" "" name.

Definition parse_site_and_month_from_filename (filename : string)
  : Result (string * string) :=
  let name := Str.path_name filename in
  let parts := Str.split "_" (strip_csv name) in
  match parts with
  | p0 :: p1 :: _ =>
      let raw_site := Str.strip p0 in
      let raw_month := Str.lower (Str.strip p1) in
      let site := default raw_site (site_map !! Str.lower raw_site) in
      match month_map !! raw_month with
      | Some file_month => Ok (site, file_month)
      | None => Raise (ValueError ("Unexpected month in filename: " ++ filename))
      end
  | _ => Raise (ValueError ("Unexpected filename format: " ++ filename))
  end.

Definition add_file_metadata (df : DataFrame) (filename : string) : Result DataFrame :=
  let* sm := parse_site_and_month_from_filename filename in
  let out := Frame.set_scalar df "site" (CStr (fst sm)) in
  Ok (Frame.set_scalar out "file_month" (CStr (snd sm))).

Section WithPandas.
Context {P : Pandas}.

(** [series.astype(str)] of one entry; the missing value prints as
    ["nan"].  (A pandas that keeps it missing answers every test made
    below on the text as ["nan"] does, but for a refund keyword found in
    ["nan"].) *)
Definition astype_str (c : Cell) : string :=
  match c with
  | CStr s => s
  | CNull => "nan"
  | _ => str_of_value c
  end.

(** [pd.to_numeric(series, errors="coerce")] of one entry, as a
    [float64]: the missing value and a date object are NaN. *)
Definition to_numeric (c : Cell) : float :=
  match c with
  | CNum f => f
  | CStr s => numeric_of_str s
  | CTime t => numeric_of_time t
  | CNull | CDate _ => nan
  end.

(** [series.str.contains(pat, case=False, na=False)] of one entry: [pat]
    is a regular expression, searched with the case ignored.  A plain
    pattern is found exactly where its text occurs in some mix of cases;
    any other pattern is searched by the engine. *)
Definition str_contains_nocase (pat : string) (s : string) : bool :=
  if Str.plain_pattern pat then Str.contains (Str.lower pat) (Str.lower s)
  else regex_search pat s.

Definition is_refund_row (df : DataFrame) (config : CleaningConfig) : list bool :=
  let col := "BUSINESS_FORMAT_DATE" in
  if negb (Frame.has_column df col) then map (fun _ => false) (rows df)
  else map (fun c => str_contains_nocase (refund_keyword config) (astype_str c))
           (Frame.column df col).

Definition _to_dt (s : list Cell) : list (option Timestamp) :=
  to_datetime true s.

Definition build_transaction_date (df : DataFrame) : list (option Timestamp) :=
  let dt := map (fun _ => @None Timestamp) (rows df) in
  let dt :=
    if Frame.has_column df "BUSINESS_DATE"
    then Frame.fillna dt (_to_dt (Frame.column df "BUSINESS_DATE")) else dt in
  let dt :=
    if Frame.has_column df "BUSINESS_TIME"
    then Frame.fillna dt (_to_dt (Frame.column df "BUSINESS_TIME")) else dt in
  let dt :=
    if Frame.has_column df "BUSINESS_FORMAT_DATE"
    then Frame.fillna dt (_to_dt (Frame.column df "BUSINESS_FORMAT_DATE")) else dt in
  dt.

(** [amt.where(amt <= ceiling)] followed by [.astype("Float64")] of one
    entry: a value that fails the test is NaN, and NaN is [pd.NA]. *)
Definition where_le (ceiling : float) (amt : float) : option float :=
  if (amt <=? ceiling)%float then Some amt else None.

Definition build_refund_amount (df : DataFrame) (config : CleaningConfig)
  : list (option float) :=
  if negb (Frame.has_column df "ROOM") then map (fun _ => None) (rows df)
  else
    let amt := map to_numeric (Frame.column df "ROOM") in
    let amt := map abs amt in
    map (where_le (max_refund_amount config)) amt.

Definition cell_of_time (t : option Timestamp) : Cell :=
  match t with Some t => CTime t | None => CNull end.

Definition cell_of_amount (a : option float) : Cell :=
  match a with Some f => CNum f | None => CNull end.

(** [df.loc[mask, col] = v] on the column as a list. *)
Definition loc_assign (mask : list bool) (v : Cell) (col : list Cell) : list Cell :=
  zip_with (fun (b : bool) c => if b then v else c) mask col.

(** [a | b] on two boolean series. *)
Definition mask_or (a b : list bool) : list bool := zip_with orb a b.

Definition fillna_scalar (v : Cell) (col : list Cell) : list Cell :=
  map (fun c => if Frame.isna c then v else c) col.

(** [path] is given by its name and [pd.read_csv(path)] by the table
    it returns. *)
Definition clean_single_file (name : string) (raw : DataFrame)
    (config : option CleaningConfig) : Result DataFrame :=
  let config := config_or_default config in
  let df := drop_unnamed_columns raw in
  let* df := add_file_metadata df name in
  let refund_mask := is_refund_row df config in
  let df := Frame.loc df refund_mask in
  let df := Frame.set_column df "transaction_date"
              (map cell_of_time (build_transaction_date df)) in
  let df := Frame.set_column df "refund_amount"
              (map cell_of_amount (build_refund_amount df config)) in
  let df := Frame.loc df (map (fun c => negb (Frame.isna c))
                              (Frame.column df "refund_amount")) in
  if Frame.has_column df "BUSINESS_FORMAT_DATE" then
    let s := map (fun c => Str.lower (astype_str c))
                 (Frame.column df "BUSINESS_FORMAT_DATE") in
    let cat := map (fun _ => CNull) (rows df) in
    let cat := loc_assign (map (Str.contains "accomm") s) (CStr "Accommodation") cat in
    let cat := loc_assign
                 (mask_or (mask_or (map (Str.contains "f&b") s)
                                   (map (Str.contains "food") s))
                          (map (Str.contains "bar") s))
                 (CStr "F&B") cat in
    Ok (Frame.set_column df "refund_category" (fillna_scalar (CStr "Other") cat))
  else Ok (Frame.set_scalar df "refund_category" (CStr "Other")).

(** [pd.concat(frames, ignore_index=True)]: the columns in the order of
    their first appearance, the rows in order, and the missing value
    where a frame lacks a column. *)
Definition union_columns (frames : list DataFrame) : list string :=
  foldl (fun acc df => foldl (fun a c => Frame.add_column_name c a) acc (columns df))
        [] frames.

Definition pad_row (cols : list string) (r : Row) : Row :=
  foldr (fun c m => match m !! c with Some _ => m | None => <[c := CNull]> m end) r cols.

Definition pd_concat (frames : list DataFrame) : DataFrame :=
  let cols := union_columns frames in
  {| columns := cols;
     rows := concat (map (fun df => map (pad_row cols) (rows df)) frames) |}.

(** [paths] is [sorted(raw_dir.glob("*.csv"))], each path given by its
    name and the table read from it. *)
Definition clean_all_files (paths : list (string * DataFrame))
    (config : option CleaningConfig) : Result DataFrame :=
  let config := config_or_default config in
  match paths with
  | [] => Raise (FileNotFoundError "No CSVs found")
  | _ =>
      let* frames := mapM (fun p => clean_single_file (fst p) (snd p) (Some config)) paths in
      Ok (pd_concat frames)
  end.

End WithPandas.

End Cleaning.

(** ** Group-by, as both [metrics.py] and [validation.py] use it *)

Module Group.

Definition date_eqb (a b : Date) : bool :=
  (year a =? year b)%Z && (month a =? month b)%Z && (day a =? day b)%Z.

Definition time_eqb (a b : Timestamp) : bool :=
  date_eqb (ts_date a) (ts_date b) && (ts_nanos a =? ts_nanos b)%Z.

(** Two entries are the same group key (and the same value for
    [duplicated]): equal values, or both missing. *)
Definition cell_eqb (a b : Cell) : bool :=
  match a, b with
  | CStr s, CStr t => String.eqb s t
  | CNum f, CNum g => (f =? g)%float || (is_nan f && is_nan g)
  | CTime t, CTime u => time_eqb t u
  | CDate d, CDate e => date_eqb d e
  | CNull, CNull => true
  | CNull, CNum g => is_nan g
  | CNum f, CNull => is_nan f
  | _, _ => false
  end.

Fixpoint key_eqb (k k' : list Cell) : bool :=
  match k, k' with
  | [], [] => true
  | a :: k, b :: k' => cell_eqb a b && key_eqb k k'
  | _, _ => false
  end.

Definition date_leb (a b : Date) : bool :=
  match (year a ?= year b)%Z with
  | Lt => true
  | Gt => false
  | Eq => match (month a ?= month b)%Z with
          | Lt => true
          | Gt => false
          | Eq => (day a <=? day b)%Z
          end
  end.

Definition time_leb (a b : Timestamp) : bool :=
  if date_eqb (ts_date a) (ts_date b) then (ts_nanos a <=? ts_nanos b)%Z
  else date_leb (ts_date a) (ts_date b).

Definition kind (c : Cell) : nat :=
  match c with
  | CNum _ => 0 | CStr _ => 1 | CTime _ => 2 | CDate _ => 3 | CNull => 4
  end.

(** The order in which a group-by lists its keys: ascending, the missing
    value last.  pandas orders keys of one kind only; keys of different
    kinds are ordered here by kind. *)
Definition cell_leb (a b : Cell) : bool :=
  if Frame.isna b then true
  else if Frame.isna a then false
  else match a, b with
       | CStr s, CStr t => String.leb s t
       | CNum f, CNum g => (f <=? g)%float
       | CTime t, CTime u => time_leb t u
       | CDate d, CDate e => date_leb d e
       | _, _ => (kind a <=? kind b)%nat
       end.

Fixpoint key_leb (k k' : list Cell) : bool :=
  match k, k' with
  | [], _ => true
  | _ :: _, [] => false
  | a :: k, b :: k' => if cell_eqb a b then key_leb k k' else cell_leb a b
  end.

Definition key_le (k k' : list Cell) : Prop := key_leb k k' = true.

#[global] Instance key_le_dec : RelDecision key_le :=
  fun k k' => decide (key_leb k k' = true).

Definition key_of (by_cols : list string) (r : Row) : list Cell :=
  map (Frame.cell r) by_cols.

Definition key_has_null (k : list Cell) : bool := existsb Frame.isna k.

(** The distinct keys, each at its first occurrence. *)
Fixpoint distinct (ks : list (list Cell)) : list (list Cell) :=
  match ks with
  | [] => []
  | k :: ks' => k :: filter (fun k' => key_eqb k k' = false) (distinct ks')
  end.

(** The rows a group-by keeps: with [dropna] those whose key has no
    missing entry. *)
Definition grouped_rows (by_cols : list string) (dropna : bool) (rs : list Row)
  : list Row :=
  if dropna then filter (fun r => key_has_null (key_of by_cols r) = false) rs else rs.

(** [rows.groupby(by_cols, dropna=dropna)]: the groups in the order of
    their keys, each with its rows in their original order. *)
Definition groupby (by_cols : list string) (dropna : bool) (rs : list Row)
  : list (list Cell * list Row) :=
  let rs := grouped_rows by_cols dropna rs in
  let keys := merge_sort key_le (distinct (map (key_of by_cols) rs)) in
  map (fun k => (k, filter (fun r => key_eqb (key_of by_cols r) k = true) rs)) keys.

(** The entry of a numeric column, when it is not missing. *)
Definition numeric_entry (c : Cell) : option float :=
  match c with
  | CNum f => if is_nan f then None else Some f
  | _ => None
  end.

(** The values of a column that an aggregation sees: the missing ones
    are skipped. *)
Definition values (c : string) (rs : list Row) : list float :=
  omap (fun r => numeric_entry (Frame.cell r c)) rs.

Definition float_of_nat (n : nat) : float :=
  of_uint63 (Uint63Axioms.of_Z (Z.of_nat n)).

(** [sum] of the values of a group: zero on no value. *)
Definition fsum `{P : Pandas} (l : list float) : float :=
  match l with
  | [] => 0%float
  | _ => group_sum l
  end.

(** [mean] of the values of a group: NaN on no value. *)
Definition fmean `{P : Pandas} (l : list float) : float :=
  match l with
  | [] => nan
  | _ => group_mean l
  end.

(** In a descending [sort_values] the row of [x] may stand before the row
    of [y]: NaN goes last. *)
Definition value_geb (x y : float) : bool :=
  is_nan y || (negb (is_nan x) && (y <=? x)%float).

Definition value_ge_by {A} (f : A -> float) (a b : A) : Prop :=
  value_geb (f a) (f b) = true.

#[global] Instance value_ge_by_dec {A} (f : A -> float) : RelDecision (value_ge_by f) :=
  fun a b => decide (value_geb (f a) (f b) = true).

(** [table.sort_values(by, ascending=False)], [by] read by [f]. *)
Definition sort_values_desc {A} (f : A -> float) (l : list A) : list A :=
  merge_sort (value_ge_by f) l.

(** [table.head(n)]: the first [n] rows, and all but the last [-n] rows
    for a negative [n]. *)
Definition head {A} (n : Z) (l : list A) : list A :=
  if (0 <=? n)%Z then take (Z.to_nat n) l
  else take (length l - Z.to_nat (- n)) l.

End Group.

(** ** [src/metrics.py] *)

Module Metrics.
Import Group.

Record SQRIWeights := {
  accommodation_share_weight : float;
  accommodation_avg_weight : float;
  high_value_share_weight : float
}.

(** [SQRIWeights()] *)
Definition default_weights : SQRIWeights :=
  {| accommodation_share_weight := 0.5;
     accommodation_avg_weight := 0.3;
     high_value_share_weight := 0.2 |}.

Record Kpis := {
  refund_count : Z;
  total_refund_value : float;
  avg_refund_value : float
}.

(** A row of [by_site_month] and of [category_split]: the key and the
    three aggregates of [refund_amount]. *)
Record AggregateRow := {
  agg_key : list Cell;
  agg_count : Z;
  agg_total : float;
  agg_avg : float
}.

Record PeakRow := {
  peak_site : Cell;
  peak_date : Cell;
  daily_refund_value : float;
  daily_refund_count : Z
}.

Record SqriRow := {
  site : Cell;
  total_value : float;
  accommodation_value : float;
  accommodation_share_value : float;
  accommodation_avg : float;
  high_value_share : float;
  sqri_score : float
}.

(** [a / b] between two Python numbers: a zero divisor is a fault. *)
Definition truediv (a b : float) : Result float :=
  if (b =? 0)%float then Raise ZeroDivisionError else Ok (a / b)%float.

(** The truth value of a number: anything but zero. *)
Definition truthy (x : float) : bool := negb (x =? 0)%float.

(** [.fillna(0.0)] of one entry. *)
Definition fillna0 (x : float) : float := if is_nan x then 0%float else x.

(** The message of the [KeyError] that selecting [refund_amount] from a
    group-by raises when the table has no such column. *)
Definition column_not_found : string := "Column not found: refund_amount".

(** The first column missing from the table, if any. *)
Definition missing_column (df : DataFrame) (cs : list string) : option string :=
  List.find (fun c => negb (Frame.has_column df c)) cs.

(** The entry of a series indexed by group keys; NaN where the key is
    not in the index. *)
Definition series_get (s : list (list Cell * float)) (k : list Cell) : float :=
  match List.find (fun p => key_eqb (fst p) k) s with
  | Some p => snd p
  | None => nan
  end.

Section WithPandas.
Context {P : Pandas}.

(** [Series.mean()] of a series of numbers, none missing and at least
    one: its sum divided by their number. *)
Definition series_mean (s : list float) : float :=
  (series_sum s / float_of_nat (length s))%float.

Definition kpis (df : DataFrame) : Result Kpis :=
  if Frame.empty df then
    Ok {| refund_count := 0; total_refund_value := 0.0; avg_refund_value := 0.0 |}
  else if negb (Frame.has_column df "refund_amount") then Raise (KeyError "refund_amount")
  else
    let s := filter (fun f => is_nan f = false)
                    (map Cleaning.to_numeric (Frame.column df "refund_amount")) in
    let total := match s with [] => 0.0%float | _ => series_sum s end in
    let count := length s in
    let avg := match count with O => 0.0%float | _ => series_mean s end in
    Ok {| refund_count := Z.of_nat count;
          total_refund_value := total;
          avg_refund_value := avg |}.

(** [df.groupby(by_cols, dropna=False)["refund_amount"].agg(count, sum,
    mean).reset_index()] *)
Definition aggregate (by_cols : list string) (df : DataFrame)
  : Result (list AggregateRow) :=
  match missing_column df by_cols with
  | Some c => Raise (KeyError c)
  | None =>
      if negb (Frame.has_column df "refund_amount") then Raise (KeyError column_not_found)
      else
        Ok (map (fun g =>
                   let v := values "refund_amount" (snd g) in
                   {| agg_key := fst g;
                      agg_count := Z.of_nat (length v);
                      agg_total := fsum v;
                      agg_avg := fmean v |})
                (groupby by_cols false (rows df)))
  end.

Definition by_site_month (df : DataFrame) : Result (list AggregateRow) :=
  aggregate ["site"; "file_month"] df.

Definition category_split (df : DataFrame) : Result (list AggregateRow) :=
  aggregate ["site"; "refund_category"] df.

Definition date_cell (t : option Timestamp) : Cell :=
  match t with Some t => CDate (ts_date t) | None => CNull end.

(** The copy [d] of the table with its column [date_only]. *)
Definition with_date_only (df : DataFrame) : DataFrame :=
  Frame.set_column df "date_only"
    (map date_cell (to_datetime false (Frame.column df "transaction_date"))).

(** One group of [d.groupby(["site", "date_only"])["refund_amount"]]
    aggregated: its key, the sum and the count of its amounts. *)
Definition peak_row (g : list Cell * list Row) : PeakRow :=
  let v := values "refund_amount" (snd g) in
  {| peak_site := nth 0 (fst g) CNull;
     peak_date := nth 1 (fst g) CNull;
     daily_refund_value := fsum v;
     daily_refund_count := Z.of_nat (length v) |}.

Definition peak_groups (d : DataFrame) : list PeakRow :=
  map peak_row (groupby ["site"; "date_only"] true (rows d)).

Definition peak_days (df : DataFrame) (top_n : Z) : Result (list PeakRow) :=
  if negb (Frame.has_column df "transaction_date") then Ok []
  else
    let d := with_date_only df in
    if negb (Frame.has_column d "site") then Raise (KeyError "site")
    else if negb (Frame.has_column d "refund_amount") then Raise (KeyError column_not_found)
    else Ok (head top_n (sort_values_desc daily_refund_value (peak_groups d))).


(** The share of one output row, as the [lambda] of [out.apply]
    computes it. *)
Definition accommodation_share (accommodation_value total_value : float)
  : Result float :=
  if truthy total_value then truediv accommodation_value total_value
  else Ok 0.0%float.

(** One row of [out]: the four per-site series joined on the site (the
    [pd.concat(..., axis=1)]), the gaps filled with zero, the share
    computed by the [lambda] of [out.apply], and the score. *)
Definition sqri_row (weights : SQRIWeights)
    (acc_by_site acc_avg_by_site high_value_by_site : list (list Cell * float))
    (p : list Cell * float) : Result SqriRow :=
  let k := fst p in
  let total := fillna0 (snd p) in
  let acc_value := fillna0 (series_get acc_by_site k) in
  let acc_avg := fillna0 (series_get acc_avg_by_site k) in
  let high := fillna0 (series_get high_value_by_site k) in
  let* share := accommodation_share acc_value total in
  let acc_avg_norm := (acc_avg / 100.0)%float in
  Ok {| site := nth 0 k CNull;
        total_value := total;
        accommodation_value := acc_value;
        accommodation_share_value := share;
        accommodation_avg := acc_avg;
        high_value_share := high;
        sqri_score :=
          (share * accommodation_share_weight weights
           + acc_avg_norm * accommodation_avg_weight weights
           + high * high_value_share_weight weights)%float |}.

(** The rows [sqri] works on: [refund_amount] read as a number, and the
    rows without an amount or without a site dropped. *)
Definition sqri_rows (df : DataFrame) : list Row :=
  let d := Frame.set_column df "refund_amount"
             (map (fun c => CNum (Cleaning.to_numeric c))
                  (Frame.column df "refund_amount")) in
  filter (fun r => Frame.isna (Frame.cell r "refund_amount") = false
                   /\ Frame.isna (Frame.cell r "site") = false)
         (rows d).

Definition sqri (df : DataFrame) (weights : option SQRIWeights)
    (high_value_threshold : float) : Result (list SqriRow) :=
  let weights := default default_weights weights in
  if Frame.empty df then Ok []
  else if negb (Frame.has_column df "refund_amount") then Raise (KeyError "refund_amount")
  else if negb (Frame.has_column df "site") then Raise (KeyErrorList ["site"])
  else
    let d := sqri_rows df in
    let total_by_site :=
      map (fun g => (fst g, fsum (values "refund_amount" (snd g))))
          (groupby ["site"] true d) in
    if negb (Frame.has_column df "refund_category") then Raise (KeyError "refund_category")
    else
      let acc := filter (fun r => String.eqb
                                    (Str.lower (Cleaning.astype_str
                                                  (Frame.cell r "refund_category")))
                                    "accommodation" = true) d in
      let acc_by_site :=
        map (fun g => (fst g, fsum (values "refund_amount" (snd g))))
            (groupby ["site"] true acc) in
      let acc_avg_by_site :=
        map (fun g => (fst g, fmean (values "refund_amount" (snd g))))
            (groupby ["site"] true acc) in
      let high_value_by_site :=
        map (fun g =>
               let v := values "refund_amount" (snd g) in
               (fst g,
                (float_of_nat
                   (length (filter (fun x => (high_value_threshold <=? x)%float = true) v))
                 / float_of_nat (length v))%float))
            (groupby ["site"] true d) in
      let* out :=
        mapM (sqri_row weights acc_by_site acc_avg_by_site high_value_by_site)
             total_by_site in
      Ok (sort_values_desc sqri_score out).

(** [sqri(df)] *)
Definition default_high_value_threshold : float := 100.0.

End WithPandas.

End Metrics.

(** ** [src/validation.py] *)

Module Validation.
Import Group.

Definition default_key_cols : list string :=
  ["site"; "transaction_date"; "RECEIPT_NO"; "refund_amount"].

(** [df.duplicated(subset=key_cols, keep=False)]: a row is marked when its
    key occurs more than once in the table. *)
Definition occurrences (k : list Cell) (ks : list (list Cell)) : nat :=
  length (filter (fun k' => key_eqb k' k = true) ks).

Definition duplicated (key_cols : list string) (rs : list Row) : list bool :=
  let ks := map (key_of key_cols) rs in
  map (fun k => (2 <=? occurrences k ks)%nat) ks.

(** [key_cols] names at least one column, as the default does: pandas
    does not take an empty [subset]. *)
Definition duplicate_check (df : DataFrame) (key_cols : list string)
  : gmap string Z :=
  let missing := filter (fun c => Frame.has_column df c = false) key_cols in
  match missing with
  | _ :: _ =>
      <["duplicate_rows" := 0%Z]>
        (<["note_missing_key_cols" := Z.of_nat (length missing)]> ∅)
  | [] =>
      let dup_mask := duplicated key_cols (rows df) in
      let dup_rows := length (filter (fun b => b = true) dup_mask) in
      let distinct_keys :=
        match dup_rows with
        | O => O
        | _ => length (distinct (map (key_of key_cols)
                                     (Frame.select dup_mask (rows df))))
        end in
      <["duplicate_rows" := Z.of_nat dup_rows]>
        (<["distinct_duplicate_keys" := Z.of_nat distinct_keys]> ∅)
  end.

Record ValidationReport := {
  counts : gmap string Z;
  amount_summary : gmap string float;
  null_rates : gmap string float;
  duplicates : gmap string Z
}.

Definition row_count_reconciliation (raw_rows refund_rows analysis_rows : Z)
  : gmap string Z :=
  <["raw_rows" := raw_rows]>
    (<["refund_rows" := refund_rows]>
       (<["analysis_rows" := analysis_rows]> ∅)).

(** The summary returned when there is nothing to summarise. *)
Definition nan_summary : gmap string float :=
  <["min" := nan]> (<["p50" := nan]> (<["p90" := nan]> (<["max" := nan]> ∅))).

(** [s.min()] and [s.max()] of a series without missing values: NaN on
    the empty series. *)
Definition fmin (l : list float) : float :=
  match l with
  | [] => nan
  | x :: l' => foldl (fun m y => if (y <? m)%float then y else m) x l'
  end.

Definition fmax (l : list float) : float :=
  match l with
  | [] => nan
  | x :: l' => foldl (fun m y => if (m <? y)%float then y else m) x l'
  end.

(** [float(df[c].isna().mean())]: the share of missing entries, NaN on a
    column without rows. *)
Definition null_rate (col : list Cell) : float :=
  match col with
  | [] => nan
  | _ => (float_of_nat (length (filter (fun c => Frame.isna c = true) col))
          / float_of_nat (length col))%float
  end.

Definition null_audit (df : DataFrame) (cols : list string) : gmap string float :=
  foldl (fun out c =>
           if Frame.has_column df c
           then <[c := null_rate (Frame.column df c)]> out
           else <[c := 1.0%float]> out)
        ∅ cols.

(** [null_audit(df)] *)
Definition default_null_cols : list string :=
  ["transaction_date"; "refund_amount"; "site"].

Section WithPandas.
Context {P : Pandas}.

(** [s.quantile(q)] of a series without missing values is pandas' own
    computation. *)
Variable quantile : list float -> float -> float.

Definition amount_sanity_checks (df : DataFrame) (amount_col : string)
  : gmap string float :=
  if negb (Frame.has_column df amount_col) || Frame.empty df then nan_summary
  else
    let s := filter (fun f => is_nan f = false)
                    (map Cleaning.to_numeric (Frame.column df amount_col)) in
    match s with
    | [] => nan_summary
    | _ =>
        <["min" := fmin s]>
          (<["p50" := quantile s 0.5]>
             (<["p90" := quantile s 0.9]>
                (<["max" := fmax s]> ∅)))
    end.

Definition validate_dataset (raw_rows refund_rows : Z) (df_analysis : DataFrame)
  : ValidationReport :=
  let counts := row_count_reconciliation raw_rows refund_rows
                  (Z.of_nat (length (rows df_analysis))) in
  let amount_summary := amount_sanity_checks df_analysis "refund_amount" in
  let null_rates := null_audit df_analysis ["transaction_date"; "refund_amount"; "site"] in
  let duplicates := duplicate_check df_analysis
                      ["site"; "transaction_date"; "RECEIPT_NO"; "refund_amount"] in
  {| counts := counts;
     amount_summary := amount_summary;
     null_rates := null_rates;
     duplicates := duplicates |}.

End WithPandas.

End Validation.

(** ** A reading of numbers and dates

    One implementation of [Pandas], enough to run the pipeline on the
    examples below: decimal numbers with an optional sign and fraction,
    numeric dates written day/month/year (or month/day/year when the
    day is not asked to come first), sums made in the order of the
    values, and patterns searched as their own text. *)

Module Reference.

Fixpoint digits_value (acc : nat) (s : string) : option nat :=
  match s with
  | EmptyString => Some acc
  | String c s' =>
      let n := nat_of_ascii c in
      if (48 <=? n)%nat && (n <=? 57)%nat
      then digits_value (10 * acc + (n - 48)) s'
      else None
  end.

Definition parse_nat (s : string) : option nat :=
  match s with
  | EmptyString => None
  | _ => digits_value 0 s
  end.

Definition parse_unsigned (s : string) : float :=
  match Str.split "." s with
  | [i] =>
      match parse_nat i with
      | Some n => Group.float_of_nat n
      | None => nan
      end
  | [i; f] =>
      match parse_nat (i ++ f) with
      | Some n => (Group.float_of_nat n / Group.float_of_nat (10 ^ String.length f))%float
      | None => nan
      end
  | _ => nan
  end.

Definition parse_number (s : string) : float :=
  match Str.strip s with
  | String "-" s' => (- parse_unsigned s')%float
  | String "+" s' => parse_unsigned s'
  | s' => parse_unsigned s'
  end.

Definition parse_date (dayfirst : bool) (s : string) : option Timestamp :=
  match map parse_nat (Str.split "/" (Str.strip s)) with
  | [Some a; Some b; Some y] =>
      let dm := if dayfirst then (a, b) else (b, a) in
      let dm := if (12 <? snd dm)%nat && (fst dm <=? 12)%nat
                then (snd dm, fst dm) else dm in
      if (1 <=? snd dm)%nat && (snd dm <=? 12)%nat
         && (1 <=? fst dm)%nat && (fst dm <=? 31)%nat
      then Some {| ts_date := {| year := Z.of_nat y;
                                 month := Z.of_nat (snd dm);
                                 day := Z.of_nat (fst dm) |};
                   ts_nanos := 0 |}
      else None
  | _ => None
  end.

Definition datetime_of_cell (dayfirst : bool) (c : Cell) : option Timestamp :=
  match c with
  | CTime t => Some t
  | CDate d => Some {| ts_date := d; ts_nanos := 0 |}
  | CStr s => parse_date dayfirst s
  | CNull | CNum _ => None
  end.

Definition datetime_null (dayfirst : bool) (s : list Cell) (i : nat) (c : Cell) :
  s !! i = Some c -> Frame.isna c = true ->
  map (datetime_of_cell dayfirst) s !! i = Some None.
Proof.
  intros Hi Hc. rewrite list_lookup_fmap, Hi. by destruct c.
Defined.

Definition datetime_time (dayfirst : bool) (s : list Cell) (i : nat) (t : Timestamp) :
  s !! i = Some (CTime t) ->
  map (datetime_of_cell dayfirst) s !! i = Some (Some t).
Proof.
  intros Hi. by rewrite list_lookup_fmap, Hi.
Defined.

(** The sum of the numbers in their order. *)
Definition sum_in_order (l : list float) : float := foldl PrimFloat.add 0%float l.

Definition mean_in_order (l : list float) : float :=
  (sum_in_order l / Group.float_of_nat (length l))%float.

(** The search of a pattern as its own text, the case ignored. *)
Definition search_text (pat s : string) : bool :=
  Str.contains (Str.lower pat) (Str.lower s).

Definition pandas : Pandas :=
  {| str_of_value := fun _ => "";
     numeric_of_str := parse_number;
     numeric_of_time := fun _ => nan;
     to_datetime := fun dayfirst s => map (datetime_of_cell dayfirst) s;
     to_datetime_length := fun dayfirst s => length_map (datetime_of_cell dayfirst) s;
     to_datetime_null := datetime_null;
     to_datetime_time := datetime_time;
     series_sum := sum_in_order;
     group_sum := sum_in_order;
     group_mean := mean_in_order;
     regex_search := search_text |}.

End Reference.

(** ** Example tables *)

Module Examples.

Definition row_of (l : list (string * Cell)) : Row := list_to_map l.

(** One export of the Brighton site: an accommodation refund of 45.50, a
    refund of exactly 1000.0 whose description names both the
    accommodation and the bar, a food refund of 1000.01, and a sale. *)
Definition brighton_november : DataFrame :=
  {| columns := ["BUSINESS_FORMAT_DATE"; "BUSINESS_DATE"; "BUSINESS_TIME"; "ROOM";
                 "RECEIPT_NO"; "Unnamed: 5"];
     rows :=
       [ row_of [("BUSINESS_FORMAT_DATE", CStr "Refund Accommodation");
                 ("BUSINESS_DATE", CStr "01/11/2025"); ("BUSINESS_TIME", CNull);
                 ("ROOM", CNum (-45.5)); ("RECEIPT_NO", CStr "R1"); ("Unnamed: 5", CNull)];
         row_of [("BUSINESS_FORMAT_DATE", CStr "REFUND Accomm / Bar");
                 ("BUSINESS_DATE", CNull); ("BUSINESS_TIME", CStr "15/01/2026");
                 ("ROOM", CNum 1000.0); ("RECEIPT_NO", CStr "R2"); ("Unnamed: 5", CNull)];
         row_of [("BUSINESS_FORMAT_DATE", CStr "Refund food");
                 ("BUSINESS_DATE", CStr "02/11/2025"); ("BUSINESS_TIME", CNull);
                 ("ROOM", CNum 1000.01); ("RECEIPT_NO", CStr "R3"); ("Unnamed: 5", CNull)];
         row_of [("BUSINESS_FORMAT_DATE", CStr "Sale");
                 ("BUSINESS_DATE", CStr "02/11/2025"); ("BUSINESS_TIME", CNull);
                 ("ROOM", CNum 10); ("RECEIPT_NO", CStr "R4"); ("Unnamed: 5", CNull)] ] |}.

(** A refund whose first date field is empty. *)
Definition date_fallback : DataFrame :=
  {| columns := ["BUSINESS_DATE"; "BUSINESS_TIME"; "BUSINESS_FORMAT_DATE"];
     rows := [ row_of [("BUSINESS_DATE", CNull);
                       ("BUSINESS_TIME", CStr "15/01/2026");
                       ("BUSINESS_FORMAT_DATE", CStr "16/01/2026 Refund")] ] |}.

Definition january_15_2026 : Timestamp :=
  {| ts_date := {| year := 2026; month := 1; day := 15 |}; ts_nanos := 0 |}.

Definition refund (site : Cell) (file_month : string) (date : Cell) (receipt : string)
    (amount : float) (category : string) : Row :=
  row_of [("site", site); ("file_month", CStr file_month); ("transaction_date", date);
          ("RECEIPT_NO", CStr receipt); ("refund_amount", CNum amount);
          ("refund_category", CStr category)].

Definition november_1_2025 : Timestamp :=
  {| ts_date := {| year := 2025; month := 11; day := 1 |}; ts_nanos := 0 |}.

(** A consolidated table: two identical Brighton refunds, a third Brighton
    refund that shares site, date and receipt with them but not the
    amount, a Newhaven refund of amount zero, and a refund whose site and
    date are missing. *)
Definition consolidated : DataFrame :=
  {| columns := ["site"; "file_month"; "transaction_date"; "RECEIPT_NO";
                 "refund_amount"; "refund_category"];
     rows :=
       [ refund (CStr "Brighton") "Nov-2025" (CTime november_1_2025) "R1" 45.5 "Accommodation";
         refund (CStr "Brighton") "Nov-2025" (CTime november_1_2025) "R1" 45.5 "Accommodation";
         refund (CStr "Brighton") "Nov-2025" (CTime november_1_2025) "R1" 120.0 "F&B";
         refund (CStr "Newhaven") "Jan-2026" (CTime january_15_2026) "R7" 0.0 "Accommodation";
         refund CNull "Jan-2026" CNull "R8" 30.0 "Other" ] |}.

(** One column of a result. *)
Definition column_of (c : string) (r : Result DataFrame) : Result (list Cell) :=
  let* df := r in Ok (Frame.column df c).

End Examples.

(** ** Views of the pipeline used to state its properties *)

(** The resolver as the specification words it: only a [".csv"] that ends
    the name is removed. *)
Fixpoint spec_strip_trailing_csv (s : string) : string :=
  match s with
  | EmptyString => EmptyString
  | String c s' =>
      if String.eqb s ".csv" then EmptyString
      else String c (spec_strip_trailing_csv s')
  end.

(** The table without the rows whose [site] is missing. *)
Definition drop_null_site (df : DataFrame) : DataFrame :=
  {| columns := columns df;
     rows := filter (fun r => Frame.isna (Frame.cell r "site") = false) (rows df) |}.

Section Views.
Context {P : Pandas}.

(** The amount [build_refund_amount] resolves for one row of a table that
    has ([has_room]) or lacks the column [ROOM]. *)
Definition row_amount (has_room : bool) (config : Cleaning.CleaningConfig) (r : Row)
  : option float :=
  if has_room
  then Cleaning.where_le (Cleaning.max_refund_amount config)
                         (abs (Cleaning.to_numeric (Frame.cell r "ROOM")))
  else None.

(** The category [clean_single_file] leaves on one row: the assignment of
    ["F&B"] is made after the one of ["Accommodation"] and overwrites it. *)
Definition row_category (r : Row) : Cell :=
  let s := Str.lower (Cleaning.astype_str (Frame.cell r "BUSINESS_FORMAT_DATE")) in
  if Str.contains "f&b" s || Str.contains "food" s || Str.contains "bar" s
  then CStr "F&B"
  else if Str.contains "accomm" s then CStr "Accommodation" else CStr "Other".

(** The row has an amount: a number that is not NaN. *)
Definition has_amount (r : Row) : Prop :=
  exists f : float, r !! "refund_amount" = Some (CNum f) /\ is_nan f = false.

(** What the day-first parse of column [c] gives at row [i]; [None] when
    the table has no such column or the entry does not parse. *)
Definition parsed_at (df : DataFrame) (c : string) (i : nat) : option Timestamp :=
  if Frame.has_column df c
  then match to_datetime true (Frame.column df c) !! i with
       | Some (Some t) => Some t
       | _ => None
       end
  else None.

Definition or_else {A} (x y : option A) : option A :=
  match x with Some _ => x | None => y end.

End Views.

Section Stages.
Context {P : Pandas}.

(** The table [clean_single_file] holds after its refund filter: the
    padding columns dropped, the tags of the file added, the refund rows
    kept. *)
Definition refund_stage (site file_month : string) (raw : DataFrame)
    (config : Cleaning.CleaningConfig) : DataFrame :=
  let df := Frame.set_scalar
              (Frame.set_scalar (Cleaning.drop_unnamed_columns raw) "site" (CStr site))
              "file_month" (CStr file_month) in
  Frame.loc df (Cleaning.is_refund_row df config).

(** The same table with its [transaction_date]. *)
Definition dated_stage (site file_month : string) (raw : DataFrame)
    (config : Cleaning.CleaningConfig) : DataFrame :=
  let df := refund_stage site file_month raw config in
  Frame.set_column df "transaction_date"
    (map Cleaning.cell_of_time (Cleaning.build_transaction_date df)).

(** A raw row with its padding entries removed and the tags of its file. *)
Definition tagged (site file_month : string) (raw : DataFrame) (r : Row) : Row :=
  <["file_month" := CStr file_month]>
    (<["site" := CStr site]>
       (foldr delete r (filter (fun c => Str.startswith "Unnamed:" c = true) (columns raw)))).

(** The names of the columns [clean_single_file] adds. *)
Definition derived_columns : list string :=
  ["site"; "file_month"; "transaction_date"; "refund_amount"; "refund_category"].

End Stages.

(** The rows of a table that a group-by puts under the key [k]. *)
Definition rows_of_key (by_cols : list string) (rs : list Row) (k : list Cell) : list Row :=
  filter (fun r => Group.key_eqb (Group.key_of by_cols r) k = true) rs.

(** One for a row whose entry under [c] is a number, zero otherwise. *)
Definition counted (c : string) (r : Row) : nat :=
  match Group.numeric_entry (Frame.cell r c) with Some _ => 1 | None => 0 end.

(** The refunds counted by all the rows of an aggregate together. *)
Definition total_count (out : list Metrics.AggregateRow) : nat :=
  sum_list_with (fun a => Z.to_nat (Metrics.agg_count a)) out.

Section Breakdowns.
Context {P : Pandas}.

(** What makes [res] the breakdown of a table by the columns [by_cols]:
    how it fails on an absent column, and what its rows are. *)
Definition is_breakdown (by_cols : list string) (df : DataFrame)
    (res : Result (list Metrics.AggregateRow)) : Prop :=
  (forall pre c post,
      by_cols = (pre ++ c :: post)%list ->
      (forall c', c' ∈ pre -> Frame.has_column df c' = true) ->
      Frame.has_column df c = false ->
      res = Raise (KeyError c))
  /\ ((forall c, c ∈ by_cols -> Frame.has_column df c = true) ->
      Frame.has_column df "refund_amount" = false ->
      res = Raise (KeyError "Column not found: refund_amount"))
  /\ (forall out, res = Ok out ->
        (forall c, c ∈ (by_cols ++ ["refund_amount"])%list -> Frame.has_column df c = true)
        /\ total_count out = length (Group.values "refund_amount" (rows df))
        /\ (forall k, (length (filter (fun a => Group.key_eqb (Metrics.agg_key a) k = true)
                                      out) <= 1)%nat)
        /\ (forall a, a ∈ out ->
              (exists r, r ∈ rows df /\ Metrics.agg_key a = Group.key_of by_cols r)
              /\ Metrics.agg_count a
                 = Z.of_nat (length (Group.values "refund_amount"
                                       (rows_of_key by_cols (rows df) (Metrics.agg_key a))))
              /\ Metrics.agg_total a
                 = Group.fsum (Group.values "refund_amount"
                                 (rows_of_key by_cols (rows df) (Metrics.agg_key a)))
              /\ Metrics.agg_avg a
                 = Group.fmean (Group.values "refund_amount"
                                  (rows_of_key by_cols (rows df) (Metrics.agg_key a))))).

End Breakdowns.

Section Summaries.
Context {P : Pandas}.

(** The KPIs and the two breakdowns of a table are computed, and each
    accounts for every row of the table. *)
Definition reconciles (df : DataFrame) : Prop :=
  exists (k : Metrics.Kpis) (bsm cs : list Metrics.AggregateRow),
    Metrics.kpis df = Ok k
    /\ Metrics.by_site_month df = Ok bsm
    /\ Metrics.category_split df = Ok cs
    /\ Metrics.refund_count k = Z.of_nat (length (rows df))
    /\ total_count bsm = length (rows df)
    /\ total_count cs = length (rows df).

End Summaries.

(** What the validation report [rep] of a cleaned table [df] says, for
    amounts capped at [ceiling]. *)
Definition cleaned_report (ceiling : float) (df : DataFrame) (rep : Validation.ValidationReport)
  : Prop :=
  Validation.counts rep !! "analysis_rows" = Some (Z.of_nat (length (rows df)))
  /\ (Frame.has_column df "RECEIPT_NO" = false ->
      Validation.duplicates rep
      = <["duplicate_rows" := 0%Z]> (<["note_missing_key_cols" := 1%Z]> ∅))
  /\ (Frame.has_column df "RECEIPT_NO" = true ->
      Validation.duplicates rep !! "note_missing_key_cols" = None
      /\ is_Some (Validation.duplicates rep !! "distinct_duplicate_keys"))
  /\ (rows df = [] -> Validation.amount_summary rep = Validation.nan_summary)
  /\ (rows df <> [] ->
      exists lo hi,
        Validation.amount_summary rep !! "min" = Some lo
        /\ Validation.amount_summary rep !! "max" = Some hi
        /\ (lo <=? hi)%float = true
        /\ (hi <=? ceiling)%float = true)
  /\ (forall c, is_Some (Validation.null_rates rep !! c)
                <-> c ∈ ["transaction_date"; "refund_amount"; "site"]).

(** * Properties *)

(** ** Binary64 comparisons *)

Section FloatOrder.
Local Open Scope float_scope.

Lemma SFcompare_antisym x y :
  SFcompare y x = option_map CompOpp (SFcompare x y).
Proof.
  destruct x as [[]|[]| |[] m1 e1], y as [[]|[]| |[] m2 e2]; simpl; try reflexivity;
    rewrite (Z.compare_antisym e1 e2); destruct (e1 ?= e2)%Z; simpl; try reflexivity;
    rewrite (Pos.compare_cont_antisym m1 m2 Eq); simpl; try reflexivity.
Qed.

Lemma SFcompare_defined x y :
  SFcompare x x <> None -> SFcompare y y <> None -> exists c, SFcompare x y = Some c.
Proof.
  destruct x as [[]|[]| |[] m1 e1], y as [[]|[]| |[] m2 e2]; simpl; intros; eauto; congruence.
Qed.

Lemma not_nan_compare x :
  is_nan x = false -> SFcompare (Prim2SF x) (Prim2SF x) <> None.
Proof.
  unfold is_nan. rewrite FloatAxioms.eqb_spec. unfold SFeqb.
  destruct (SFcompare _ _); [discriminate | intros; discriminate].
Qed.

Lemma float_leb_total x y :
  is_nan x = false -> is_nan y = false -> (x <=? y) = true \/ (y <=? x) = true.
Proof.
  intros Hx%not_nan_compare Hy%not_nan_compare.
  rewrite !FloatAxioms.leb_spec. unfold SFleb.
  rewrite (SFcompare_antisym (Prim2SF x) (Prim2SF y)).
  destruct (SFcompare_defined _ _ Hx Hy) as [c ->]. destruct c; simpl; auto.
Qed.

Lemma float_leb_negb_ltb x y :
  is_nan x = false -> is_nan y = false -> (x <=? y) = negb (y <? x).
Proof.
  intros Hx%not_nan_compare Hy%not_nan_compare.
  rewrite FloatAxioms.leb_spec, FloatAxioms.ltb_spec. unfold SFleb, SFltb.
  rewrite (SFcompare_antisym (Prim2SF x) (Prim2SF y)).
  destruct (SFcompare_defined _ _ Hx Hy) as [c ->]. destruct c; reflexivity.
Qed.

Lemma float_eqb_refl x : is_nan x = false -> (x =? x) = true.
Proof. unfold is_nan. destruct (x =? x); [reflexivity | discriminate]. Qed.

Lemma float_eqb_sym x y : (x =? y) = (y =? x).
Proof.
  rewrite !FloatAxioms.eqb_spec. unfold SFeqb.
  rewrite (SFcompare_antisym (Prim2SF x) (Prim2SF y)).
  destruct (SFcompare (Prim2SF x) (Prim2SF y)) as [[]|]; reflexivity.
Qed.

Lemma SFcompare_Eq_trans x y z :
  SFcompare x y = Some Eq -> SFcompare y z = Some Eq -> SFcompare x z = Some Eq.
Proof.
  destruct x as [[]|[]| |[] m1 e1], y as [[]|[]| |[] m2 e2], z as [[]|[]| |[] m3 e3];
    simpl; try congruence;
    destruct (e1 ?= e2)%Z eqn:E12; try congruence;
    destruct (e2 ?= e3)%Z eqn:E23; try congruence;
    apply Z.compare_eq in E12, E23; subst; rewrite Z.compare_refl;
    destruct (Pos.compare_cont Eq m1 m2) eqn:M12; simpl; try congruence;
    destruct (Pos.compare_cont Eq m2 m3) eqn:M23; simpl; try congruence;
    apply Pos.compare_eq in M12, M23; subst; rewrite Pos.compare_cont_refl; reflexivity.
Qed.

Lemma float_eqb_trans x y z :
  (x =? y) = true -> (y =? z) = true -> (x =? z) = true.
Proof.
  rewrite !FloatAxioms.eqb_spec. unfold SFeqb.
  destruct (SFcompare (Prim2SF x) (Prim2SF y)) as [[]|] eqn:E1; try discriminate.
  destruct (SFcompare (Prim2SF y) (Prim2SF z)) as [[]|] eqn:E2; try discriminate.
  intros _ _. rewrite (SFcompare_Eq_trans _ _ _ E1 E2). reflexivity.
Qed.

Lemma float_eqb_not_nan x y : (x =? y) = true -> is_nan x = false /\ is_nan y = false.
Proof.
  intros E. pose proof (float_eqb_trans _ _ _ E (eq_trans (float_eqb_sym y x) E)) as Hx.
  pose proof (float_eqb_trans _ _ _ (eq_trans (float_eqb_sym y x) E) E) as Hy.
  unfold is_nan. rewrite Hx, Hy. auto.
Qed.

End FloatOrder.

(** ** Lists, masks and results *)

Section Lists.
Context {A B C : Type}.

Lemma zip_with_map_same (f : A -> B -> C) (g : A -> B) (l : list A) :
  zip_with f l (map g l) = map (fun x => f x (g x)) l.
Proof. induction l as [|x l IH]; simpl; [reflexivity | by rewrite IH]. Qed.

Lemma select_map_same (p : A -> bool) (l : list A) :
  Frame.select (map p l) l = filter (fun x => p x = true) l.
Proof.
  induction l as [|x l IH]; simpl; [reflexivity|].
  rewrite filter_cons, <- IH. destruct (p x); case_decide; done.
Qed.

Lemma select_all_false (l : list A) :
  Frame.select (map (fun _ => false) l) l = [].
Proof. induction l; simpl; auto. Qed.

Lemma mapM_Forall2 (f : A -> Result B) (l : list A) (ys : list B) :
  mapM f l = Ok ys -> Forall2 (fun x y => f x = Ok y) l ys.
Proof.
  revert ys. induction l as [|x l IH]; simpl; intros ys Hm.
  - injection Hm as <-. constructor.
  - destruct (f x) as [y|e] eqn:Hf; simpl in Hm; [|discriminate].
    destruct (mapM f l) as [ys'|e] eqn:Hl; simpl in Hm; [|discriminate].
    injection Hm as <-. constructor; auto.
Qed.

Lemma mapM_Raise (f : A -> Result B) (l : list A) (e : Error) :
  mapM f l = Raise e -> exists x, x ∈ l /\ f x = Raise e.
Proof.
  induction l as [|x l IH]; simpl; intros Hm; [discriminate|].
  destruct (f x) as [y|e'] eqn:Hf; simpl in Hm.
  - destruct (mapM f l) as [ys'|e'] eqn:Hl; simpl in Hm; [discriminate|].
    injection Hm as ->. destruct IH as (x' & Hin & Hx'); [reflexivity|].
    exists x'. split; [by apply list_elem_of_further | done].
  - injection Hm as ->. exists x. split; [apply list_elem_of_here | done].
Qed.

End Lists.

(** ** The file-name resolver *)

Section Filename.

Lemma prefix_empty (s : string) : String.prefix "" s = true.
Proof. destruct s; reflexivity. Qed.

Lemma prefix_cons_same (c : ascii) (p s : string) :
  String.prefix (String c p) (String c s) = String.prefix p s.
Proof. cbn [String.prefix]. destruct (ascii_dec c c); [reflexivity | congruence]. Qed.

Lemma strip_csv_here (b : string) :
  Cleaning.strip_csv (".csv" ++ b) = Cleaning.strip_csv b.
Proof.
  unfold Cleaning.strip_csv, Str.replace.
  change (".csv" ++ b) with (String "." (String "c" (String "s" (String "v" b)))).
  change ".csv" with (String "." (String "c" (String "s" (String "v" EmptyString)))) at 1.
  assert (Hp : String.prefix (String "." (String "c" (String "s" (String "v" EmptyString))))
                 (String "." (String "c" (String "s" (String "v" b)))) = true)
    by (rewrite !prefix_cons_same; apply prefix_empty).
  cbn [Str.replace_from]. rewrite Hp. reflexivity.
Qed.

Lemma append_cons (c : ascii) (a b : string) : String c a ++ b = String c (a ++ b).
Proof. reflexivity. Qed.

Lemma prefix_cons_other (c c' : ascii) (p s : string) :
  c <> c' -> String.prefix (String c p) (String c' s) = false.
Proof. intros Hne. cbn [String.prefix]. destruct (ascii_dec c c'); [congruence | reflexivity]. Qed.

Lemma prefix_nil (c : ascii) (p : string) : String.prefix (String c p) "" = false.
Proof. reflexivity. Qed.

Lemma prefix_iff (p s : string) : String.prefix p s = true <-> exists b, s = p ++ b.
Proof.
  revert s. induction p as [|c p IH]; intros s.
  - rewrite prefix_empty. split; [intros _; exists s; reflexivity | reflexivity].
  - destruct s as [|c' s].
    + rewrite prefix_nil. split; [discriminate | intros [b Hb]; discriminate].
    + destruct (ascii_dec c c') as [<- | Hne].
      * rewrite prefix_cons_same, IH. split.
        -- intros [b ->]. exists b. reflexivity.
        -- intros [b Hb]. rewrite append_cons in Hb. injection Hb as ->. eauto.
      * rewrite prefix_cons_other by done. split; [discriminate|].
        intros [b Hb]. rewrite append_cons in Hb. congruence.
Qed.

Lemma append_assoc (a b c : string) : (a ++ b) ++ c = a ++ (b ++ c).
Proof. induction a as [|x a IH]; [reflexivity|]. by rewrite !append_cons, IH. Qed.

Lemma prefix_app (p x y : string) :
  String.prefix p x = true -> String.prefix p (x ++ y) = true.
Proof.
  rewrite !prefix_iff. intros [t ->]. exists (t ++ y). apply append_assoc.
Qed.

(** [".csv"] does not overlap itself: where [a] does not start with it,
    [a ++ ".csv" ++ b] does not either. *)
Lemma csv_not_inside (c : ascii) (a b : string) :
  String.prefix ".csv" (String c a) = false ->
  String.prefix ".csv" (String c a ++ ".csv" ++ b) = false.
Proof.
  destruct a as [|c1 [|c2 [|c3 a]]]; rewrite ?append_cons; cbn [String.prefix];
    repeat match goal with
           | |- context [ascii_dec ?x ?y] => destruct (ascii_dec x y); subst
           end; rewrite ?prefix_empty; try done.
Qed.

(** The first occurrence is removed, and the rest of the name is treated
    the same way. *)
Lemma strip_csv_first (a b : string) :
  Str.contains ".csv" a = false ->
  Cleaning.strip_csv (a ++ ".csv" ++ b) = a ++ Cleaning.strip_csv b.
Proof.
  induction a as [|c a IH]; intros Ha.
  - apply strip_csv_here.
  - cbn [Str.contains] in Ha. apply orb_false_iff in Ha as [Hp Ha].
    pose proof (csv_not_inside c a b Hp) as Hq.
    rewrite append_cons in Hq |- *.
    unfold Cleaning.strip_csv, Str.replace in *. cbn [Str.replace_from].
    rewrite Hq. by rewrite (IH Ha).
Qed.

(** A name in which [".csv"] occurs has a first occurrence. *)
Lemma first_csv (s : string) :
  Str.contains ".csv" s = true ->
  exists a b, s = a ++ ".csv" ++ b /\ Str.contains ".csv" a = false.
Proof.
  induction s as [|c s IH]; [discriminate|].
  cbn [Str.contains]. destruct (String.prefix ".csv" (String c s)) eqn:Hp.
  - intros _. apply prefix_iff in Hp as [b Hb]. exists "", b. split; [exact Hb | reflexivity].
  - cbn [orb]. intros (a & b & -> & Ha)%IH. exists (String c a), b.
    split; [reflexivity|]. cbn [Str.contains]. rewrite Ha, orb_false_r.
    destruct (String.prefix ".csv" (String c a)) eqn:Hq; [|reflexivity].
    apply (prefix_app _ _ (".csv" ++ b)) in Hq. rewrite append_cons in Hq. congruence.
Qed.

Lemma strip_csv_absent (s : string) :
  Str.contains ".csv" s = false -> Cleaning.strip_csv s = s.
Proof.
  induction s as [|c s IH]; [reflexivity|].
  cbn [Str.contains]. intros [Hp Hc]%orb_false_iff.
  unfold Cleaning.strip_csv, Str.replace in *. cbn [Str.replace_from].
  rewrite Hp. by rewrite (IH Hc).
Qed.

End Filename.

(** C2, as stated, fails: in ["Brigh.csvton_nov_x.csv"] the [".csv"] inside
    the site segment is removed together with the trailing one, so the
    site resolves to ["Brighton"]; removing the trailing suffix only would
    have kept ["Brigh.csvton"]. *)
Lemma filename_inner_csv_is_removed :
  Cleaning.strip_csv "Brigh.csvton_nov_x.csv" = "Brighton_nov_x"
  /\ spec_strip_trailing_csv "Brigh.csvton_nov_x.csv" = "Brigh.csvton_nov_x"
  /\ Cleaning.parse_site_and_month_from_filename "Brigh.csvton_nov_x.csv"
     = Ok ("Brighton", "Nov-2025").
Proof. vm_compute. repeat split. Qed.

(** C2, amended: the resolver removes every occurrence of the literal
    [".csv"] from the base name, found from left to right without overlap,
    wherever it stands, before it splits on ["_"].  For every name: one
    without [".csv"] is unchanged; one in which [".csv"] occurs is
    [a ++ ".csv" ++ b] with no [".csv"] in [a], and it becomes [a]
    followed by what [b] becomes, whatever dots [a] has.  The match is
    case-sensitive: a [".CSV"] stays and takes part in the site
    segment. *)
Theorem filename_every_csv_is_removed :
  (forall s : string,
      Str.contains ".csv" s = false -> Cleaning.strip_csv s = s)
  /\ (forall a b : string,
         Str.contains ".csv" a = false ->
         Cleaning.strip_csv (a ++ ".csv" ++ b) = a ++ Cleaning.strip_csv b)
  /\ (forall s : string,
         Str.contains ".csv" s = true ->
         exists a b, s = a ++ ".csv" ++ b /\ Str.contains ".csv" a = false)
  /\ Cleaning.parse_site_and_month_from_filename "data/raw/Brigh.csvton_nov_x.csv"
     = Ok ("Brighton", "Nov-2025")
  /\ Cleaning.parse_site_and_month_from_filename "St.Ives_nov.csv"
     = Ok ("St.Ives", "Nov-2025")
  /\ Cleaning.parse_site_and_month_from_filename "x.CSV_nov"
     = Ok ("x.CSV", "Nov-2025").
Proof.
  split; [exact strip_csv_absent|].
  split; [exact strip_csv_first|].
  split; [exact first_csv|].
  repeat split; vm_compute; reflexivity.
Qed.

Lemma filename_every_csv_is_removed_witness :
  Cleaning.strip_csv ("St.Ives_nov" ++ ".csv" ++ "_refund.csv")
  = "St.Ives_nov" ++ Cleaning.strip_csv "_refund.csv"
  /\ Cleaning.strip_csv "Brighton_November_refund" = "Brighton_November_refund"
  /\ exists a b, "St.Ives_nov.csv_refund.csv" = a ++ ".csv" ++ b
                 /\ Str.contains ".csv" a = false.
Proof.
  split; [|split].
  - apply (proj1 (proj2 filename_every_csv_is_removed)). vm_compute. reflexivity.
  - apply (proj1 filename_every_csv_is_removed). vm_compute. reflexivity.
  - apply (proj1 (proj2 (proj2 filename_every_csv_is_removed))). vm_compute. reflexivity.
Defined.

(** ** KPIs *)

(** C6: on an empty table (no row, or no column) [kpis] returns count 0,
    sum 0.0 and mean 0.0; neither number is NaN. *)
Theorem kpis_empty `{P : Pandas} (df : DataFrame) :
  Frame.empty df = true ->
  exists k : Metrics.Kpis,
    Metrics.kpis df = Ok k
    /\ Metrics.refund_count k = 0%Z
    /\ Metrics.total_refund_value k = 0.0%float
    /\ Metrics.avg_refund_value k = 0.0%float
    /\ is_nan (Metrics.total_refund_value k) = false
    /\ is_nan (Metrics.avg_refund_value k) = false.
Proof.
  intros He. unfold Metrics.kpis. rewrite He.
  eexists. split; [reflexivity|]. repeat split.
Qed.

Lemma kpis_empty_witness :
  exists k : Metrics.Kpis,
    Metrics.kpis (P := Reference.pandas)
      {| columns := ["site"; "refund_amount"]; rows := [] |} = Ok k
    /\ Metrics.refund_count k = 0%Z
    /\ Metrics.total_refund_value k = 0.0%float
    /\ Metrics.avg_refund_value k = 0.0%float
    /\ is_nan (Metrics.total_refund_value k) = false
    /\ is_nan (Metrics.avg_refund_value k) = false.
Proof.
  apply (kpis_empty (P := Reference.pandas)). reflexivity.
Defined.

(** ** Normalization, row by row *)

Section Normalization.
Context {P : Pandas}.

Lemma loc_assign_map {A} (p : A -> bool) (q : A -> Cell) (v : Cell) (l : list A) :
  Cleaning.loc_assign (map p l) v (map q l) = map (fun x => if p x then v else q x) l.
Proof.
  unfold Cleaning.loc_assign.
  induction l as [|x l IH]; simpl; [reflexivity | by rewrite IH].
Qed.

Lemma mask_or_map {A} (p q : A -> bool) (l : list A) :
  Cleaning.mask_or (map p l) (map q l) = map (fun x => p x || q x) l.
Proof.
  unfold Cleaning.mask_or.
  induction l as [|x l IH]; simpl; [reflexivity | by rewrite IH].
Qed.

Lemma build_refund_amount_rows (df : DataFrame) (config : Cleaning.CleaningConfig) :
  Cleaning.build_refund_amount df config
  = map (row_amount (Frame.has_column df "ROOM") config) (rows df).
Proof.
  unfold Cleaning.build_refund_amount, row_amount, Frame.column.
  destruct (Frame.has_column df "ROOM"); simpl; [|reflexivity].
  rewrite !List.map_map. reflexivity.
Qed.

Lemma elem_of_add_column_name (c c' : string) (cs : list string) :
  c ∈ Frame.add_column_name c' cs <-> c = c' \/ c ∈ cs.
Proof.
  unfold Frame.add_column_name. case_bool_decide as Hin.
  - split; [auto | intros [-> | ?]; done].
  - rewrite elem_of_app, list_elem_of_singleton. tauto.
Qed.

Lemma has_column_set_column (df : DataFrame) (c c' : string) (vals : list Cell) :
  Frame.has_column (Frame.set_column df c' vals) c
  = bool_decide (c = c') || Frame.has_column df c.
Proof.
  unfold Frame.has_column. cbn [Frame.set_column columns].
  apply eq_true_iff_eq. rewrite orb_true_iff, !bool_decide_eq_true.
  apply elem_of_add_column_name.
Qed.

Lemma category_column (rs : list Row) :
  let s := map (fun c => Str.lower (Cleaning.astype_str c))
               (map (fun r => Frame.cell r "BUSINESS_FORMAT_DATE") rs) in
  Cleaning.fillna_scalar (CStr "Other")
    (Cleaning.loc_assign
       (Cleaning.mask_or (Cleaning.mask_or (map (Str.contains "f&b") s)
                                           (map (Str.contains "food") s))
                         (map (Str.contains "bar") s))
       (CStr "F&B")
       (Cleaning.loc_assign (map (Str.contains "accomm") s) (CStr "Accommodation")
                            (map (fun _ => CNull) rs)))
  = map row_category rs.
Proof.
  intros s. subst s. rewrite !List.map_map.
  rewrite (loc_assign_map _ (fun _ => CNull)), !mask_or_map, loc_assign_map.
  unfold Cleaning.fillna_scalar. rewrite List.map_map. apply map_ext. intros r.
  unfold row_category.
  destruct (Str.contains "f&b" _ || Str.contains "food" _ || Str.contains "bar" _);
    [reflexivity|].
  destruct (Str.contains "accomm" _); reflexivity.
Qed.

(** The rows [clean_single_file] returns: the rows [rs] that pass the
    refund filter, each with its amount, those with a missing amount
    removed, each with its category. *)
Lemma clean_single_file_rows (name : string) (raw : DataFrame)
    (config : option Cleaning.CleaningConfig) (out : DataFrame) :
  Cleaning.clean_single_file name raw config = Ok out ->
  exists (rs : list Row) (has_room : bool),
    rows out
    = map (fun r => <["refund_category" := row_category r]> r)
        (filter (fun r => Frame.isna (Frame.cell r "refund_amount") = false)
           (map (fun r => <["refund_amount" :=
                              Cleaning.cell_of_amount
                                (row_amount has_room (Cleaning.config_or_default config) r)]> r)
                rs)).
Proof.
  unfold Cleaning.clean_single_file.
  destruct (Cleaning.add_file_metadata _ name) as [df2|e]; [|discriminate].
  unfold bind. cbv zeta.
  set (cfg := Cleaning.config_or_default config).
  set (df3 := Frame.loc df2 (Cleaning.is_refund_row df2 cfg)).
  set (df4 := Frame.set_column df3 "transaction_date" _).
  rewrite build_refund_amount_rows, List.map_map.
  set (df5 := Frame.set_column df4 "refund_amount" _).
  set (df6 := Frame.loc df5 _).
  assert (Hrows6 : rows df6
            = filter (fun r => Frame.isna (Frame.cell r "refund_amount") = false)
                (map (fun r => <["refund_amount" :=
                                   Cleaning.cell_of_amount
                                     (row_amount (Frame.has_column df4 "ROOM") cfg r)]> r)
                     (rows df4))).
  { subst df6 df5. unfold Frame.loc, Frame.column. cbn [Frame.set_column rows].
    rewrite zip_with_map_same.
    rewrite (List.map_map (fun r => Frame.cell r "refund_amount")
                          (fun c => negb (Frame.isna c))).
    rewrite (select_map_same (fun r => negb (Frame.isna (Frame.cell r "refund_amount")))).
    apply list_filter_iff. intros r. destruct (Frame.isna _); simpl; split; congruence. }
  assert (Hcol6 : Frame.has_column df6 "BUSINESS_FORMAT_DATE"
                  = Frame.has_column df2 "BUSINESS_FORMAT_DATE").
  { change (Frame.has_column df6 "BUSINESS_FORMAT_DATE")
      with (Frame.has_column df5 "BUSINESS_FORMAT_DATE").
    subst df5 df4. rewrite !has_column_set_column. reflexivity. }
  clearbody df6.
  destruct (Frame.has_column df6 "BUSINESS_FORMAT_DATE") eqn:Hbfd.
  - intros [= <-]. exists (rows df4), (Frame.has_column df4 "ROOM").
    cbn [Frame.set_column rows]. unfold Frame.column.
    rewrite category_column, zip_with_map_same, Hrows6. reflexivity.
  - intros [= <-]. exists (rows df4), (Frame.has_column df4 "ROOM").
    assert (H3 : rows df3 = []).
    { subst df3. cbn [Frame.loc rows]. unfold Cleaning.is_refund_row.
      rewrite <- Hcol6. simpl negb. cbv iota. apply select_all_false. }
    assert (H4 : rows df4 = []).
    { subst df4. cbn [Frame.set_column rows]. rewrite H3. reflexivity. }
    unfold Frame.set_scalar. cbn [Frame.set_column rows].
    rewrite Hrows6, H4. reflexivity.
Qed.

End Normalization.

Section NormalizationClaims.
Context {P : Pandas}.

Lemma clean_single_file_row (name : string) (raw : DataFrame)
    (config : option Cleaning.CleaningConfig) (out : DataFrame) (r : Row) :
  Cleaning.clean_single_file name raw config = Ok out ->
  r ∈ rows out ->
  exists (r0 : Row) (a : option float),
    r = <["refund_category" := row_category (<["refund_amount" := Cleaning.cell_of_amount a]> r0)]>
          (<["refund_amount" := Cleaning.cell_of_amount a]> r0)
    /\ Frame.isna (Cleaning.cell_of_amount a) = false.
Proof.
  intros Hc Hr. destruct (clean_single_file_rows _ _ _ _ Hc) as (rs & hr & Hrows).
  rewrite Hrows in Hr. apply list_elem_of_fmap in Hr as (r1 & -> & Hr1).
  apply list_elem_of_filter in Hr1 as [Hna Hr1].
  apply list_elem_of_fmap in Hr1 as (r0 & -> & Hr0).
  exists r0, (row_amount hr (Cleaning.config_or_default config) r0). split; [reflexivity|].
  unfold Frame.cell in Hna. rewrite lookup_insert_eq in Hna. exact Hna.
Qed.

Lemma clean_single_file_has_amount (name : string) (raw : DataFrame)
    (config : option Cleaning.CleaningConfig) (out : DataFrame) (r : Row) :
  Cleaning.clean_single_file name raw config = Ok out -> r ∈ rows out -> has_amount r.
Proof.
  intros Hc Hr. destruct (clean_single_file_row _ _ _ _ _ Hc Hr) as (r0 & a & -> & Hna).
  destruct a as [f|]; [|discriminate]. exists f. split; [|exact Hna].
  rewrite lookup_insert_ne by done. apply lookup_insert_eq.
Qed.

Lemma pad_row_lookup_Some (cols : list string) (r : Row) (c : string) (v : Cell) :
  r !! c = Some v -> Cleaning.pad_row cols r !! c = Some v.
Proof.
  intros Hv. unfold Cleaning.pad_row.
  induction cols as [|c0 cols IH]; simpl; [exact Hv|].
  destruct (foldr _ r cols !! c0) eqn:E; [exact IH|].
  rewrite lookup_insert_ne; [exact IH | congruence].
Qed.

Lemma Forall2_elem_of_r {A B} (R : A -> B -> Prop) (l : list A) (k : list B) (y : B) :
  Forall2 R l k -> y ∈ k -> exists x, x ∈ l /\ R x y.
Proof.
  induction 1 as [|x y' l k Hxy _ IH]; intros Hy.
  - by apply not_elem_of_nil in Hy.
  - apply elem_of_cons in Hy as [-> | Hy].
    + exists x. split; [apply list_elem_of_here | done].
    + destruct (IH Hy) as (x' & Hx' & HR). exists x'. split; [by apply list_elem_of_further | done].
Qed.

Lemma clean_all_files_has_amount (paths : list (string * DataFrame))
    (config : option Cleaning.CleaningConfig) (out : DataFrame) (r : Row) :
  Cleaning.clean_all_files paths config = Ok out -> r ∈ rows out -> has_amount r.
Proof.
  unfold Cleaning.clean_all_files. destruct paths as [|p paths]; [discriminate|].
  destruct (mapM _ (p :: paths)) as [frames|e] eqn:Hm; [|discriminate].
  unfold bind. intros [= <-] Hr. cbn [Cleaning.pd_concat rows] in Hr.
  apply list_elem_of_In, in_concat in Hr as (l & Hl & Hr).
  apply in_map_iff in Hl as (df & <- & Hdf).
  apply in_map_iff in Hr as (r0 & <- & Hr0).
  apply list_elem_of_In in Hdf, Hr0.
  destruct (Forall2_elem_of_r _ _ _ _ (mapM_Forall2 _ _ _ Hm) Hdf) as (q & _ & Hq).
  destruct (clean_single_file_has_amount _ _ _ _ _ Hq Hr0) as (f & Hf & Hn).
  exists f. split; [|exact Hn]. by apply pad_row_lookup_Some.
Qed.

(** C3: every row of the table [clean_single_file] returns, and every row
    of the consolidated table [clean_all_files] returns, has a
    [refund_amount] that is a number and not NaN: the rows whose resolved
    amount is missing were dropped. *)
Theorem refund_amount_never_null :
  (forall (name : string) (raw : DataFrame) (config : option Cleaning.CleaningConfig)
          (out : DataFrame),
      Cleaning.clean_single_file name raw config = Ok out ->
      forall r : Row, r ∈ rows out -> has_amount r)
  /\ (forall (paths : list (string * DataFrame)) (config : option Cleaning.CleaningConfig)
             (out : DataFrame),
         Cleaning.clean_all_files paths config = Ok out ->
         forall r : Row, r ∈ rows out -> has_amount r).
Proof.
  split.
  - intros name raw config out Hc r Hr. by eapply clean_single_file_has_amount.
  - intros paths config out Hc r Hr. by eapply clean_all_files_has_amount.
Qed.

(** C1, amended: the category of every returned row is decided by its
    [BUSINESS_FORMAT_DATE] text, lower-cased: ["F&B"] when it contains
    ["f&b"], ["food"] or ["bar"], whether or not it contains ["accomm"];
    otherwise ["Accommodation"] when it contains ["accomm"]; otherwise
    ["Other"]. *)
Theorem category_food_and_bar_first (name : string) (raw : DataFrame)
    (config : option Cleaning.CleaningConfig) (out : DataFrame) (r : Row) :
  Cleaning.clean_single_file name raw config = Ok out ->
  r ∈ rows out ->
  let s := Str.lower (Cleaning.astype_str (Frame.cell r "BUSINESS_FORMAT_DATE")) in
  r !! "refund_category"
  = Some (if Str.contains "f&b" s || Str.contains "food" s || Str.contains "bar" s
          then CStr "F&B"
          else if Str.contains "accomm" s then CStr "Accommodation"
               else CStr "Other").
Proof.
  intros Hc Hr. destruct (clean_single_file_row _ _ _ _ _ Hc Hr) as (r0 & a & -> & _).
  cbv zeta. rewrite lookup_insert_eq. unfold row_category, Frame.cell.
  rewrite !(lookup_insert_ne _ "refund_category" "BUSINESS_FORMAT_DATE") by done.
  reflexivity.
Qed.

End NormalizationClaims.

(** C1, as stated, fails: the second refund of [brighton_november] reads
    ["REFUND Accomm / Bar"], which contains ["accomm"], and its category is
    ["F&B"], not ["Accommodation"]. *)
Lemma category_accomm_with_bar_is_food_and_bar :
  Examples.column_of "BUSINESS_FORMAT_DATE"
    (Cleaning.clean_single_file (P := Reference.pandas)
       "Brighton_November_refund.csv" Examples.brighton_november None)
  = Ok [CStr "Refund Accommodation"; CStr "REFUND Accomm / Bar"]
  /\ Str.contains "accomm" (Str.lower "REFUND Accomm / Bar") = true
  /\ Examples.column_of "refund_category"
       (Cleaning.clean_single_file (P := Reference.pandas)
          "Brighton_November_refund.csv" Examples.brighton_november None)
     = Ok [CStr "Accommodation"; CStr "F&B"].
Proof. vm_compute. repeat split. Qed.

Lemma category_food_and_bar_first_witness :
  exists (out : DataFrame) (r : Row),
    Cleaning.clean_single_file (P := Reference.pandas)
      "Brighton_November_refund.csv" Examples.brighton_november None = Ok out
    /\ rows out !! 1%nat = Some r
    /\ Frame.cell r "BUSINESS_FORMAT_DATE" = CStr "REFUND Accomm / Bar"
    /\ r !! "refund_category" = Some (CStr "F&B").
Proof.
  eexists. eexists. split; [vm_compute; reflexivity|].
  split; [reflexivity|]. split; [vm_compute; reflexivity|].
  refine (eq_trans
            (category_food_and_bar_first (P := Reference.pandas)
               "Brighton_November_refund.csv" Examples.brighton_november None _ _ _ _) _).
  - vm_compute. reflexivity.
  - apply list_elem_of_further, list_elem_of_here.
  - vm_compute. reflexivity.
Defined.

Lemma refund_amount_never_null_witness :
  exists out : DataFrame,
    Cleaning.clean_single_file (P := Reference.pandas)
      "Brighton_November_refund.csv" Examples.brighton_november None = Ok out
    /\ length (rows out) = 2%nat
    /\ (forall r : Row, r ∈ rows out -> has_amount r)
    /\ exists all : DataFrame,
        Cleaning.clean_all_files (P := Reference.pandas)
          [("Brighton_November_refund.csv", Examples.brighton_november);
           ("Newhaven_Jan_refund.csv", Examples.brighton_november)] None = Ok all
        /\ length (rows all) = 4%nat
        /\ forall r : Row, r ∈ rows all -> has_amount r.
Proof.
  eexists. split; [vm_compute; reflexivity|]. split; [reflexivity|].
  split.
  - apply (proj1 (refund_amount_never_null (P := Reference.pandas))
             "Brighton_November_refund.csv" Examples.brighton_november None).
    vm_compute. reflexivity.
  - eexists. split; [vm_compute; reflexivity|]. split; [reflexivity|].
    apply (proj2 (refund_amount_never_null (P := Reference.pandas))
             [("Brighton_November_refund.csv", Examples.brighton_november);
              ("Newhaven_Jan_refund.csv", Examples.brighton_november)] None).
    vm_compute. reflexivity.
Defined.

(** ** Transaction date and refund amount *)

Section Resolution.
Context {P : Pandas}.

Lemma fillna_step (df : DataFrame) (dt : list (option Timestamp)) (c : string)
    (i : nat) (v : option Timestamp) :
  length dt = length (rows df) ->
  dt !! i = Some v ->
  let dt' := if Frame.has_column df c
             then Frame.fillna dt (Cleaning._to_dt (Frame.column df c)) else dt in
  length dt' = length (rows df) /\ dt' !! i = Some (or_else v (parsed_at df c i)).
Proof.
  intros Hlen Hv. unfold parsed_at. cbv zeta.
  destruct (Frame.has_column df c).
  - unfold Frame.fillna, Cleaning._to_dt.
    assert (Hl : length (to_datetime true (Frame.column df c)) = length (rows df))
      by (rewrite to_datetime_length; unfold Frame.column; apply length_map).
    split; [rewrite length_zip_with; lia|].
    rewrite lookup_zip_with, Hv. cbn [mbind option_bind].
    destruct (to_datetime true (Frame.column df c) !! i) as [w|] eqn:Hw.
    + cbn [mbind option_bind]. destruct v, w; reflexivity.
    + apply lookup_ge_None in Hw. apply lookup_lt_Some in Hv. lia.
  - split; [exact Hlen|]. rewrite Hv. destruct v; reflexivity.
Qed.

Lemma build_transaction_date_lookup (df : DataFrame) (i : nat) :
  (i < length (rows df))%nat ->
  Cleaning.build_transaction_date df !! i
  = Some (or_else (parsed_at df "BUSINESS_DATE" i)
            (or_else (parsed_at df "BUSINESS_TIME" i)
                     (parsed_at df "BUSINESS_FORMAT_DATE" i))).
Proof.
  intros Hi. unfold Cleaning.build_transaction_date. cbv zeta.
  set (dt0 := map (fun _ => @None Timestamp) (rows df)).
  assert (H0 : length dt0 = length (rows df)) by apply length_map.
  assert (V0 : dt0 !! i = Some None).
  { subst dt0. rewrite list_lookup_fmap.
    destruct (rows df !! i) eqn:E; [reflexivity|].
    apply lookup_ge_None in E. lia. }
  destruct (fillna_step df dt0 "BUSINESS_DATE" i None H0 V0) as [H1 V1].
  destruct (fillna_step df _ "BUSINESS_TIME" i _ H1 V1) as [H2 V2].
  destruct (fillna_step df _ "BUSINESS_FORMAT_DATE" i _ H2 V2) as [_ V3].
  rewrite V3. f_equal.
  destruct (parsed_at df "BUSINESS_DATE" i), (parsed_at df "BUSINESS_TIME" i); reflexivity.
Qed.

(** C4: the transaction date of row [i] is the first value, in the order
    [BUSINESS_DATE], [BUSINESS_TIME], [BUSINESS_FORMAT_DATE], that the
    day-first parse of the field gives at that row; each field is parsed
    over all the rows, and a later field only fills the rows still
    without a date.  So a row whose [BUSINESS_DATE] gives no date and
    whose [BUSINESS_TIME] parses takes the date of [BUSINESS_TIME],
    whatever [BUSINESS_FORMAT_DATE] holds. *)
Theorem transaction_date_is_row_coalesce (df : DataFrame) (i : nat) :
  (i < length (rows df))%nat ->
  Cleaning.build_transaction_date df !! i
  = Some (or_else (parsed_at df "BUSINESS_DATE" i)
            (or_else (parsed_at df "BUSINESS_TIME" i)
                     (parsed_at df "BUSINESS_FORMAT_DATE" i)))
  /\ (forall t : Timestamp,
         parsed_at df "BUSINESS_DATE" i = None ->
         parsed_at df "BUSINESS_TIME" i = Some t ->
         Cleaning.build_transaction_date df !! i = Some (Some t)).
Proof.
  intros Hi. split; [by apply build_transaction_date_lookup|].
  intros t H1 H2. rewrite build_transaction_date_lookup by done.
  rewrite H1, H2. reflexivity.
Qed.

Lemma build_refund_amount_lookup (df : DataFrame) (config : Cleaning.CleaningConfig)
    (i : nat) (r : Row) :
  rows df !! i = Some r ->
  Frame.has_column df "ROOM" = true ->
  Cleaning.build_refund_amount df config !! i
  = Some (Cleaning.where_le (Cleaning.max_refund_amount config)
                            (abs (Cleaning.to_numeric (Frame.cell r "ROOM")))).
Proof.
  intros Hr Hc. rewrite build_refund_amount_rows, list_lookup_fmap, Hr, Hc. reflexivity.
Qed.

Lemma where_le_None_iff (ceiling amt : float) :
  is_nan amt = false -> is_nan ceiling = false ->
  Cleaning.where_le ceiling amt = None <-> (ceiling <? amt)%float = true.
Proof.
  intros Ha Hc. unfold Cleaning.where_le.
  rewrite (float_leb_negb_ltb amt ceiling Ha Hc).
  destruct (ceiling <? amt)%float; simpl; split; congruence.
Qed.

End Resolution.

(** The ceiling, on a [ROOM] column read at the dtype [float64] (C5 on
    such a column): the amount of a row is the absolute value of the
    numeric reading of [ROOM], kept when it is at most the ceiling and
    missing otherwise; for numbers that are not NaN the missing ones are
    exactly those strictly greater than the ceiling.  With the default
    ceiling 1000.0 the value 1000.0 is kept, 1000.01 is missing, and in
    [brighton_november] the row of 1000.01 is dropped while the row of
    1000.0 stays.  A column that pandas reads at [int64] is outside this
    statement: there the absolute value is taken in 64 bits, so [-2^63]
    stays negative, passes the ceiling and is kept. *)
Theorem refund_amount_ceiling :
  (forall (P : Pandas) (df : DataFrame) (config : Cleaning.CleaningConfig)
          (i : nat) (r : Row),
      rows df !! i = Some r ->
      Frame.has_column df "ROOM" = true ->
      let a := abs (Cleaning.to_numeric (Frame.cell r "ROOM")) in
      Cleaning.build_refund_amount df config !! i
      = Some (if (a <=? Cleaning.max_refund_amount config)%float then Some a else None)
      /\ (is_nan a = false ->
          is_nan (Cleaning.max_refund_amount config) = false ->
          Cleaning.build_refund_amount df config !! i = Some None
          <-> (Cleaning.max_refund_amount config <? a)%float = true))
  /\ Cleaning.where_le (Cleaning.max_refund_amount Cleaning.default_config)
                       (abs 1000.0) = Some 1000.0%float
  /\ Cleaning.where_le (Cleaning.max_refund_amount Cleaning.default_config)
                       (abs (-1000.0)) = Some 1000.0%float
  /\ Cleaning.where_le (Cleaning.max_refund_amount Cleaning.default_config)
                       (abs 1000.01) = None
  /\ Examples.column_of "ROOM"
       (Cleaning.clean_single_file (P := Reference.pandas)
          "Brighton_November_refund.csv" Examples.brighton_november None)
     = Ok [CNum (-45.5); CNum 1000.0]
  /\ Examples.column_of "refund_amount"
       (Cleaning.clean_single_file (P := Reference.pandas)
          "Brighton_November_refund.csv" Examples.brighton_november None)
     = Ok [CNum 45.5; CNum 1000.0].
Proof.
  split.
  - intros P df config i r Hr Hc a.
    pose proof (build_refund_amount_lookup df config i r Hr Hc) as Hl.
    fold a in Hl. split; [exact Hl|].
    intros Ha Hm. rewrite Hl. rewrite <- (where_le_None_iff _ _ Ha Hm).
    split; [intros [= E] | intros ->]; done.
  - vm_compute. repeat split.
Qed.

Lemma transaction_date_is_row_coalesce_witness :
  Cleaning.build_transaction_date (P := Reference.pandas) Examples.date_fallback !! 0%nat
  = Some (Some Examples.january_15_2026).
Proof.
  apply (proj2 (transaction_date_is_row_coalesce (P := Reference.pandas)
                  Examples.date_fallback 0 ltac:(vm_compute; lia))).
  - vm_compute. reflexivity.
  - vm_compute. reflexivity.
Defined.

Lemma refund_amount_ceiling_witness :
  Cleaning.build_refund_amount (P := Reference.pandas)
    Examples.brighton_november Cleaning.default_config !! 2%nat = Some None
  <-> (1000.0 <? abs 1000.01)%float = true.
Proof.
  refine (proj2 (proj1 refund_amount_ceiling Reference.pandas
                   Examples.brighton_november Cleaning.default_config 2%nat
                   (Examples.row_of
                      [("BUSINESS_FORMAT_DATE", CStr "Refund food");
                       ("BUSINESS_DATE", CStr "02/11/2025"); ("BUSINESS_TIME", CNull);
                       ("ROOM", CNum 1000.01); ("RECEIPT_NO", CStr "R3");
                       ("Unnamed: 5", CNull)])
                   _ _) _ _); vm_compute; reflexivity.
Defined.

(** ** The composite score *)

Section Sqri.
Context {P : Pandas}.

Lemma accommodation_share_total (a t : float) :
  Metrics.accommodation_share a t
  = Ok (if (t =? 0)%float then 0.0%float else (a / t)%float).
Proof.
  unfold Metrics.accommodation_share, Metrics.truthy, Metrics.truediv.
  destruct (t =? 0)%float; reflexivity.
Qed.

Lemma sqri_row_Ok (w : Metrics.SQRIWeights)
    (s1 s2 s3 : list (list Cell * float)) (p : list Cell * float) (r : Metrics.SqriRow) :
  Metrics.sqri_row w s1 s2 s3 p = Ok r ->
  Metrics.site r = nth 0 (fst p) CNull
  /\ Metrics.accommodation_share_value r
     = (if (Metrics.total_value r =? 0)%float then 0.0
        else Metrics.accommodation_value r / Metrics.total_value r)%float
  /\ Metrics.sqri_score r
     = (Metrics.accommodation_share_value r * Metrics.accommodation_share_weight w
        + Metrics.accommodation_avg r / 100.0 * Metrics.accommodation_avg_weight w
        + Metrics.high_value_share r * Metrics.high_value_share_weight w)%float.
Proof.
  unfold Metrics.sqri_row. cbv zeta. rewrite accommodation_share_total.
  unfold bind. intros [= <-]. cbn. repeat split.
Qed.

Lemma sqri_row_never_raises (w : Metrics.SQRIWeights)
    (s1 s2 s3 : list (list Cell * float)) (p : list Cell * float) (e : Error) :
  Metrics.sqri_row w s1 s2 s3 p <> Raise e.
Proof.
  unfold Metrics.sqri_row. cbv zeta. rewrite accommodation_share_total. discriminate.
Qed.

(** Every row of the result of [sqri] is a row built by [sqri_row] from a
    group of [sqri_rows df] by site. *)
Lemma sqri_Ok_row (df : DataFrame) (w : option Metrics.SQRIWeights) (thr : float)
    (out : list Metrics.SqriRow) (r : Metrics.SqriRow) :
  Metrics.sqri df w thr = Ok out ->
  r ∈ out ->
  exists (s1 s2 s3 : list (list Cell * float)) (g : list Cell * list Row),
    g ∈ Group.groupby ["site"] true (Metrics.sqri_rows df)
    /\ Metrics.sqri_row (default Metrics.default_weights w) s1 s2 s3
         (fst g, Group.fsum (Group.values "refund_amount" (snd g))) = Ok r.
Proof.
  unfold Metrics.sqri. cbv zeta.
  destruct (Frame.empty df).
  { intros [= <-] Hr. by apply not_elem_of_nil in Hr. }
  destruct (negb (Frame.has_column df "refund_amount")); [discriminate|].
  destruct (negb (Frame.has_column df "site")); [discriminate|].
  destruct (negb (Frame.has_column df "refund_category")); [discriminate|].
  destruct (mapM _ _) as [out0|e] eqn:Hm; [|discriminate].
  unfold bind. intros [= <-] Hr.
  unfold Group.sort_values_desc in Hr. rewrite merge_sort_Permutation in Hr.
  destruct (Forall2_elem_of_r _ _ _ _ (mapM_Forall2 _ _ _ Hm) Hr) as (p & Hp & Hrow).
  apply list_elem_of_fmap in Hp as (g & -> & Hg).
  eexists _, _, _, g. split; [exact Hg | exact Hrow].
Qed.

End Sqri.

(** C7: [sqri] never fails with a division by zero; the share of every
    output row is 0.0 when its [total_value] is zero and
    [accommodation_value / total_value] otherwise, so the division is made
    only on a non-zero total; and a row whose total is zero still has its
    score, computed with a share of 0.0. *)
Theorem sqri_division_guard :
  (forall (P : Pandas) (df : DataFrame) (w : option Metrics.SQRIWeights) (thr : float),
      Metrics.sqri df w thr <> Raise ZeroDivisionError)
  /\ (forall (P : Pandas) (a t : float),
         Metrics.accommodation_share a t
         = if (t =? 0)%float then Ok 0.0%float else Metrics.truediv a t)
  /\ (forall (P : Pandas) (df : DataFrame) (w : option Metrics.SQRIWeights) (thr : float)
             (out : list Metrics.SqriRow) (r : Metrics.SqriRow),
         Metrics.sqri df w thr = Ok out ->
         r ∈ out ->
         (Metrics.total_value r =? 0)%float = true ->
         Metrics.accommodation_share_value r = 0.0%float
         /\ Metrics.sqri_score r
            = (0.0 * Metrics.accommodation_share_weight (default Metrics.default_weights w)
               + Metrics.accommodation_avg r / 100.0
                 * Metrics.accommodation_avg_weight (default Metrics.default_weights w)
               + Metrics.high_value_share r
                 * Metrics.high_value_share_weight (default Metrics.default_weights w))%float).
Proof.
  split; [|split].
  - intros P df w thr. unfold Metrics.sqri. cbv zeta.
    destruct (Frame.empty df); [discriminate|].
    destruct (negb (Frame.has_column df "refund_amount")); [discriminate|].
    destruct (negb (Frame.has_column df "site")); [discriminate|].
    destruct (negb (Frame.has_column df "refund_category")); [discriminate|].
    destruct (mapM _ _) as [out0|e] eqn:Hm; [discriminate|].
    apply mapM_Raise in Hm as (p & _ & Hp). by apply sqri_row_never_raises in Hp.
  - intros P a t. unfold Metrics.accommodation_share, Metrics.truthy, Metrics.truediv.
    destruct (t =? 0)%float; reflexivity.
  - intros P df w thr out r Ho Hr Hz.
    destruct (sqri_Ok_row df w thr out r Ho Hr) as (s1 & s2 & s3 & g & _ & Hrow).
    apply sqri_row_Ok in Hrow as (_ & Hshare & Hscore).
    rewrite Hz in Hshare. split; [exact Hshare|].
    rewrite Hscore, Hshare. reflexivity.
Qed.

Lemma sqri_division_guard_witness :
  exists (out : list Metrics.SqriRow) (r : Metrics.SqriRow),
    Metrics.sqri (P := Reference.pandas) Examples.consolidated None 100.0 = Ok out
    /\ out !! 1%nat = Some r
    /\ Metrics.site r = CStr "Newhaven"
    /\ Metrics.total_value r = 0.0%float
    /\ Metrics.accommodation_share_value r = 0.0%float
    /\ Metrics.sqri_score r = 0.0%float.
Proof.
  eexists. eexists. split; [vm_compute; reflexivity|].
  split; [reflexivity|]. split; [reflexivity|]. split; [reflexivity|].
  pose proof (proj2 (proj2 sqri_division_guard) Reference.pandas
                Examples.consolidated None 100.0%float) as Hg.
  split.
  - refine (proj1 (Hg _ _ _ _ _)).
    + vm_compute. reflexivity.
    + apply list_elem_of_further, list_elem_of_here.
    + vm_compute. reflexivity.
  - reflexivity.
Defined.

(** ** Group keys *)

Section GroupKeys.

Lemma date_eqb_eq (a b : Date) : Group.date_eqb a b = true <-> a = b.
Proof.
  unfold Group.date_eqb. rewrite !andb_true_iff, !Z.eqb_eq.
  destruct a, b; simpl. split; [intros [[-> ->] ->]; reflexivity | intros [= -> -> ->]; auto].
Qed.

Lemma time_eqb_eq (a b : Timestamp) : Group.time_eqb a b = true <-> a = b.
Proof.
  unfold Group.time_eqb. rewrite andb_true_iff, date_eqb_eq, Z.eqb_eq.
  destruct a, b; simpl. split; [intros [-> ->]; reflexivity | intros [= -> ->]; auto].
Qed.

(** Two numbers are the same key: equal, or both NaN. *)
Lemma num_same_trans (f g h : float) :
  (f =? g)%float || (is_nan f && is_nan g) = true ->
  (g =? h)%float || (is_nan g && is_nan h) = true ->
  (f =? h)%float || (is_nan f && is_nan h) = true.
Proof.
  rewrite !orb_true_iff, !andb_true_iff.
  intros [E1 | [N1 N2]] [E2 | [N3 N4]].
  - left. by eapply float_eqb_trans.
  - apply float_eqb_not_nan in E1 as [_ E1]. congruence.
  - apply float_eqb_not_nan in E2 as [E2 _]. congruence.
  - right. auto.
Qed.

Lemma nan_same (f g : float) :
  is_nan f = true -> (f =? g)%float || (is_nan f && is_nan g) = true -> is_nan g = true.
Proof.
  intros Hf. rewrite orb_true_iff, andb_true_iff. intros [E | [_ Hg]]; [|exact Hg].
  apply float_eqb_not_nan in E as [E _]. congruence.
Qed.

Lemma nan_same_l (f g : float) :
  is_nan g = true -> (f =? g)%float || (is_nan f && is_nan g) = true -> is_nan f = true.
Proof.
  intros Hg. rewrite orb_true_iff, andb_true_iff. intros [E | [Hf _]]; [|exact Hf].
  apply float_eqb_not_nan in E as [_ E]. congruence.
Qed.

Lemma cell_eqb_refl (a : Cell) : Group.cell_eqb a a = true.
Proof.
  destruct a as [|s|f|t|d]; simpl.
  - reflexivity.
  - apply String.eqb_refl.
  - unfold is_nan. destruct (f =? f)%float; reflexivity.
  - by apply time_eqb_eq.
  - by apply date_eqb_eq.
Qed.

Lemma cell_eqb_trans (a b c : Cell) :
  Group.cell_eqb a b = true -> Group.cell_eqb b c = true -> Group.cell_eqb a c = true.
Proof.
  destruct a as [|s1|f1|t1|d1], b as [|s2|f2|t2|d2], c as [|s3|f3|t3|d3];
    simpl; try discriminate; intros H1 H2;
    first [ done
          | by (apply String.eqb_eq in H1; subst)
          | by (apply time_eqb_eq in H1; subst)
          | by (apply date_eqb_eq in H1; subst)
          | by eapply num_same_trans
          | by eapply nan_same
          | by apply (nan_same_l _ _ H2 H1)
          | by rewrite H1, H2, ?orb_true_r ].
Qed.

Lemma cell_eqb_sym (a b : Cell) : Group.cell_eqb a b = Group.cell_eqb b a.
Proof.
  destruct a as [|s1|f1|t1|d1], b as [|s2|f2|t2|d2]; simpl; try reflexivity.
  - apply String.eqb_sym.
  - rewrite float_eqb_sym, (andb_comm (is_nan f1)). reflexivity.
  - apply eq_true_iff_eq. rewrite !time_eqb_eq. split; congruence.
  - apply eq_true_iff_eq. rewrite !date_eqb_eq. split; congruence.
Qed.

Lemma cell_eqb_isna (a b : Cell) :
  Group.cell_eqb a b = true -> Frame.isna a = Frame.isna b.
Proof.
  destruct a as [|s1|f1|t1|d1], b as [|s2|f2|t2|d2]; simpl; try discriminate; try reflexivity.
  - intros ->. reflexivity.
  - intros ->. reflexivity.
  - rewrite orb_true_iff, andb_true_iff. intros [E | [-> ->]]; [|reflexivity].
    apply float_eqb_not_nan in E as [-> ->]. reflexivity.
Qed.

Lemma key_eqb_refl (k : list Cell) : Group.key_eqb k k = true.
Proof. induction k as [|a k IH]; simpl; [reflexivity|]. by rewrite cell_eqb_refl. Qed.

Lemma key_eqb_trans (k1 k2 k3 : list Cell) :
  Group.key_eqb k1 k2 = true -> Group.key_eqb k2 k3 = true -> Group.key_eqb k1 k3 = true.
Proof.
  revert k2 k3. induction k1 as [|a k1 IH]; intros [|b k2] [|c k3]; simpl;
    try discriminate; try reflexivity.
  rewrite !andb_true_iff. intros [H1 H2] [H3 H4]. split.
  - by eapply cell_eqb_trans.
  - by eapply IH.
Qed.

Lemma key_eqb_sym (k1 k2 : list Cell) : Group.key_eqb k1 k2 = Group.key_eqb k2 k1.
Proof.
  revert k2. induction k1 as [|a k1 IH]; intros [|b k2]; simpl; try reflexivity.
  by rewrite cell_eqb_sym, IH.
Qed.


Lemma distinct_elem_of (ks : list (list Cell)) (k : list Cell) :
  k ∈ Group.distinct ks -> k ∈ ks.
Proof.
  induction ks as [|k1 ks IH]; simpl; [done|].
  intros [-> | Hk]%elem_of_cons; [apply list_elem_of_here|].
  apply list_elem_of_filter in Hk as [_ Hk]. by apply list_elem_of_further, IH.
Qed.

(** Every key has its representative among the distinct ones. *)
Lemma distinct_complete (ks : list (list Cell)) (k : list Cell) :
  k ∈ ks -> exists k0, k0 ∈ Group.distinct ks /\ Group.key_eqb k0 k = true.
Proof.
  induction ks as [|k1 ks IH]; simpl; [by intros ?%not_elem_of_nil|].
  intros [-> | Hk]%elem_of_cons.
  - exists k1. split; [apply list_elem_of_here | apply key_eqb_refl].
  - destruct (IH Hk) as (k0 & Hk0 & He).
    destruct (Group.key_eqb k1 k0) eqn:E.
    + exists k1. split; [apply list_elem_of_here | by eapply key_eqb_trans].
    + exists k0. split; [|exact He].
      by apply list_elem_of_further, list_elem_of_filter.
Qed.

Lemma StronglySorted_filter_keep {A} (R : A -> A -> Prop) (Q : A -> Prop)
    `{forall x, Decision (Q x)} (l : list A) :
  StronglySorted R l -> StronglySorted R (filter Q l).
Proof.
  induction 1 as [|x l Hl IH Hx]; [constructor|].
  rewrite filter_cons. case_decide; [|exact IH].
  constructor; [exact IH|].
  apply List.Forall_forall. intros y Hy.
  apply list_elem_of_In, list_elem_of_filter in Hy.
  rewrite List.Forall_forall in Hx. apply Hx, list_elem_of_In. tauto.
Qed.

(** No two of the distinct keys are the same key. *)
Lemma distinct_apart (ks : list (list Cell)) :
  StronglySorted (fun k k' => Group.key_eqb k k' = false) (Group.distinct ks).
Proof.
  induction ks as [|k1 ks IH]; simpl; [constructor|].
  constructor.
  - by apply StronglySorted_filter_keep.
  - apply List.Forall_forall. intros k Hk.
    apply list_elem_of_In, list_elem_of_filter in Hk. tauto.
Qed.

Lemma groupby_elem_of (by_cols : list string) (dropna : bool) (rs : list Row)
    (g : list Cell * list Row) :
  g ∈ Group.groupby by_cols dropna rs ->
  (exists r, r ∈ Group.grouped_rows by_cols dropna rs /\ fst g = Group.key_of by_cols r)
  /\ snd g = filter (fun r => Group.key_eqb (Group.key_of by_cols r) (fst g) = true)
                    (Group.grouped_rows by_cols dropna rs).
Proof.
  unfold Group.groupby. cbv zeta. intros (k & -> & Hk)%list_elem_of_fmap.
  split; [|reflexivity]. cbn [fst].
  rewrite merge_sort_Permutation in Hk. apply distinct_elem_of in Hk.
  apply list_elem_of_fmap in Hk as (r & -> & Hr). eauto.
Qed.

Lemma groupby_complete (by_cols : list string) (dropna : bool) (rs : list Row) (r : Row) :
  r ∈ Group.grouped_rows by_cols dropna rs ->
  exists g, g ∈ Group.groupby by_cols dropna rs
            /\ Group.key_eqb (fst g) (Group.key_of by_cols r) = true.
Proof.
  intros Hr. unfold Group.groupby. cbv zeta.
  destruct (distinct_complete (map (Group.key_of by_cols)
                                   (Group.grouped_rows by_cols dropna rs))
                              (Group.key_of by_cols r)) as (k0 & Hk0 & He).
  { apply list_elem_of_fmap. eauto. }
  eexists (k0, _). split; [|exact He].
  apply list_elem_of_fmap. exists k0. split; [reflexivity|].
  by rewrite merge_sort_Permutation.
Qed.

Lemma groupby_dropna_key (by_cols : list string) (rs : list Row)
    (g : list Cell * list Row) :
  g ∈ Group.groupby by_cols true rs -> Group.key_has_null (fst g) = false.
Proof.
  intros [(r & Hr & ->) _]%groupby_elem_of.
  unfold Group.grouped_rows in Hr. apply list_elem_of_filter in Hr. tauto.
Qed.

End GroupKeys.

(** ** Rows without a site *)

Section NullSite.
Context {P : Pandas}.

Lemma sqri_rows_drop_null_site (df : DataFrame) :
  Metrics.sqri_rows (drop_null_site df) = Metrics.sqri_rows df.
Proof.
  unfold Metrics.sqri_rows, Frame.column. cbv zeta. cbn [Frame.set_column rows drop_null_site].
  rewrite !List.map_map, !zip_with_map_same.
  induction (rows df) as [|x l IH]; [reflexivity|].
  rewrite filter_cons. cbn [map]. rewrite (filter_cons _ (<[_ := _]> x)).
  case_decide as Hx.
  - cbn [map]. rewrite filter_cons, IH. reflexivity.
  - rewrite IH. case_decide as Hy; [|reflexivity].
    destruct Hy as [_ Hy]. unfold Frame.cell in Hy, Hx.
    rewrite lookup_insert_ne in Hy by done. contradiction.
Qed.

Lemma sqri_drop_null_site (df : DataFrame) (w : option Metrics.SQRIWeights) (thr : float)
    (out : list Metrics.SqriRow) :
  Metrics.sqri df w thr = Ok out -> Metrics.sqri (drop_null_site df) w thr = Ok out.
Proof.
  unfold Metrics.sqri. cbv zeta. rewrite sqri_rows_drop_null_site.
  destruct (Frame.empty df) eqn:Ee.
  - intros [= <-].
    assert (Frame.empty (drop_null_site df) = true) as ->; [|reflexivity].
    unfold Frame.empty in *. cbn [drop_null_site rows columns].
    destruct (rows df); [reflexivity|]. destruct (columns df); [|discriminate].
    by destruct (filter _ _).
  - destruct (Frame.empty (drop_null_site df)) eqn:Ed; [|intros Ho; exact Ho].
    assert (Hrows : Metrics.sqri_rows df = []).
    { rewrite <- sqri_rows_drop_null_site. unfold Metrics.sqri_rows. cbv zeta.
      cbn [Frame.set_column rows]. unfold Frame.empty in Ed, Ee.
      cbn [drop_null_site rows columns] in *.
      destruct (filter _ (rows df)); [reflexivity|].
      destruct (rows df); [discriminate|]. destruct (columns df); discriminate. }
    rewrite Hrows.
    destruct (negb (Frame.has_column df "refund_amount")); [discriminate|].
    destruct (negb (Frame.has_column df "site")); [discriminate|].
    destruct (negb (Frame.has_column df "refund_category")); [discriminate|].
    vm_compute. congruence.
Qed.

Lemma sqri_site_not_null (df : DataFrame) (w : option Metrics.SQRIWeights) (thr : float)
    (out : list Metrics.SqriRow) (r : Metrics.SqriRow) :
  Metrics.sqri df w thr = Ok out -> r ∈ out -> Frame.isna (Metrics.site r) = false.
Proof.
  intros Ho Hr.
  destruct (sqri_Ok_row df w thr out r Ho Hr) as (s1 & s2 & s3 & g & Hg & Hrow).
  apply sqri_row_Ok in Hrow as (-> & _). cbn [fst].
  pose proof (groupby_dropna_key _ _ _ Hg) as Hk.
  apply groupby_elem_of in Hg as [(r0 & _ & Hkey) _].
  rewrite Hkey in *. cbn in Hk. by apply orb_false_iff in Hk as [Hk _].
Qed.

Lemma aggregate_keeps_every_key (by_cols : list string) (df : DataFrame)
    (out : list Metrics.AggregateRow) (r : Row) :
  Metrics.aggregate by_cols df = Ok out ->
  r ∈ rows df ->
  exists a, a ∈ out /\ Group.key_eqb (Metrics.agg_key a) (Group.key_of by_cols r) = true.
Proof.
  unfold Metrics.aggregate. destruct (Metrics.missing_column df _); [discriminate|].
  destruct (negb (Frame.has_column df "refund_amount")); [discriminate|].
  intros [= <-] Hr.
  destruct (groupby_complete by_cols false (rows df) r Hr) as (g & Hg & He).
  eexists. split; [apply list_elem_of_fmap; exists g; split; [reflexivity | exact Hg]|].
  exact He.
Qed.

Lemma aggregate_keeps_null_site (c : string) (df : DataFrame)
    (out : list Metrics.AggregateRow) (r : Row) :
  Metrics.aggregate ["site"; c] df = Ok out ->
  r ∈ rows df ->
  Frame.isna (Frame.cell r "site") = true ->
  exists a, a ∈ out
            /\ Frame.isna (nth 0 (Metrics.agg_key a) CNull) = true
            /\ Group.key_eqb (Metrics.agg_key a) [Frame.cell r "site"; Frame.cell r c] = true.
Proof.
  intros Ho Hr Hn. destruct (aggregate_keeps_every_key _ _ _ _ Ho Hr) as (a & Ha & He).
  exists a. split; [exact Ha|]. split; [|exact He].
  cbn [Group.key_of map] in He. destruct (Metrics.agg_key a) as [|s k]; [discriminate|].
  cbn [Group.key_eqb] in He. apply andb_true_iff in He as [He _].
  cbn [nth]. by rewrite (cell_eqb_isna _ _ He).
Qed.

End NullSite.

(** C10: [sqri] has no output row for a missing site, and its result is
    the one it gives on the table without the rows whose site is missing:
    those rows enter none of the per-site aggregates.  The group-bys of
    [by_site_month] and [category_split] keep them: a row whose site is
    missing has its own group, keyed by the missing site. *)
Theorem sqri_excludes_null_site :
  (forall (P : Pandas) (df : DataFrame) (w : option Metrics.SQRIWeights) (thr : float)
          (out : list Metrics.SqriRow),
      Metrics.sqri df w thr = Ok out ->
      (forall r, r ∈ out -> Frame.isna (Metrics.site r) = false)
      /\ Metrics.sqri (drop_null_site df) w thr = Ok out)
  /\ (forall (P : Pandas) (df : DataFrame) (out : list Metrics.AggregateRow) (r : Row),
         Metrics.by_site_month df = Ok out ->
         r ∈ rows df ->
         Frame.isna (Frame.cell r "site") = true ->
         exists a, a ∈ out
                   /\ Frame.isna (nth 0 (Metrics.agg_key a) CNull) = true
                   /\ Group.key_eqb (Metrics.agg_key a)
                        [Frame.cell r "site"; Frame.cell r "file_month"] = true)
  /\ (forall (P : Pandas) (df : DataFrame) (out : list Metrics.AggregateRow) (r : Row),
         Metrics.category_split df = Ok out ->
         r ∈ rows df ->
         Frame.isna (Frame.cell r "site") = true ->
         exists a, a ∈ out
                   /\ Frame.isna (nth 0 (Metrics.agg_key a) CNull) = true
                   /\ Group.key_eqb (Metrics.agg_key a)
                        [Frame.cell r "site"; Frame.cell r "refund_category"] = true).
Proof.
  split; [|split].
  - intros P df w thr out Ho. split.
    + intros r Hr. by eapply sqri_site_not_null.
    + by apply sqri_drop_null_site.
  - intros P df out r. apply aggregate_keeps_null_site.
  - intros P df out r. apply aggregate_keeps_null_site.
Qed.

Lemma sqri_excludes_null_site_witness :
  (exists out : list Metrics.SqriRow,
      Metrics.sqri (P := Reference.pandas) Examples.consolidated None 100.0 = Ok out
      /\ map Metrics.site out = [CStr "Brighton"; CStr "Newhaven"]
      /\ Metrics.sqri (P := Reference.pandas) (drop_null_site Examples.consolidated) None 100.0
         = Ok out)
  /\ (exists (out : list Metrics.AggregateRow) (a : Metrics.AggregateRow),
         Metrics.by_site_month (P := Reference.pandas) Examples.consolidated = Ok out
         /\ length out = 3%nat
         /\ a ∈ out
         /\ Frame.isna (nth 0 (Metrics.agg_key a) CNull) = true).
Proof.
  split.
  - eexists. split; [vm_compute; reflexivity|]. split; [reflexivity|].
    refine (proj2 (proj1 sqri_excludes_null_site Reference.pandas
                     Examples.consolidated None 100.0%float _ _)).
    vm_compute. reflexivity.
  - eexists.
    destruct (proj1 (proj2 sqri_excludes_null_site) Reference.pandas Examples.consolidated
                (match Metrics.by_site_month (P := Reference.pandas)
                         Examples.consolidated with
                 | Ok o => o | Raise _ => [] end)
                (Examples.refund CNull "Jan-2026" CNull "R8" 30.0 "Other"))
      as (a & Ha & Hn & _).
    + vm_compute. reflexivity.
    + do 4 apply list_elem_of_further. apply list_elem_of_here.
    + vm_compute. reflexivity.
    + exists a. split; [vm_compute; reflexivity|]. split; [reflexivity|].
      split; [exact Ha | exact Hn].
Defined.

(** ** Duplicates *)

Section Duplicates.

Lemma filter_nonempty_iff {A} (p : A -> bool) (l : list A) :
  (1 <= length (filter (fun y => p y = true) l))%nat
  <-> exists j y, l !! j = Some y /\ p y = true.
Proof.
  induction l as [|x l IH].
  - simpl. split; [lia | intros (j & y & Hj & _); by rewrite lookup_nil in Hj].
  - rewrite filter_cons. destruct (p x) eqn:Hx.
    + rewrite decide_True by done. simpl. split; [|lia].
      intros _. exists 0%nat, x. auto.
    + rewrite decide_False by congruence. rewrite IH. split.
      * intros (j & y & Hj & Hy). exists (S j), y. auto.
      * intros ([|j] & y & Hj & Hy); simpl in Hj; [congruence|]. eauto.
Qed.

Lemma filter_twice_iff {A} (p : A -> bool) (l : list A) (i : nat) (x : A) :
  l !! i = Some x -> p x = true ->
  (2 <= length (filter (fun y => p y = true) l))%nat
  <-> exists j y, j <> i /\ l !! j = Some y /\ p y = true.
Proof.
  revert i. induction l as [|x0 l IH]; intros i Hi Hx; [by rewrite lookup_nil in Hi|].
  rewrite filter_cons. destruct i as [|i]; simpl in Hi.
  - injection Hi as ->. rewrite decide_True by done. simpl.
    rewrite <- Nat.succ_le_mono, filter_nonempty_iff. split.
    + intros (j & y & Hj & Hy). exists (S j), y. auto.
    + intros ([|j] & y & Hne & Hj & Hy); [done|]. simpl in Hj. eauto.
  - destruct (p x0) eqn:Hx0.
    + rewrite decide_True by done. simpl. rewrite <- Nat.succ_le_mono. split.
      * intros _. exists 0%nat, x0. auto.
      * intros _. apply filter_nonempty_iff. eauto.
    + rewrite decide_False by congruence. rewrite (IH i Hi Hx). split.
      * intros (j & y & Hne & Hj & Hy). exists (S j), y. auto.
      * intros ([|j] & y & Hne & Hj & Hy); simpl in Hj; [congruence|].
        exists j, y. auto.
Qed.

(** A row is marked by [duplicated(keep=False)] exactly when another row
    of the table has the same key. *)
Lemma duplicated_lookup (key_cols : list string) (rs : list Row) (i : nat) (r : Row) :
  rs !! i = Some r ->
  Validation.duplicated key_cols rs !! i = Some true
  <-> exists j r', j <> i /\ rs !! j = Some r'
                   /\ Group.key_eqb (Group.key_of key_cols r') (Group.key_of key_cols r) = true.
Proof.
  intros Hr. unfold Validation.duplicated. cbv zeta.
  rewrite !list_lookup_fmap, Hr. cbn [fmap option_fmap option_map].
  unfold Validation.occurrences.
  assert (Hk : map (Group.key_of key_cols) rs !! i = Some (Group.key_of key_cols r))
    by (by rewrite list_lookup_fmap, Hr).
  pose proof (filter_twice_iff (fun k' => Group.key_eqb k' (Group.key_of key_cols r))
                _ i _ Hk (key_eqb_refl _)) as Hiff.
  set (n := length (filter _ (map (Group.key_of key_cols) rs))) in *.
  destruct (Nat.leb_spec 2 n) as [Hle | Hlt].
  - split; [intros _ | reflexivity].
    apply Hiff in Hle as (j & k' & Hne & Hj & He).
    rewrite list_lookup_fmap in Hj.
    destruct (rs !! j) as [r'|] eqn:Hr'; [|discriminate].
    injection Hj as <-. eauto.
  - split; [discriminate|].
    intros (j & r' & Hne & Hj & He). exfalso.
    assert (2 <= n)%nat; [|lia]. apply Hiff.
    exists j, (Group.key_of key_cols r'). rewrite list_lookup_fmap, Hj. auto.
Qed.

Lemma select_none {A} (mask : list bool) (l : list A) :
  filter (fun b => b = true) mask = [] -> Frame.select mask l = [].
Proof.
  revert l. induction mask as [|b mask IH]; intros [|x l]; simpl; try reflexivity.
  rewrite filter_cons. destruct b.
  - rewrite decide_True by done. discriminate.
  - rewrite decide_False by done. auto.
Qed.

Lemma duplicate_check_present (df : DataFrame) (key_cols : list string) :
  (forall c, c ∈ key_cols -> Frame.has_column df c = true) ->
  Validation.duplicate_check df key_cols
  = <["duplicate_rows" :=
        Z.of_nat (length (filter (fun b => b = true)
                                 (Validation.duplicated key_cols (rows df))))]>
      (<["distinct_duplicate_keys" :=
           Z.of_nat (length (Group.distinct
                               (map (Group.key_of key_cols)
                                    (Frame.select (Validation.duplicated key_cols (rows df))
                                                  (rows df)))))]> ∅).
Proof.
  intros Hall. unfold Validation.duplicate_check. cbv zeta.
  assert (filter (fun c => Frame.has_column df c = false) key_cols = []) as ->.
  { induction key_cols as [|c cs IH]; [reflexivity|].
    rewrite filter_cons, decide_False.
    - apply IH. intros c' Hc'. by apply Hall, list_elem_of_further.
    - rewrite (Hall c) by apply list_elem_of_here. discriminate. }
  destruct (length (filter _ (Validation.duplicated key_cols (rows df)))) eqn:Hn;
    [|reflexivity].
  apply length_zero_iff_nil in Hn. by rewrite (select_none _ _ Hn).
Qed.

Lemma duplicate_check_missing (df : DataFrame) (key_cols : list string) (c : string) :
  c ∈ key_cols -> Frame.has_column df c = false ->
  Validation.duplicate_check df key_cols
  = <["duplicate_rows" := 0%Z]>
      (<["note_missing_key_cols" :=
           Z.of_nat (length (filter (fun c => Frame.has_column df c = false) key_cols))]> ∅)
  /\ (1 <= length (filter (fun c => Frame.has_column df c = false) key_cols))%nat.
Proof.
  intros Hc Hm. unfold Validation.duplicate_check. cbv zeta.
  destruct (filter _ key_cols) as [|c0 l] eqn:Hf.
  - assert (c ∈ filter (fun c => Frame.has_column df c = false) key_cols)
      by (by apply list_elem_of_filter).
    rewrite Hf in H. by apply not_elem_of_nil in H.
  - split; [reflexivity | simpl; lia].
Qed.

End Duplicates.

(** C8: when one of the key columns is absent the check does not fail: it
    reports zero duplicate rows and the number of absent key columns.
    Otherwise it reports the number of marked rows and the number of
    distinct keys among them, a row being marked exactly when another row
    of the table has the same key, so every member of a group of two or
    more counts.  In [consolidated] the two identical refunds give
    [duplicate_rows = 2] and [distinct_duplicate_keys = 1]; the third
    refund, which shares site, date and receipt but not the amount, is not
    counted. *)
Theorem duplicate_check_counts :
  (forall (df : DataFrame) (key_cols : list string) (c : string),
      c ∈ key_cols -> Frame.has_column df c = false ->
      Validation.duplicate_check df key_cols
      = <["duplicate_rows" := 0%Z]>
          (<["note_missing_key_cols" :=
               Z.of_nat (length (filter (fun c => Frame.has_column df c = false)
                                        key_cols))]> ∅)
      /\ (1 <= length (filter (fun c => Frame.has_column df c = false) key_cols))%nat)
  /\ (forall (df : DataFrame) (key_cols : list string),
         (forall c, c ∈ key_cols -> Frame.has_column df c = true) ->
         Validation.duplicate_check df key_cols
         = <["duplicate_rows" :=
               Z.of_nat (length (filter (fun b => b = true)
                                        (Validation.duplicated key_cols (rows df))))]>
             (<["distinct_duplicate_keys" :=
                  Z.of_nat (length (Group.distinct
                                      (map (Group.key_of key_cols)
                                           (Frame.select
                                              (Validation.duplicated key_cols (rows df))
                                              (rows df)))))]> ∅))
  /\ (forall (key_cols : list string) (rs : list Row) (i : nat) (r : Row),
         rs !! i = Some r ->
         Validation.duplicated key_cols rs !! i = Some true
         <-> exists j r', j <> i /\ rs !! j = Some r'
                          /\ Group.key_eqb (Group.key_of key_cols r')
                                           (Group.key_of key_cols r) = true)
  /\ Validation.duplicated Validation.default_key_cols (rows Examples.consolidated)
     = [true; true; false; false; false]
  /\ Validation.duplicate_check Examples.consolidated Validation.default_key_cols
     = <["duplicate_rows" := 2%Z]> (<["distinct_duplicate_keys" := 1%Z]> ∅)
  /\ Validation.duplicate_check Examples.date_fallback Validation.default_key_cols
     = <["duplicate_rows" := 0%Z]> (<["note_missing_key_cols" := 4%Z]> ∅).
Proof.
  split; [exact duplicate_check_missing|].
  split; [exact duplicate_check_present|].
  split; [exact duplicated_lookup|].
  vm_compute. repeat split.
Qed.

Lemma duplicate_check_counts_witness :
  Validation.duplicate_check Examples.date_fallback Validation.default_key_cols
  !! "note_missing_key_cols" = Some 4%Z
  /\ Validation.duplicate_check Examples.consolidated Validation.default_key_cols
     !! "duplicate_rows" = Some 2%Z
  /\ (Validation.duplicated Validation.default_key_cols (rows Examples.consolidated)
      !! 0%nat = Some true
      <-> exists j r', j <> 0%nat /\ rows Examples.consolidated !! j = Some r'
                       /\ Group.key_eqb
                            (Group.key_of Validation.default_key_cols r')
                            (Group.key_of Validation.default_key_cols
                               (Examples.refund (CStr "Brighton") "Nov-2025"
                                  (CTime Examples.november_1_2025) "R1" 45.5
                                  "Accommodation")) = true).
Proof.
  split; [|split].
  - rewrite (proj1 (proj1 duplicate_check_counts Examples.date_fallback
                      Validation.default_key_cols "site"
                      ltac:(apply list_elem_of_here) ltac:(vm_compute; reflexivity))).
    vm_compute. reflexivity.
  - rewrite (proj1 (proj2 duplicate_check_counts) Examples.consolidated
               Validation.default_key_cols).
    + vm_compute. reflexivity.
    + intros c Hc. repeat (apply elem_of_cons in Hc as [-> | Hc]; [vm_compute; reflexivity|]).
      by apply not_elem_of_nil in Hc.
  - apply (proj1 (proj2 (proj2 duplicate_check_counts))). reflexivity.
Defined.

(** ** Peak days *)

Section PeakDays.
Context {P : Pandas}.

#[local] Instance value_ge_by_total {A} (f : A -> float) : Total (Group.value_ge_by f).
Proof.
  intros a b. unfold Group.value_ge_by, Group.value_geb.
  destruct (is_nan (f b)) eqn:Hb; [by left|].
  destruct (is_nan (f a)) eqn:Ha; [by right|].
  simpl. destruct (float_leb_total (f a) (f b) Ha Hb) as [H | H]; auto.
Qed.

Lemma Sorted_take {A} (R : A -> A -> Prop) (n : nat) (l : list A) :
  Sorted R l -> Sorted R (take n l).
Proof.
  intros Hs. revert n. induction Hs as [|x l Hl IH Hx]; intros [|n]; simpl;
    try constructor.
  - apply IH.
  - destruct Hx as [|y l' Hxy]; destruct n; simpl; constructor. exact Hxy.
Qed.

Lemma head_is_take {A} (n : Z) (l : list A) :
  exists m : nat, Group.head n l = take m l /\ ((0 <= n)%Z -> m = Z.to_nat n).
Proof.
  unfold Group.head. destruct (0 <=? n)%Z eqn:E.
  - eexists. split; [reflexivity | reflexivity].
  - eexists. split; [reflexivity|]. apply Z.leb_gt in E. lia.
Qed.








Lemma peak_days_Ok (df : DataFrame) (top_n : Z) (out : list Metrics.PeakRow) :
  Frame.has_column df "transaction_date" = true ->
  Metrics.peak_days df top_n = Ok out ->
  out = Group.head top_n
          (Group.sort_values_desc Metrics.daily_refund_value
             (Metrics.peak_groups (Metrics.with_date_only df))).
Proof.
  intros Hc. unfold Metrics.peak_days. rewrite Hc. cbn [negb]. cbv zeta.
  destruct (negb (Frame.has_column _ "site")); [discriminate|].
  destruct (negb (Frame.has_column _ "refund_amount")); [discriminate|]. by intros [= <-].
Qed.

End PeakDays.



(** * Further properties of the pipeline *)

(** ** More on binary64 comparisons *)

Section FloatOrderMore.
Local Open Scope float_scope.

Lemma SFleb_trans x y z : SFleb x y = true -> SFleb y z = true -> SFleb x z = true.
Proof.
  unfold SFleb, SFcompare.
  destruct x as [[]|[]| |[] m1 e1], y as [[]|[]| |[] m2 e2], z as [[]|[]| |[] m3 e3];
    try discriminate; try reflexivity;
    change (Pos.compare_cont Eq) with Pos.compare;
    destruct (Z.compare_spec e1 e2), (Z.compare_spec e2 e3), (Z.compare_spec e1 e3);
    subst; try lia; try discriminate; try reflexivity;
    destruct (Pos.compare_spec m1 m2), (Pos.compare_spec m2 m3), (Pos.compare_spec m1 m3);
    subst; simpl; try lia; try discriminate; try reflexivity.
Qed.

Lemma float_leb_trans x y z :
  (x <=? y) = true -> (y <=? z) = true -> (x <=? z) = true.
Proof. rewrite !FloatAxioms.leb_spec. apply SFleb_trans. Qed.

Lemma float_leb_refl x : is_nan x = false -> (x <=? x) = true.
Proof. intros Hx. by destruct (float_leb_total x x Hx Hx). Qed.

Lemma float_leb_not_nan x y : (x <=? y) = true -> is_nan x = false /\ is_nan y = false.
Proof.
  rewrite FloatAxioms.leb_spec. unfold is_nan. rewrite !FloatAxioms.eqb_spec.
  unfold SFleb, SFeqb.
  destruct (Prim2SF x) as [[]|[]| |[] m1 e1], (Prim2SF y) as [[]|[]| |[] m2 e2];
    simpl; try discriminate; intros _;
    rewrite ?Z.compare_refl, ?Pos.compare_cont_refl; auto.
Qed.

Lemma float_ltb_leb x y : (x <? y) = true -> (x <=? y) = true.
Proof.
  rewrite FloatAxioms.ltb_spec, FloatAxioms.leb_spec. unfold SFltb, SFleb.
  destruct (SFcompare _ _) as [[]|]; done.
Qed.

End FloatOrderMore.

(** ** File names *)

Section FilenameOutcome.

Lemma contains_sep_cons (c a : ascii) (s : string) :
  Str.contains (String c EmptyString) (String a s)
  = Ascii.eqb a c || Str.contains (String c EmptyString) s.
Proof.
  cbn [Str.contains String.prefix]. destruct (ascii_dec c a) as [<- | Hne].
  - by rewrite prefix_empty, Ascii.eqb_refl.
  - destruct (Ascii.eqb_spec a c); [congruence | reflexivity].
Qed.

Lemma split_without_sep (c : ascii) (s : string) :
  Str.contains (String c EmptyString) s = false -> Str.split c s = [s].
Proof.
  induction s as [|a s IH]; [reflexivity|].
  rewrite contains_sep_cons. intros [Ha Hs]%orb_false_iff.
  cbn [Str.split]. by rewrite Ha, (IH Hs).
Qed.

Lemma split_nonempty (c : ascii) (s : string) : Str.split c s <> [].
Proof.
  destruct s as [|a s]; [discriminate|]. cbn [Str.split].
  destruct (Ascii.eqb a c); [discriminate|]. by destruct (Str.split c s).
Qed.

Lemma split_with_sep (c : ascii) (s : string) :
  Str.contains (String c EmptyString) s = true ->
  exists p0 p1 rest, Str.split c s = p0 :: p1 :: rest.
Proof.
  induction s as [|a s IH]; [discriminate|].
  rewrite contains_sep_cons. cbn [Str.split]. destruct (Ascii.eqb a c); simpl.
  - intros _. pose proof (split_nonempty c s).
    destruct (Str.split c s) as [|p1 rest]; [done | eauto].
  - intros (p0 & p1 & rest & ->)%IH. eauto.
Qed.

Lemma month_map_labels (k v : string) :
  Cleaning.month_map !! k = Some v -> v ∈ ["Nov-2025"; "Dec-2025"; "Jan-2026"].
Proof.
  unfold Cleaning.month_map. intros H.
  repeat (apply lookup_insert_Some in H as [[_ <-] | [_ H]]; [set_solver|]).
  by rewrite lookup_empty in H.
Qed.

Lemma site_map_labels (k v : string) :
  Cleaning.site_map !! k = Some v -> v ∈ ["Brighton"; "Newhaven"].
Proof.
  unfold Cleaning.site_map. intros H.
  repeat (apply lookup_insert_Some in H as [[_ <-] | [_ H]]; [set_solver|]).
  by rewrite lookup_empty in H.
Qed.

End FilenameOutcome.

(** X1: the outcome of resolving a file name.  It fails with the format
    error exactly when the base name, its [".csv"] removed, has no ["_"];
    it never fails with anything but a [ValueError]; and when it succeeds
    the month is one of the three labels of the deployment, and the site
    is ["Brighton"] or ["Newhaven"] or, for a token the site table does
    not know, the first segment itself, stripped of the white space
    around it, that of Unicode included: the no-break spaces (U+00A0)
    around ["York"] are removed as the blanks around ["Leeds"] are. *)
Theorem filename_outcome (filename : string) :
  let stem := Cleaning.strip_csv (Str.path_name filename) in
  Cleaning.parse_site_and_month_from_filename " York _nov.csv"
  = Ok ("York", "Nov-2025")
  /\ Cleaning.parse_site_and_month_from_filename " Leeds _ NOV _x.csv"
     = Ok ("Leeds", "Nov-2025")
  /\
  (Cleaning.parse_site_and_month_from_filename filename
   = Raise (ValueError ("Unexpected filename format: " ++ filename))
   <-> Str.contains "_" stem = false)
  /\ (forall e, Cleaning.parse_site_and_month_from_filename filename = Raise e ->
                exists msg, e = ValueError msg)
  /\ (forall site file_month,
         Cleaning.parse_site_and_month_from_filename filename = Ok (site, file_month) ->
         file_month ∈ ["Nov-2025"; "Dec-2025"; "Jan-2026"]
         /\ (site ∈ ["Brighton"; "Newhaven"]
             \/ exists p0, head (Str.split "_" stem) = Some p0
                           /\ site = Str.strip p0
                           /\ Cleaning.site_map !! Str.lower site = None)).
Proof.
  intros stem. split; [vm_compute; reflexivity|]. split; [vm_compute; reflexivity|].
  unfold Cleaning.parse_site_and_month_from_filename. cbv zeta. fold stem.
  destruct (Str.contains "_" stem) eqn:Hc.
  - destruct (split_with_sep "_" stem Hc) as (p0 & p1 & rest & ->).
    destruct (Cleaning.month_map !! _) as [m|] eqn:Hm.
    + split; [split; discriminate|]. split; [discriminate|].
      intros site fm [= <- <-]. split; [by eapply month_map_labels|].
      destruct (Cleaning.site_map !! _) as [s|] eqn:Hs; simpl.
      * left. by eapply site_map_labels.
      * right. exists p0. auto.
    + split; [split; [|discriminate]|].
      * intros [= H].
      * split; [intros e [= <-]; eauto | discriminate].
  - rewrite (split_without_sep "_" stem Hc).
    split; [done|]. split; [intros e [= <-]; eauto | discriminate].
Qed.

(** ** Padding columns *)

Section Unnamed.

Lemma lookup_foldr_delete (cs : list string) (r : Row) (c : string) :
  foldr delete r cs !! c = if decide (c ∈ cs) then None else r !! c.
Proof.
  induction cs as [|c0 cs IH]; cbn [foldr].
  - destruct (decide (c ∈ [])) as [H|_]; [by apply not_elem_of_nil in H | reflexivity].
  - destruct (decide (c0 = c)) as [-> | Hne].
    + rewrite lookup_delete_eq.
      destruct (decide (c ∈ c :: cs)) as [_|H]; [reflexivity|].
      exfalso. apply H, list_elem_of_here.
    + rewrite lookup_delete_ne by done. rewrite IH.
      destruct (decide (c ∈ cs)) as [Hin|Hnin], (decide (c ∈ c0 :: cs)) as [Hin'|Hnin'];
        try reflexivity.
      * exfalso. by apply Hnin', list_elem_of_further.
      * apply elem_of_cons in Hin' as [-> | Hin']; done.
Qed.

Lemma filter_ext_in {A} (Q1 Q2 : A -> Prop) `{forall x, Decision (Q1 x)}
    `{forall x, Decision (Q2 x)} (l : list A) :
  (forall x, x ∈ l -> Q1 x <-> Q2 x) -> filter Q1 l = filter Q2 l.
Proof.
  induction l as [|x l IH]; intros Hext; [reflexivity|].
  rewrite !filter_cons, IH by (intros y Hy; by apply Hext, list_elem_of_further).
  pose proof (Hext x (list_elem_of_here _ _)).
  repeat case_decide; tauto.
Qed.

Lemma drop_unnamed_columns_columns (df : DataFrame) :
  columns (Cleaning.drop_unnamed_columns df)
  = filter (fun c => Str.startswith "Unnamed:" c = false) (columns df).
Proof.
  unfold Cleaning.drop_unnamed_columns, Frame.drop_columns. cbv zeta. cbn [columns].
  apply filter_ext_in. intros c Hc. rewrite list_elem_of_filter.
  destruct (Str.startswith "Unnamed:" c).
  - split; [intros H; exfalso; apply H; by split | discriminate].
  - split; [reflexivity | intros _ [H _]; discriminate].
Qed.

End Unnamed.

(** X2: [drop_unnamed_columns] removes exactly the columns whose name
    starts with ["Unnamed:"]: the other columns stay, in their order; the
    rows stay, in their number and order; an entry under a kept name is
    unchanged, and no row keeps an entry under a removed column. *)
Theorem drop_unnamed_columns_spec (df : DataFrame) :
  columns (Cleaning.drop_unnamed_columns df)
  = filter (fun c => Str.startswith "Unnamed:" c = false) (columns df)
  /\ rows (Cleaning.drop_unnamed_columns df)
     = map (fun r => foldr delete r
                       (filter (fun c => Str.startswith "Unnamed:" c = true) (columns df)))
           (rows df)
  /\ length (rows (Cleaning.drop_unnamed_columns df)) = length (rows df)
  /\ (forall (i : nat) (r' : Row) (c : string),
         rows (Cleaning.drop_unnamed_columns df) !! i = Some r' ->
         exists r, rows df !! i = Some r
                   /\ (Str.startswith "Unnamed:" c = false -> r' !! c = r !! c)
                   /\ (Str.startswith "Unnamed:" c = true -> c ∈ columns df ->
                       r' !! c = None)).
Proof.
  split; [apply drop_unnamed_columns_columns|].
  unfold Cleaning.drop_unnamed_columns, Frame.drop_columns. cbv zeta. cbn [columns rows].
  split; [reflexivity|split; [apply length_map|]].
  intros i r' c Hi. rewrite list_lookup_fmap in Hi.
  destruct (rows df !! i) as [r|]; [|discriminate]. injection Hi as <-.
  exists r. split; [reflexivity|]. rewrite lookup_foldr_delete. split.
  - intros Hs. rewrite decide_False; [reflexivity|].
    intros [Hu _]%list_elem_of_filter. congruence.
  - intros Hs Hc. rewrite decide_True; [reflexivity|]. by apply list_elem_of_filter.
Qed.

(** ** The stages of [clean_single_file] *)

Section CleanStages.
Context {P : Pandas}.

Lemma length_select {A} (mask : list bool) (l : list A) :
  (length (Frame.select mask l) <= length l)%nat.
Proof.
  revert l. induction mask as [|b mask IH]; intros [|x l]; simpl; try lia.
  specialize (IH l). destruct b; simpl; lia.
Qed.

Lemma select_elem_of {A} (mask : list bool) (l : list A) (x : A) :
  x ∈ Frame.select mask l -> x ∈ l.
Proof.
  revert l. induction mask as [|b mask IH]; intros [|y l]; simpl;
    try (by intros ?%not_elem_of_nil).
  destruct b.
  - intros [-> | Hx]%elem_of_cons; [apply list_elem_of_here|].
    by apply list_elem_of_further, IH.
  - intros Hx. by apply list_elem_of_further, IH.
Qed.

Lemma clean_single_file_stages (name : string) (raw : DataFrame)
    (config : option Cleaning.CleaningConfig) (out : DataFrame) :
  Cleaning.clean_single_file name raw config = Ok out ->
  exists site file_month,
    Cleaning.parse_site_and_month_from_filename name = Ok (site, file_month)
    /\ let cfg := Cleaning.config_or_default config in
       let d := dated_stage site file_month raw cfg in
       rows out
       = map (fun r => <["refund_category" := row_category r]> r)
           (filter (fun r => Frame.isna (Frame.cell r "refund_amount") = false)
              (map (fun r => <["refund_amount" :=
                                 Cleaning.cell_of_amount
                                   (row_amount (Frame.has_column d "ROOM") cfg r)]> r)
                   (rows d)))
       /\ columns out
          = Frame.add_column_name "refund_category"
              (Frame.add_column_name "refund_amount" (columns d)).
Proof.
  unfold Cleaning.clean_single_file, Cleaning.add_file_metadata.
  destruct (Cleaning.parse_site_and_month_from_filename name) as [[site fm]|e];
    [|discriminate].
  unfold bind. cbv zeta. cbn [fst snd].
  set (cfg := Cleaning.config_or_default config).
  fold (refund_stage site fm raw cfg).
  fold (dated_stage site fm raw cfg).
  set (df4 := dated_stage site fm raw cfg).
  rewrite build_refund_amount_rows, List.map_map.
  set (df5 := Frame.set_column df4 "refund_amount" _).
  set (df6 := Frame.loc df5 _).
  assert (Hrows6 : rows df6
            = filter (fun r => Frame.isna (Frame.cell r "refund_amount") = false)
                (map (fun r => <["refund_amount" :=
                                   Cleaning.cell_of_amount
                                     (row_amount (Frame.has_column df4 "ROOM") cfg r)]> r)
                     (rows df4))).
  { subst df6 df5. unfold Frame.loc, Frame.column. cbn [Frame.set_column rows].
    rewrite zip_with_map_same.
    rewrite (List.map_map (fun r => Frame.cell r "refund_amount")
                          (fun c => negb (Frame.isna c))).
    rewrite (select_map_same (fun r => negb (Frame.isna (Frame.cell r "refund_amount")))).
    apply list_filter_iff. intros r. destruct (Frame.isna _); simpl; split; congruence. }
  assert (Hcols6 : columns df6 = Frame.add_column_name "refund_amount" (columns df4))
    by reflexivity.
  clearbody df6.
  intros Ho. exists site, fm. split; [reflexivity|]. cbv zeta.
  destruct (Frame.has_column df6 "BUSINESS_FORMAT_DATE") eqn:Hbfd; injection Ho as <-.
  - cbn [Frame.set_column rows columns]. unfold Frame.column.
    rewrite category_column, zip_with_map_same, Hrows6, Hcols6. split; reflexivity.
  - unfold Frame.set_scalar. cbn [Frame.set_column rows columns].
    rewrite zip_with_map_same, Hcols6. split; [|reflexivity].
    assert (Hempty : rows df6 = []).
    { rewrite Hrows6.
      assert (Hc : Frame.has_column df6 "BUSINESS_FORMAT_DATE"
                   = Frame.has_column
                       (Frame.set_scalar
                          (Frame.set_scalar (Cleaning.drop_unnamed_columns raw)
                             "site" (CStr site)) "file_month" (CStr fm))
                       "BUSINESS_FORMAT_DATE").
      { unfold Frame.has_column at 1. rewrite Hcols6. subst df4.
        unfold dated_stage, refund_stage. cbv zeta.
        cbn [Frame.set_column Frame.loc columns].
        apply eq_true_iff_eq. rewrite !bool_decide_eq_true, !elem_of_add_column_name.
        unfold Frame.has_column. rewrite bool_decide_eq_true. split; [|tauto].
        intros [? | [? | ?]]; done. }
      rewrite Hbfd in Hc.
      assert (rows df4 = []) as ->; [|reflexivity].
      subst df4. unfold dated_stage, refund_stage. cbv zeta.
      cbn [Frame.set_column Frame.loc rows]. unfold Cleaning.is_refund_row.
      rewrite <- Hc. cbn [negb]. by rewrite select_all_false. }
    change (dated_stage site fm raw cfg) with df4.
    rewrite <- Hrows6, Hempty. reflexivity.
Qed.

End CleanStages.

Section CleanRows.
Context {P : Pandas}.

Lemma refund_stage_row (site fm : string) (raw : DataFrame)
    (cfg : Cleaning.CleaningConfig) (r2 : Row) :
  r2 ∈ rows (refund_stage site fm raw cfg) ->
  exists r_raw, r_raw ∈ rows raw
                /\ r2 = tagged site fm raw r_raw
                /\ Cleaning.str_contains_nocase (Cleaning.refund_keyword cfg)
                     (Cleaning.astype_str (Frame.cell r2 "BUSINESS_FORMAT_DATE")) = true.
Proof.
  unfold refund_stage. cbv zeta. cbn [Frame.loc rows].
  set (df2 := Frame.set_scalar _ "file_month" _).
  assert (Hrows : rows df2 = map (tagged site fm raw) (rows raw)).
  { subst df2. unfold Frame.set_scalar. cbn [Frame.set_column rows].
    rewrite !zip_with_map_same.
    unfold Cleaning.drop_unnamed_columns, Frame.drop_columns. cbv zeta. cbn [rows].
    rewrite !List.map_map. reflexivity. }
  unfold Cleaning.is_refund_row. destruct (Frame.has_column df2 _); cbn [negb].
  - unfold Frame.column. rewrite List.map_map, select_map_same.
    intros [Hp Hr]%list_elem_of_filter. rewrite Hrows in Hr.
    apply list_elem_of_fmap in Hr as (r_raw & -> & Hraw). eauto.
  - rewrite select_all_false. by intros ?%not_elem_of_nil.
Qed.

Lemma dated_stage_row (site fm : string) (raw : DataFrame)
    (cfg : Cleaning.CleaningConfig) (r4 : Row) :
  r4 ∈ rows (dated_stage site fm raw cfg) ->
  exists r2 v, r2 ∈ rows (refund_stage site fm raw cfg)
               /\ r4 = <["transaction_date" := v]> r2.
Proof.
  unfold dated_stage. cbv zeta. cbn [Frame.set_column rows].
  intros (i & Hi)%list_elem_of_lookup.
  apply lookup_zip_with_Some in Hi as (r2 & v & -> & Hr2 & _).
  exists r2, v. split; [by eapply list_elem_of_lookup_2 | reflexivity].
Qed.

(** Where a row of the result comes from. *)
Lemma clean_row_origin (name : string) (raw : DataFrame)
    (config : option Cleaning.CleaningConfig) (out : DataFrame) (r : Row) :
  Cleaning.clean_single_file name raw config = Ok out ->
  r ∈ rows out ->
  exists site fm r_raw v a,
    Cleaning.parse_site_and_month_from_filename name = Ok (site, fm)
    /\ r_raw ∈ rows raw
    /\ Cleaning.str_contains_nocase
         (Cleaning.refund_keyword (Cleaning.config_or_default config))
         (Cleaning.astype_str
            (Frame.cell (tagged site fm raw r_raw) "BUSINESS_FORMAT_DATE")) = true
    /\ row_amount
         (Frame.has_column (dated_stage site fm raw (Cleaning.config_or_default config))
                           "ROOM")
         (Cleaning.config_or_default config)
         (<["transaction_date" := v]> (tagged site fm raw r_raw)) = Some a
    /\ r = <["refund_category" :=
               row_category (<["refund_amount" := CNum a]>
                               (<["transaction_date" := v]> (tagged site fm raw r_raw)))]>
             (<["refund_amount" := CNum a]>
                (<["transaction_date" := v]> (tagged site fm raw r_raw))).
Proof.
  intros Ho Hr.
  destruct (clean_single_file_stages _ _ _ _ Ho) as (site & fm & Hparse & Hrows & _).
  cbv zeta in Hrows. rewrite Hrows in Hr.
  apply list_elem_of_fmap in Hr as (r5 & -> & Hr5).
  apply list_elem_of_filter in Hr5 as [Hna Hr5].
  apply list_elem_of_fmap in Hr5 as (r4 & -> & Hr4).
  unfold Frame.cell in Hna. rewrite lookup_insert_eq in Hna. cbn [default] in Hna.
  destruct (row_amount _ _ r4) as [a|] eqn:Ha; [|discriminate].
  apply dated_stage_row in Hr4 as (r2 & v & Hr2 & ->).
  apply refund_stage_row in Hr2 as (r_raw & Hraw & -> & Hkw).
  exists site, fm, r_raw, v, a. repeat split; assumption.
Qed.

End CleanRows.

Section CleanFacts.
Context {P : Pandas}.
Local Open Scope float_scope.

Lemma not_derived (c : string) :
  c ∉ derived_columns ->
  c <> "site" /\ c <> "file_month" /\ c <> "transaction_date"
  /\ c <> "refund_amount" /\ c <> "refund_category".
Proof.
  unfold derived_columns. rewrite !not_elem_of_cons. tauto.
Qed.

Lemma unnamed_not_derived (c : string) :
  Str.startswith "Unnamed:" c = true -> c ∉ derived_columns.
Proof.
  intros Hs Hc. unfold derived_columns in Hc.
  repeat (apply elem_of_cons in Hc as [-> | Hc]; [vm_compute in Hs; discriminate|]).
  by apply not_elem_of_nil in Hc.
Qed.

(** The entries of a returned row under a name that is not derived are
    those of the tagged raw row. *)
Lemma clean_row_lookup (c : string) (cat v : Cell) (a : float) (r : Row) :
  c ∉ derived_columns ->
  (<["refund_category" := cat]>
     (<["refund_amount" := CNum a]> (<["transaction_date" := v]> r))) !! c = r !! c.
Proof.
  intros (_ & _ & H3 & H4 & H5)%not_derived.
  by rewrite !lookup_insert_ne.
Qed.

Lemma tagged_lookup (site fm : string) (raw : DataFrame) (r : Row) (c : string) :
  c <> "site" -> c <> "file_month" ->
  tagged site fm raw r !! c
  = if decide (c ∈ filter (fun c => Str.startswith "Unnamed:" c = true) (columns raw))
    then None else r !! c.
Proof.
  intros H1 H2. unfold tagged. rewrite !lookup_insert_ne by done.
  apply lookup_foldr_delete.
Qed.

End CleanFacts.

(** X3: every row [clean_single_file] returns is a row of the raw table
    that passed the refund filter: it carries the site and the month read
    from the file name, its [BUSINESS_FORMAT_DATE] text is matched by the
    refund keyword, searched as a regular expression with the case
    ignored (so, for a plain keyword, the text contains the keyword
    whatever the case), its entries under the raw columns that are
    neither padding nor overwritten by a derived column are those of the
    raw row, and it has no entry under a padding column. *)
Theorem clean_rows_are_tagged_refunds `{P : Pandas} (name : string) (raw : DataFrame)
    (config : option Cleaning.CleaningConfig) (out : DataFrame) (r : Row) :
  Cleaning.clean_single_file name raw config = Ok out ->
  r ∈ rows out ->
  exists site file_month r_raw,
    Cleaning.parse_site_and_month_from_filename name = Ok (site, file_month)
    /\ r_raw ∈ rows raw
    /\ r !! "site" = Some (CStr site)
    /\ r !! "file_month" = Some (CStr file_month)
    /\ Cleaning.str_contains_nocase
         (Cleaning.refund_keyword (Cleaning.config_or_default config))
         (Cleaning.astype_str (Frame.cell r "BUSINESS_FORMAT_DATE")) = true
    /\ (Str.plain_pattern (Cleaning.refund_keyword (Cleaning.config_or_default config))
        = true ->
        Str.contains
          (Str.lower (Cleaning.refund_keyword (Cleaning.config_or_default config)))
          (Str.lower (Cleaning.astype_str (Frame.cell r "BUSINESS_FORMAT_DATE"))) = true)
    /\ (forall c, Str.startswith "Unnamed:" c = false -> c ∉ derived_columns ->
                  r !! c = r_raw !! c)
    /\ (forall c, Str.startswith "Unnamed:" c = true -> c ∈ columns raw ->
                  r !! c = None).
Proof.
  intros Ho Hr.
  destruct (clean_row_origin _ _ _ _ _ Ho Hr)
    as (site & fm & r_raw & v & a & Hparse & Hraw & Hkw & _ & ->).
  exists site, fm, r_raw. split; [exact Hparse|]. split; [exact Hraw|].
  assert (Hmatch : Cleaning.str_contains_nocase
            (Cleaning.refund_keyword (Cleaning.config_or_default config))
            (Cleaning.astype_str
               (Frame.cell
                  (<["refund_category" := row_category
                       (<["refund_amount" := CNum a]>
                          (<["transaction_date" := v]> (tagged site fm raw r_raw)))]>
                     (<["refund_amount" := CNum a]>
                        (<["transaction_date" := v]> (tagged site fm raw r_raw))))
                  "BUSINESS_FORMAT_DATE")) = true).
  { unfold Frame.cell in *. rewrite clean_row_lookup; [exact Hkw|].
    unfold derived_columns. rewrite !not_elem_of_cons. repeat split; try done.
    apply not_elem_of_nil. }
  split; [|split; [|split; [|split; [|split]]]].
  - rewrite !lookup_insert_ne by done. unfold tagged.
    rewrite lookup_insert_ne by done. apply lookup_insert_eq.
  - rewrite !lookup_insert_ne by done. unfold tagged. apply lookup_insert_eq.
  - exact Hmatch.
  - intros Hplain. unfold Cleaning.str_contains_nocase in Hmatch.
    by rewrite Hplain in Hmatch.
  - intros c Hs Hc. rewrite clean_row_lookup by done.
    apply not_derived in Hc as (H1 & H2 & _).
    rewrite tagged_lookup by done. rewrite decide_False; [reflexivity|].
    intros [Hu _]%list_elem_of_filter. congruence.
  - intros c Hs Hc. pose proof (unnamed_not_derived c Hs) as Hd.
    rewrite clean_row_lookup by done.
    apply not_derived in Hd as (H1 & H2 & _).
    rewrite tagged_lookup by done. rewrite decide_True; [reflexivity|].
    by apply list_elem_of_filter.
Qed.

(** X4: the amount of every returned row is a number, not NaN, that
    does not exceed the ceiling of the configuration. *)
Theorem clean_amount_range `{P : Pandas} (name : string) (raw : DataFrame)
    (config : option Cleaning.CleaningConfig) (out : DataFrame) (r : Row) :
  Cleaning.clean_single_file name raw config = Ok out ->
  r ∈ rows out ->
  exists a : float,
    r !! "refund_amount" = Some (CNum a)
    /\ is_nan a = false
    /\ (a <=? Cleaning.max_refund_amount (Cleaning.config_or_default config))%float = true.
Proof.
  intros Ho Hr.
  destruct (clean_row_origin _ _ _ _ _ Ho Hr)
    as (site & fm & r_raw & v & a & _ & _ & _ & Ha & ->).
  exists a. split; [by rewrite lookup_insert_ne, lookup_insert_eq|].
  unfold row_amount in Ha. destruct (Frame.has_column _ "ROOM"); [|discriminate].
  unfold Cleaning.where_le in Ha.
  destruct (abs _ <=? _)%float eqn:Hle; [|discriminate]. injection Ha as <-.
  split; [|exact Hle]. by apply float_leb_not_nan in Hle as [Hn _].
Qed.

Lemma clean_rows_are_tagged_refunds_witness :
  exists (out : DataFrame) (r : Row),
    Cleaning.clean_single_file (P := Reference.pandas)
      "Brighton_November_refund.csv" Examples.brighton_november None = Ok out
    /\ rows out !! 0%nat = Some r
    /\ exists site file_month r_raw,
        Cleaning.parse_site_and_month_from_filename "Brighton_November_refund.csv"
        = Ok (site, file_month)
        /\ r_raw ∈ rows Examples.brighton_november
        /\ r !! "site" = Some (CStr site)
        /\ r !! "file_month" = Some (CStr file_month)
        /\ Cleaning.str_contains_nocase (P := Reference.pandas)
             (Cleaning.refund_keyword (Cleaning.config_or_default None))
             (Cleaning.astype_str (P := Reference.pandas)
                (Frame.cell r "BUSINESS_FORMAT_DATE")) = true
        /\ (Str.plain_pattern (Cleaning.refund_keyword (Cleaning.config_or_default None))
            = true ->
            Str.contains
              (Str.lower (Cleaning.refund_keyword (Cleaning.config_or_default None)))
              (Str.lower (Cleaning.astype_str (P := Reference.pandas)
                            (Frame.cell r "BUSINESS_FORMAT_DATE"))) = true)
        /\ (forall c, Str.startswith "Unnamed:" c = false -> c ∉ derived_columns ->
                      r !! c = r_raw !! c)
        /\ (forall c, Str.startswith "Unnamed:" c = true ->
                      c ∈ columns Examples.brighton_november -> r !! c = None).
Proof.
  eexists. eexists. split; [vm_compute; reflexivity|]. split; [reflexivity|].
  eapply (clean_rows_are_tagged_refunds (P := Reference.pandas)
            "Brighton_November_refund.csv" Examples.brighton_november None).
  - vm_compute. reflexivity.
  - apply list_elem_of_here.
Defined.

Lemma clean_amount_range_witness :
  exists (out : DataFrame) (r : Row),
    Cleaning.clean_single_file (P := Reference.pandas)
      "Brighton_November_refund.csv" Examples.brighton_november None = Ok out
    /\ rows out !! 0%nat = Some r
    /\ exists a : float,
        r !! "refund_amount" = Some (CNum a)
        /\ is_nan a = false
        /\ (a <=? Cleaning.max_refund_amount (Cleaning.config_or_default None))%float = true.
Proof.
  eexists. eexists. split; [vm_compute; reflexivity|]. split; [reflexivity|].
  eapply (clean_amount_range (P := Reference.pandas)
            "Brighton_November_refund.csv" Examples.brighton_november None).
  - vm_compute. reflexivity.
  - apply list_elem_of_here.
Defined.

Section CleanSchema.
Context {P : Pandas}.

Lemma row_category_label (r : Row) :
  row_category r ∈ [CStr "Accommodation"; CStr "F&B"; CStr "Other"].
Proof.
  unfold row_category. cbv zeta.
  destruct (_ || _); [set_solver|]. destruct (Str.contains "accomm" _); set_solver.
Qed.

Lemma clean_single_file_category (name : string) (raw : DataFrame)
    (config : option Cleaning.CleaningConfig) (out : DataFrame) (r : Row) :
  Cleaning.clean_single_file name raw config = Ok out ->
  r ∈ rows out ->
  exists l, l ∈ [CStr "Accommodation"; CStr "F&B"; CStr "Other"]
            /\ r !! "refund_category" = Some l.
Proof.
  intros Ho Hr. destruct (clean_single_file_row _ _ _ _ _ Ho Hr) as (r0 & a & -> & _).
  eexists. split; [apply row_category_label | apply lookup_insert_eq].
Qed.

Lemma refund_stage_without_description (site fm : string) (raw : DataFrame)
    (cfg : Cleaning.CleaningConfig) :
  Frame.has_column raw "BUSINESS_FORMAT_DATE" = false ->
  rows (refund_stage site fm raw cfg) = [].
Proof.
  intros Hc. unfold refund_stage. cbv zeta. cbn [Frame.loc rows].
  unfold Cleaning.is_refund_row.
  replace (Frame.has_column _ "BUSINESS_FORMAT_DATE") with false;
    [cbn [negb]; apply select_all_false|].
  symmetry. unfold Frame.set_scalar. rewrite !has_column_set_column.
  unfold Frame.has_column in *. apply bool_decide_eq_false in Hc.
  rewrite !bool_decide_eq_false_2; [reflexivity | | done | done].
  rewrite drop_unnamed_columns_columns.
  intros [_ H]%list_elem_of_filter. done.
Qed.

End CleanSchema.

Section CleanSchemaMore.
Context {P : Pandas}.

Lemma dated_stage_columns (site fm : string) (raw : DataFrame)
    (cfg : Cleaning.CleaningConfig) (c : string) :
  c ∈ columns (dated_stage site fm raw cfg)
  <-> c ∈ ["site"; "file_month"; "transaction_date"]
      \/ (c ∈ columns raw /\ Str.startswith "Unnamed:" c = false).
Proof.
  unfold dated_stage, refund_stage, Frame.set_scalar. cbv zeta.
  cbn [Frame.set_column Frame.loc columns].
  rewrite !elem_of_add_column_name, drop_unnamed_columns_columns, list_elem_of_filter.
  rewrite !elem_of_cons, elem_of_nil. tauto.
Qed.

Lemma filter_none {A} (Q : A -> Prop) `{forall x, Decision (Q x)} (l : list A) :
  (forall x, x ∈ l -> ~ Q x) -> filter Q l = [].
Proof.
  induction l as [|x l IH]; intros Hn; [reflexivity|].
  rewrite filter_cons, decide_False by apply Hn, list_elem_of_here.
  apply IH. intros y Hy. by apply Hn, list_elem_of_further.
Qed.

Lemma dated_stage_length (site fm : string) (raw : DataFrame)
    (cfg : Cleaning.CleaningConfig) :
  (length (rows (dated_stage site fm raw cfg)) <= length (rows raw))%nat.
Proof.
  unfold dated_stage. cbv zeta. cbn [Frame.set_column rows].
  rewrite length_zip_with.
  etransitivity; [apply Nat.le_min_l|].
  unfold refund_stage. cbv zeta. cbn [Frame.loc rows].
  etransitivity; [apply length_select|].
  unfold Frame.set_scalar. cbn [Frame.set_column rows].
  rewrite !zip_with_map_same, !length_map.
  unfold Cleaning.drop_unnamed_columns, Frame.drop_columns. cbv zeta. cbn [rows].
  by rewrite length_map.
Qed.

End CleanSchemaMore.

(** X6: the columns of the table [clean_single_file] returns are the five
    derived columns and the raw columns that are not padding. *)
Theorem clean_columns `{P : Pandas} (name : string) (raw : DataFrame)
    (config : option Cleaning.CleaningConfig) (out : DataFrame) (c : string) :
  Cleaning.clean_single_file name raw config = Ok out ->
  c ∈ columns out
  <-> c ∈ derived_columns
      \/ (c ∈ columns raw /\ Str.startswith "Unnamed:" c = false).
Proof.
  intros Ho. destruct (clean_single_file_stages _ _ _ _ Ho) as (site & fm & _ & _ & Hcols).
  rewrite Hcols, !elem_of_add_column_name, dated_stage_columns.
  unfold derived_columns. rewrite !elem_of_cons, !elem_of_nil. tauto.
Qed.

Lemma clean_columns_witness :
  exists out : DataFrame,
    Cleaning.clean_single_file (P := Reference.pandas)
      "Brighton_November_refund.csv" Examples.brighton_november None = Ok out
    /\ ("RECEIPT_NO" ∈ columns out
        <-> "RECEIPT_NO" ∈ derived_columns
            \/ ("RECEIPT_NO" ∈ columns Examples.brighton_november
                /\ Str.startswith "Unnamed:" "RECEIPT_NO" = false)).
Proof.
  eexists. split; [vm_compute; reflexivity|].
  eapply (clean_columns (P := Reference.pandas)
            "Brighton_November_refund.csv" Examples.brighton_november None).
  vm_compute. reflexivity.
Defined.

(** X7: a table that [clean_single_file] returns has at most as many
    rows as the raw table, and no row at all when the raw table has no
    [ROOM] column or no [BUSINESS_FORMAT_DATE] column. *)
Theorem clean_row_count `{P : Pandas} (name : string) (raw : DataFrame)
    (config : option Cleaning.CleaningConfig) (out : DataFrame) :
  Cleaning.clean_single_file name raw config = Ok out ->
  (length (rows out) <= length (rows raw))%nat
  /\ (Frame.has_column raw "ROOM" = false -> rows out = [])
  /\ (Frame.has_column raw "BUSINESS_FORMAT_DATE" = false -> rows out = []).
Proof.
  intros Ho.
  destruct (clean_single_file_stages _ _ _ _ Ho) as (site & fm & _ & Hrows & _).
  cbv zeta in Hrows. rewrite Hrows. split; [|split].
  - rewrite length_map. etransitivity; [apply length_filter|].
    rewrite length_map. apply dated_stage_length.
  - intros Hc.
    assert (Hd : Frame.has_column
                   (dated_stage site fm raw (Cleaning.config_or_default config))
                   "ROOM" = false).
    { unfold Frame.has_column in *. apply bool_decide_eq_false in Hc.
      apply bool_decide_eq_false. rewrite dated_stage_columns.
      rewrite !elem_of_cons, elem_of_nil. intros [[?|[?|[?|?]]] | [? _]]; done. }
    rewrite Hd, filter_none; [reflexivity|].
    intros r (r4 & -> & _)%list_elem_of_fmap.
    unfold Frame.cell. rewrite lookup_insert_eq. cbn. discriminate.
  - intros Hc.
    assert (rows (dated_stage site fm raw (Cleaning.config_or_default config)) = [])
      as ->; [|reflexivity].
    unfold dated_stage. cbv zeta. cbn [Frame.set_column rows].
    by rewrite refund_stage_without_description.
Qed.

Lemma clean_row_count_witness :
  exists out : DataFrame,
    Cleaning.clean_single_file (P := Reference.pandas)
      "Brighton_November_refund.csv" Examples.date_fallback None = Ok out
    /\ (length (rows out) <= length (rows Examples.date_fallback))%nat
    /\ rows out = [].
Proof.
  eexists. split; [vm_compute; reflexivity|].
  destruct (clean_row_count (P := Reference.pandas)
              "Brighton_November_refund.csv" Examples.date_fallback None
              {| columns := ["BUSINESS_DATE"; "BUSINESS_TIME"; "BUSINESS_FORMAT_DATE";
                             "site"; "file_month"; "transaction_date";
                             "refund_amount"; "refund_category"];
                 rows := [] |})
    as (Hlen & Hroom & _).
  - vm_compute. reflexivity.
  - split; [exact Hlen|]. apply Hroom. vm_compute. reflexivity.
Defined.

(** ** The consolidated table *)

Section Consolidated.
Context {P : Pandas}.

Lemma pad_row_lookup_column (cols : list string) (r : Row) (c : string) :
  c ∈ cols -> is_Some (Cleaning.pad_row cols r !! c).
Proof.
  unfold Cleaning.pad_row. induction cols as [|c0 cols IH]; [by intros ?%not_elem_of_nil|].
  intros Hc. cbn [foldr].
  destruct (decide (c = c0)) as [-> | Hne].
  - destruct (foldr _ r cols !! c0) eqn:E; [by rewrite E|].
    rewrite lookup_insert_eq. eauto.
  - apply elem_of_cons in Hc as [-> | Hc]; [done|].
    destruct (foldr _ r cols !! c0) eqn:E; [by apply IH|].
    rewrite lookup_insert_ne by done. by apply IH.
Qed.

Lemma clean_all_files_frames (paths : list (string * DataFrame))
    (config : option Cleaning.CleaningConfig) (out : DataFrame) :
  Cleaning.clean_all_files paths config = Ok out ->
  exists frames,
    Forall2 (fun p f => Cleaning.clean_single_file (fst p) (snd p)
                          (Some (Cleaning.config_or_default config)) = Ok f)
            paths frames
    /\ out = Cleaning.pd_concat frames.
Proof.
  unfold Cleaning.clean_all_files. destruct paths as [|p paths]; [discriminate|].
  destruct (mapM _ (p :: paths)) as [frames|e] eqn:Hm; [|discriminate].
  unfold bind. intros [= <-]. exists frames. split; [|reflexivity].
  by apply mapM_Forall2.
Qed.

End Consolidated.

(** X8: every row of a cleaned table, of one file or consolidated, has a
    category that is ["Accommodation"], ["F&B"] or ["Other"]. *)
Theorem category_is_one_of_three :
  (forall (P : Pandas) (name : string) (raw : DataFrame)
          (config : option Cleaning.CleaningConfig) (out : DataFrame) (r : Row),
      Cleaning.clean_single_file name raw config = Ok out ->
      r ∈ rows out ->
      exists l, l ∈ [CStr "Accommodation"; CStr "F&B"; CStr "Other"]
                /\ r !! "refund_category" = Some l)
  /\ (forall (P : Pandas) (paths : list (string * DataFrame))
             (config : option Cleaning.CleaningConfig) (out : DataFrame) (r : Row),
         Cleaning.clean_all_files paths config = Ok out ->
         r ∈ rows out ->
         exists l, l ∈ [CStr "Accommodation"; CStr "F&B"; CStr "Other"]
                   /\ r !! "refund_category" = Some l).
Proof.
  split.
  - intros P name raw config out r. apply clean_single_file_category.
  - intros P paths config out r Ho Hr.
    destruct (clean_all_files_frames _ _ _ Ho) as (frames & Hall & ->).
    cbn [Cleaning.pd_concat rows] in Hr.
    apply list_elem_of_In, in_concat in Hr as (l & Hl & Hr).
    apply in_map_iff in Hl as (df & <- & Hdf).
    apply in_map_iff in Hr as (r0 & <- & Hr0).
    apply list_elem_of_In in Hdf, Hr0.
    destruct (Forall2_elem_of_r _ _ _ _ Hall Hdf) as (q & _ & Hq).
    destruct (clean_single_file_category _ _ _ _ _ Hq Hr0) as (lbl & Hlbl & Hcat).
    exists lbl. split; [exact Hlbl|]. by apply pad_row_lookup_Some.
Qed.

(** X9: [clean_all_files] fails with [FileNotFoundError] on no file, and
    otherwise fails exactly when one of the files fails, with the error of
    that file; when it succeeds the consolidated table has the padded rows
    of the per-file results, file after file, so as many rows as they
    have together, and every row has an entry under every column of the
    table. *)
Theorem clean_all_files_outcome :
  (forall (P : Pandas) (config : option Cleaning.CleaningConfig),
      exists msg, Cleaning.clean_all_files [] config = Raise (FileNotFoundError msg))
  /\ (forall (P : Pandas) (paths : list (string * DataFrame))
             (config : option Cleaning.CleaningConfig) (e : Error),
         paths <> [] ->
         Cleaning.clean_all_files paths config = Raise e ->
         exists p, p ∈ paths
                   /\ Cleaning.clean_single_file (fst p) (snd p)
                        (Some (Cleaning.config_or_default config)) = Raise e)
  /\ (forall (P : Pandas) (paths : list (string * DataFrame))
             (config : option Cleaning.CleaningConfig) (out : DataFrame),
         Cleaning.clean_all_files paths config = Ok out ->
         exists frames,
           Forall2 (fun p f => Cleaning.clean_single_file (fst p) (snd p)
                                 (Some (Cleaning.config_or_default config)) = Ok f)
                   paths frames
           /\ rows out
              = concat (map (fun f => map (Cleaning.pad_row (columns out)) (rows f)) frames)
           /\ length (rows out) = list_sum (map (fun f => length (rows f)) frames)
           /\ (forall r c, r ∈ rows out -> c ∈ columns out -> is_Some (r !! c))).
Proof.
  split; [|split].
  - intros P config. eexists. reflexivity.
  - intros P paths config e Hne. unfold Cleaning.clean_all_files.
    destruct paths as [|p paths]; [done|].
    destruct (mapM _ (p :: paths)) as [frames|e'] eqn:Hm; [discriminate|].
    unfold bind. intros [= ->]. by apply mapM_Raise in Hm.
  - intros P paths config out Ho.
    destruct (clean_all_files_frames _ _ _ Ho) as (frames & Hall & ->).
    exists frames. split; [exact Hall|]. cbn [Cleaning.pd_concat rows columns].
    split; [reflexivity|]. split.
    + rewrite List.length_concat, List.map_map. f_equal. apply map_ext.
      intros f. apply length_map.
    + intros r c Hr Hc.
      apply list_elem_of_In, in_concat in Hr as (l & Hl & Hr).
      apply in_map_iff in Hl as (df & <- & _).
      apply in_map_iff in Hr as (r0 & <- & _).
      by apply pad_row_lookup_column.
Qed.

Lemma clean_all_files_outcome_witness :
  (exists p, p ∈ [("Brighton_November_refund.csv", Examples.brighton_november);
                  ("Brighton_refund.csv", Examples.brighton_november)]
             /\ Cleaning.clean_single_file (P := Reference.pandas) (fst p) (snd p)
                  (Some (Cleaning.config_or_default None))
                = Raise (ValueError "Unexpected month in filename: Brighton_refund.csv"))
  /\ exists all : DataFrame,
      Cleaning.clean_all_files (P := Reference.pandas)
        [("Brighton_November_refund.csv", Examples.brighton_november);
         ("Newhaven_Jan_refund.csv", Examples.date_fallback)] None = Ok all
      /\ length (rows all) = 2%nat
      /\ forall r c, r ∈ rows all -> c ∈ columns all -> is_Some (r !! c).
Proof.
  split.
  - apply (proj1 (proj2 clean_all_files_outcome) Reference.pandas
             [("Brighton_November_refund.csv", Examples.brighton_november);
              ("Brighton_refund.csv", Examples.brighton_november)] None).
    + discriminate.
    + vm_compute. reflexivity.
  - eexists. split; [vm_compute; reflexivity|]. split; [reflexivity|].
    destruct (proj2 (proj2 clean_all_files_outcome) Reference.pandas
                [("Brighton_November_refund.csv", Examples.brighton_november);
                 ("Newhaven_Jan_refund.csv", Examples.date_fallback)] None _
                ltac:(vm_compute; reflexivity))
      as (frames & _ & _ & _ & Hall).
    exact Hall.
Defined.

(** ** Groups partition the rows *)

Section Partition.

Lemma apart_filter_same (k1 : list Cell) (ks : list (list Cell)) :
  StronglySorted (fun k k' => Group.key_eqb k k' = false) ks ->
  filter (fun k => Group.key_eqb k1 k = true) ks = []
  \/ exists k0, filter (fun k => Group.key_eqb k1 k = true) ks = [k0].
Proof.
  intros Hs.
  pose proof (StronglySorted_filter_keep _ (fun k => Group.key_eqb k1 k = true) _ Hs) as Hf.
  assert (Hin : forall k, k ∈ filter (fun k => Group.key_eqb k1 k = true) ks ->
                          Group.key_eqb k1 k = true).
  { intros k Hk. apply list_elem_of_filter in Hk. tauto. }
  destruct (filter _ ks) as [|a [|b l]]; [by left | right; eauto |].
  exfalso. apply StronglySorted_inv in Hf as [_ Hf].
  apply Forall_cons in Hf as [Hab _].
  pose proof (Hin a ltac:(set_solver)) as Ha. pose proof (Hin b ltac:(set_solver)) as Hb.
  rewrite key_eqb_sym in Ha. rewrite (key_eqb_trans _ _ _ Ha Hb) in Hab. discriminate.
Qed.

Lemma apart_filter_same_r (k1 : list Cell) (ks : list (list Cell)) :
  StronglySorted (fun k k' => Group.key_eqb k k' = false) ks ->
  (length (filter (fun k => Group.key_eqb k k1 = true) ks) <= 1)%nat.
Proof.
  intros Hs.
  rewrite (filter_ext_in (fun k => Group.key_eqb k k1 = true)
                         (fun k => Group.key_eqb k1 k = true)).
  - destruct (apart_filter_same k1 ks Hs) as [-> | (k0 & ->)]; simpl; lia.
  - intros k _. by rewrite key_eqb_sym.
Qed.

Lemma sum_list_with_split {A} (f : A -> nat) (Q : A -> Prop) `{forall x, Decision (Q x)}
    (l : list A) :
  sum_list_with f l
  = (sum_list_with f (filter Q l) + sum_list_with f (filter (fun x => ~ Q x) l))%nat.
Proof.
  induction l as [|x l IH]; [reflexivity|].
  rewrite !filter_cons. cbn [sum_list_with]. rewrite IH.
  destruct (decide (Q x)), (decide (~ Q x)); cbn [sum_list_with]; try lia; tauto.
Qed.

Lemma sum_list_with_ext_in {A} (f g : A -> nat) (l : list A) :
  (forall x, x ∈ l -> f x = g x) -> sum_list_with f l = sum_list_with g l.
Proof.
  induction l as [|x l IH]; intros Hext; [reflexivity|].
  cbn [sum_list_with]. rewrite (Hext x) by apply list_elem_of_here.
  rewrite IH; [reflexivity|]. intros y Hy. by apply Hext, list_elem_of_further.
Qed.

Variable by_cols : list string.
Variable w : Row -> nat.

Lemma rows_of_key_same (rs : list Row) (k k' : list Cell) :
  Group.key_eqb k k' = true -> rows_of_key by_cols rs k = rows_of_key by_cols rs k'.
Proof.
  intros He. apply list_filter_iff. intros r. split; intros Hr.
  - by eapply key_eqb_trans.
  - eapply key_eqb_trans; [exact Hr|]. by rewrite key_eqb_sym.
Qed.

Lemma rows_of_distinct (rs : list Row) (k1 : list Cell) :
  sum_list_with (fun k => sum_list_with w (rows_of_key by_cols rs k))
    (filter (fun k => Group.key_eqb k1 k = true)
            (Group.distinct (map (Group.key_of by_cols) rs)))
  = sum_list_with w (rows_of_key by_cols rs k1).
Proof.
  destruct (apart_filter_same k1 _ (distinct_apart (map (Group.key_of by_cols) rs)))
    as [Hn | (k0 & Hk0)].
  - rewrite Hn. cbn [sum_list_with].
    assert (rows_of_key by_cols rs k1 = []) as ->; [|reflexivity].
    unfold rows_of_key. apply filter_none. intros r Hr He.
    destruct (distinct_complete (map (Group.key_of by_cols) rs) (Group.key_of by_cols r))
      as (k0 & Hk0 & He0); [apply list_elem_of_fmap; eauto|].
    assert (k0 ∈ filter (fun k => Group.key_eqb k1 k = true)
                   (Group.distinct (map (Group.key_of by_cols) rs))) as Hin.
    { apply list_elem_of_filter. split; [|exact Hk0].
      rewrite key_eqb_sym. by eapply key_eqb_trans. }
    rewrite Hn in Hin. by apply not_elem_of_nil in Hin.
  - rewrite Hk0. cbn [sum_list_with]. rewrite Nat.add_0_r.
    assert (Group.key_eqb k1 k0 = true) as He.
    { assert (k0 ∈ [k0]) as Hin by set_solver. rewrite <- Hk0 in Hin.
      apply list_elem_of_filter in Hin. tauto. }
    by rewrite (rows_of_key_same rs k1 k0 He).
Qed.

(** Every row is under exactly one of the distinct keys. *)
Lemma groups_partition (rs : list Row) :
  sum_list_with (fun k => sum_list_with w (rows_of_key by_cols rs k))
    (Group.distinct (map (Group.key_of by_cols) rs))
  = sum_list_with w rs.
Proof.
  induction rs as [|r rs IH]; [reflexivity|].
  cbn [map Group.distinct sum_list_with].
  set (k1 := Group.key_of by_cols r).
  set (D := Group.distinct (map (Group.key_of by_cols) rs)) in *.
  assert (Hhead : rows_of_key by_cols (r :: rs) k1 = r :: rows_of_key by_cols rs k1).
  { unfold rows_of_key. rewrite filter_cons, decide_True; [reflexivity | apply key_eqb_refl]. }
  rewrite Hhead. cbn [sum_list_with].
  rewrite (sum_list_with_ext_in
             (fun k => sum_list_with w (rows_of_key by_cols (r :: rs) k))
             (fun k => sum_list_with w (rows_of_key by_cols rs k))).
  - rewrite <- IH.
    rewrite (sum_list_with_split _ (fun k => Group.key_eqb k1 k = true) D).
    rewrite rows_of_distinct.
    rewrite (filter_ext_in (fun k => ~ Group.key_eqb k1 k = true)
                           (fun k => Group.key_eqb k1 k = false)); [lia|].
    intros k _. destruct (Group.key_eqb k1 k); split; congruence.
  - intros k [Hk _]%list_elem_of_filter. unfold rows_of_key.
    rewrite filter_cons, decide_False; [reflexivity|]. fold k1. congruence.
Qed.

End Partition.

Section GroupBy.

Lemma length_values (c : string) (rs : list Row) :
  length (Group.values c rs) = sum_list_with (counted c) rs.
Proof.
  unfold Group.values. induction rs as [|r rs IH]; [reflexivity|].
  cbn [omap list_omap sum_list_with]. unfold counted at 1.
  destruct (Group.numeric_entry _); simpl; by rewrite IH.
Qed.

Lemma groupby_keys (by_cols : list string) (dropna : bool) (rs : list Row) :
  map fst (Group.groupby by_cols dropna rs)
  ≡ₚ Group.distinct (map (Group.key_of by_cols) (Group.grouped_rows by_cols dropna rs)).
Proof.
  unfold Group.groupby. cbv zeta. rewrite List.map_map. cbn [fst].
  rewrite List.map_id. apply merge_sort_Permutation.
Qed.

Lemma length_filter_fst {A B} (p : A -> bool) (l : list (A * B)) :
  length (filter (fun g => p (fst g) = true) l)
  = length (filter (fun k => p k = true) (map fst l)).
Proof.
  induction l as [|g l IH]; [reflexivity|]. cbn [map].
  rewrite !filter_cons. destruct (p (fst g)) eqn:E.
  - rewrite !decide_True by done. simpl. by rewrite IH.
  - rewrite !decide_False by congruence. exact IH.
Qed.

(** A group-by has at most one group for a key. *)
Lemma groupby_one_per_key (by_cols : list string) (dropna : bool) (rs : list Row)
    (k : list Cell) :
  (length (filter (fun g => Group.key_eqb (fst g) k = true)
                  (Group.groupby by_cols dropna rs)) <= 1)%nat.
Proof.
  pose proof (apart_filter_same_r k _
                (distinct_apart (map (Group.key_of by_cols)
                                     (Group.grouped_rows by_cols dropna rs)))) as Hd.
  rewrite <- groupby_keys in Hd.
  by rewrite (length_filter_fst (fun k' => Group.key_eqb k' k)).
Qed.

(** What is added up over the rows is the same added up group by group. *)
Lemma groupby_partition (by_cols : list string) (dropna : bool) (rs : list Row)
    (w : Row -> nat) :
  sum_list_with (fun g => sum_list_with w (snd g)) (Group.groupby by_cols dropna rs)
  = sum_list_with w (Group.grouped_rows by_cols dropna rs).
Proof.
  rewrite <- (groups_partition by_cols w).
  rewrite <- (merge_sort_Permutation Group.key_le (Group.distinct _)).
  unfold Group.groupby. cbv zeta.
  induction (merge_sort _ _) as [|k l IH]; [reflexivity|].
  cbn [map sum_list_with snd]. by rewrite IH.
Qed.

End GroupBy.

(** ** The breakdowns by site *)

Section Aggregates.
Context {P : Pandas}.

Lemma missing_column_None (df : DataFrame) (cs : list string) :
  Metrics.missing_column df cs = None <-> forall c, c ∈ cs -> Frame.has_column df c = true.
Proof.
  unfold Metrics.missing_column. induction cs as [|c cs IH]; cbn [List.find].
  - split; [intros _ c Hc; by apply not_elem_of_nil in Hc | reflexivity].
  - destruct (Frame.has_column df c) eqn:Hc; cbn [negb].
    + rewrite IH. split.
      * intros H c' [-> | Hc']%elem_of_cons; auto.
      * intros H c' Hc'. by apply H, list_elem_of_further.
    + split; [discriminate|]. intros H.
      rewrite (H c) in Hc by apply list_elem_of_here. discriminate.
Qed.

Lemma missing_column_Some (df : DataFrame) (cs : list string) (c : string) :
  Metrics.missing_column df cs = Some c -> c ∈ cs /\ Frame.has_column df c = false.
Proof.
  unfold Metrics.missing_column. intros H. apply find_some in H as [Hin Hc].
  split; [by apply list_elem_of_In | by destruct (Frame.has_column df c)].
Qed.

Lemma aggregate_rows (by_cols : list string) (df : DataFrame)
    (out : list Metrics.AggregateRow) :
  Metrics.aggregate by_cols df = Ok out ->
  out = map (fun g =>
               let v := Group.values "refund_amount" (snd g) in
               {| Metrics.agg_key := fst g;
                  Metrics.agg_count := Z.of_nat (length v);
                  Metrics.agg_total := Group.fsum v;
                  Metrics.agg_avg := Group.fmean v |})
            (Group.groupby by_cols false (rows df)).
Proof.
  unfold Metrics.aggregate. destruct (Metrics.missing_column df _); [discriminate|].
  destruct (negb (Frame.has_column df "refund_amount")); [discriminate|].
  by intros [= <-].
Qed.

Lemma aggregate_total_count (by_cols : list string) (df : DataFrame)
    (out : list Metrics.AggregateRow) :
  Metrics.aggregate by_cols df = Ok out ->
  total_count out = length (Group.values "refund_amount" (rows df)).
Proof.
  intros ->%aggregate_rows. rewrite length_values.
  change (rows df) with (Group.grouped_rows by_cols false (rows df)) at 2.
  rewrite <- groupby_partition. unfold total_count.
  induction (Group.groupby by_cols false (rows df)) as [|g l IH]; [reflexivity|].
  cbn [map sum_list_with Metrics.agg_count]. rewrite IH, Nat2Z.id, length_values.
  reflexivity.
Qed.

Lemma aggregate_one_per_key (by_cols : list string) (df : DataFrame)
    (out : list Metrics.AggregateRow) (k : list Cell) :
  Metrics.aggregate by_cols df = Ok out ->
  (length (filter (fun a => Group.key_eqb (Metrics.agg_key a) k = true) out) <= 1)%nat.
Proof.
  intros ->%aggregate_rows.
  etransitivity; [|apply (groupby_one_per_key by_cols false (rows df) k)].
  apply Nat.eq_le_incl.
  induction (Group.groupby by_cols false (rows df)) as [|g l IH]; [reflexivity|].
  cbn [map]. rewrite !filter_cons. cbn [Metrics.agg_key].
  destruct (Group.key_eqb (fst g) k) eqn:E.
  - rewrite !decide_True by done. cbn [length]. f_equal. exact IH.
  - rewrite !decide_False by congruence. exact IH.
Qed.

Lemma aggregate_row (by_cols : list string) (df : DataFrame)
    (out : list Metrics.AggregateRow) (a : Metrics.AggregateRow) :
  Metrics.aggregate by_cols df = Ok out ->
  a ∈ out ->
  (exists r, r ∈ rows df /\ Metrics.agg_key a = Group.key_of by_cols r)
  /\ Metrics.agg_count a
     = Z.of_nat (length (Group.values "refund_amount"
                           (rows_of_key by_cols (rows df) (Metrics.agg_key a))))
  /\ Metrics.agg_total a
     = Group.fsum (Group.values "refund_amount"
                     (rows_of_key by_cols (rows df) (Metrics.agg_key a)))
  /\ Metrics.agg_avg a
     = Group.fmean (Group.values "refund_amount"
                      (rows_of_key by_cols (rows df) (Metrics.agg_key a))).
Proof.
  intros ->%aggregate_rows (g & -> & Hg)%list_elem_of_fmap.
  apply groupby_elem_of in Hg as [Hkey Hrows]. cbv zeta.
  cbn [Metrics.agg_key Metrics.agg_count Metrics.agg_total Metrics.agg_avg].
  unfold rows_of_key. rewrite Hrows. auto.
Qed.

Lemma aggregate_succeeds (by_cols : list string) (df : DataFrame) :
  (exists out, Metrics.aggregate by_cols df = Ok out)
  <-> forall c, c ∈ (by_cols ++ ["refund_amount"])%list -> Frame.has_column df c = true.
Proof.
  unfold Metrics.aggregate.
  destruct (Metrics.missing_column df by_cols) as [c|] eqn:Hm.
  - apply missing_column_Some in Hm as [Hin Hc]. split; [intros [out H]; discriminate|].
    intros H. rewrite H in Hc; [discriminate|]. apply elem_of_app. by left.
  - pose proof (proj1 (missing_column_None _ _) Hm) as Hall.
    destruct (Frame.has_column df "refund_amount") eqn:Ha; cbn [negb].
    + split; [|eauto]. intros _ c [Hc | Hc]%elem_of_app; [by apply Hall|].
      apply list_elem_of_singleton in Hc as ->. exact Ha.
    + split; [intros [out H]; discriminate|]. intros H.
      rewrite H in Ha; [discriminate|]. apply elem_of_app. right. apply list_elem_of_here.
Qed.

Lemma missing_column_first (df : DataFrame) (pre post : list string) (c : string) :
  (forall c', c' ∈ pre -> Frame.has_column df c' = true) ->
  Frame.has_column df c = false ->
  Metrics.missing_column df (pre ++ c :: post) = Some c.
Proof.
  intros Hpre Hc. unfold Metrics.missing_column.
  induction pre as [|x pre IH]; cbn [app List.find].
  - by rewrite Hc.
  - rewrite (Hpre x) by apply list_elem_of_here. cbn [negb].
    apply IH. intros c' Hc'. by apply Hpre, list_elem_of_further.
Qed.

Lemma aggregate_fails_key (by_cols pre post : list string) (c : string) (df : DataFrame) :
  by_cols = (pre ++ c :: post)%list ->
  (forall c', c' ∈ pre -> Frame.has_column df c' = true) ->
  Frame.has_column df c = false ->
  Metrics.aggregate by_cols df = Raise (KeyError c).
Proof.
  intros -> Hpre Hc. unfold Metrics.aggregate.
  by rewrite (missing_column_first df pre post c Hpre Hc).
Qed.

Lemma aggregate_fails_amount (by_cols : list string) (df : DataFrame) :
  (forall c, c ∈ by_cols -> Frame.has_column df c = true) ->
  Frame.has_column df "refund_amount" = false ->
  Metrics.aggregate by_cols df = Raise (KeyError "Column not found: refund_amount").
Proof.
  intros Hall Ha. unfold Metrics.aggregate.
  rewrite (proj2 (missing_column_None df by_cols) Hall), Ha. reflexivity.
Qed.

End Aggregates.

(** X10: the breakdown by site and month and the breakdown by site and
    category.  Each fails with the [KeyError] of its first absent key
    column, and, when both key columns are there and [refund_amount] is
    not, with the [KeyError] of the message ["Column not found:
    refund_amount"].  A breakdown that is computed is one of a table that
    has the three columns; it has at most one row for a key, every row of
    it stands for a row of the table and carries the count, the sum and
    the mean that pandas computes of the amounts of the rows of the table
    with that key, and the counts of all its rows together are the number
    of amounts in the table: no refund is counted twice and none is
    lost, a missing site or category being a key like any other. *)
Theorem breakdown_counts_add_up `{P : Pandas} (df : DataFrame) :
  is_breakdown ["site"; "file_month"] df (Metrics.by_site_month df)
  /\ is_breakdown ["site"; "refund_category"] df (Metrics.category_split df).
Proof.
  assert (H : forall by_cols, is_breakdown by_cols df (Metrics.aggregate by_cols df)).
  { intros by_cols. split; [intros pre c post; apply aggregate_fails_key|].
    split; [apply aggregate_fails_amount|].
    intros out Ho. split; [apply aggregate_succeeds; eauto|].
    split; [by apply (aggregate_total_count by_cols)|].
    split; [intros k; by eapply aggregate_one_per_key|].
    intros a Ha. by apply (aggregate_row by_cols df out). }
  split; apply H.
Qed.

(** ** The summaries of a cleaned table *)

Ltac solve_elem_of :=
  cbn [app] in *; unfold derived_columns in *;
  rewrite ?elem_of_cons, ?elem_of_nil in *; tauto.

Section Reconcile.
Context {P : Pandas}.

Lemma filter_every {A} (Q : A -> Prop) `{forall x, Decision (Q x)} (l : list A) :
  (forall x, x ∈ l -> Q x) -> filter Q l = l.
Proof.
  induction l as [|x l IH]; intros Hall; [reflexivity|].
  rewrite filter_cons, decide_True by apply Hall, list_elem_of_here.
  rewrite IH; [reflexivity|]. intros y Hy. by apply Hall, list_elem_of_further.
Qed.

Lemma has_amount_numeric (r : Row) :
  has_amount r ->
  exists f, Frame.cell r "refund_amount" = CNum f /\ is_nan f = false.
Proof. intros (f & Hf & Hn). exists f. unfold Frame.cell. by rewrite Hf. Qed.

Lemma values_every_row (rs : list Row) :
  (forall r, r ∈ rs -> has_amount r) ->
  length (Group.values "refund_amount" rs) = length rs.
Proof.
  induction rs as [|r rs IH]; intros Hall; [reflexivity|].
  unfold Group.values. cbn [omap list_omap].
  destruct (has_amount_numeric r (Hall r (list_elem_of_here _ _))) as (f & -> & Hn).
  cbn [Group.numeric_entry]. rewrite Hn. cbn [length]. f_equal.
  apply IH. intros r' Hr'. by apply Hall, list_elem_of_further.
Qed.

Lemma kpis_counts_every_row (df : DataFrame) :
  Frame.has_column df "refund_amount" = true ->
  (forall r, r ∈ rows df -> has_amount r) ->
  exists k, Metrics.kpis df = Ok k
            /\ Metrics.refund_count k = Z.of_nat (length (rows df)).
Proof.
  intros Hc Hall. unfold Metrics.kpis. destruct (Frame.empty df) eqn:He.
  - eexists. split; [reflexivity|]. cbn [Metrics.refund_count].
    unfold Frame.empty, Frame.has_column in *. apply bool_decide_eq_true in Hc.
    destruct (rows df); [reflexivity|]. destruct (columns df); [|discriminate].
    by apply not_elem_of_nil in Hc.
  - rewrite Hc. cbn [negb]. cbv zeta. eexists. split; [reflexivity|].
    cbn [Metrics.refund_count]. f_equal.
    rewrite filter_every; [unfold Frame.column; by rewrite !length_map|].
    intros f Hf. unfold Frame.column in Hf. rewrite List.map_map in Hf.
    apply list_elem_of_fmap in Hf as (r & -> & Hr).
    by destruct (has_amount_numeric r (Hall r Hr)) as (f & -> & Hn).
Qed.

Lemma reconciles_intro (df : DataFrame) :
  (forall c, c ∈ ["site"; "file_month"; "refund_amount"; "refund_category"] ->
             Frame.has_column df c = true) ->
  (forall r, r ∈ rows df -> has_amount r) ->
  reconciles df.
Proof.
  intros Hcols Hall.
  destruct (kpis_counts_every_row df) as (k & Hk & Hcount); [apply Hcols; solve_elem_of | done |].
  destruct (proj2 (aggregate_succeeds ["site"; "file_month"] df)) as (bsm & Hbsm).
  { intros c Hc. apply Hcols. solve_elem_of. }
  destruct (proj2 (aggregate_succeeds ["site"; "refund_category"] df)) as (cs & Hcs).
  { intros c Hc. apply Hcols. solve_elem_of. }
  exists k, bsm, cs. split; [exact Hk|]. split; [exact Hbsm|]. split; [exact Hcs|].
  split; [exact Hcount|].
  rewrite (aggregate_total_count _ _ _ Hbsm), (aggregate_total_count _ _ _ Hcs).
  by rewrite values_every_row.
Qed.

Lemma clean_single_file_derived (name : string) (raw : DataFrame)
    (config : option Cleaning.CleaningConfig) (out : DataFrame) (c : string) :
  Cleaning.clean_single_file name raw config = Ok out ->
  c ∈ derived_columns -> Frame.has_column out c = true.
Proof.
  intros Ho Hc. destruct (clean_single_file_stages _ _ _ _ Ho) as (site & fm & _ & _ & Hcols).
  unfold Frame.has_column. apply bool_decide_eq_true.
  rewrite Hcols, !elem_of_add_column_name, dated_stage_columns.
  solve_elem_of.
Qed.

Lemma elem_of_add_columns (c : string) (cs acc : list string) :
  c ∈ foldl (fun a c' => Frame.add_column_name c' a) acc cs <-> c ∈ acc \/ c ∈ cs.
Proof.
  revert acc. induction cs as [|c0 cs IH]; intros acc; cbn [foldl].
  - rewrite elem_of_nil. tauto.
  - rewrite IH, elem_of_add_column_name, elem_of_cons. tauto.
Qed.

Lemma elem_of_union_columns (c : string) (frames : list DataFrame) :
  c ∈ Cleaning.union_columns frames <-> exists f, f ∈ frames /\ c ∈ columns f.
Proof.
  unfold Cleaning.union_columns.
  assert (H : forall acc,
             c ∈ foldl (fun acc df => foldl (fun a c' => Frame.add_column_name c' a) acc
                                            (columns df)) acc frames
             <-> c ∈ acc \/ exists f, f ∈ frames /\ c ∈ columns f).
  { induction frames as [|f frames IH]; intros acc; cbn [foldl].
    - split; [auto|]. intros [? | (f & Hf & _)]; [done|]. by apply not_elem_of_nil in Hf.
    - rewrite IH, elem_of_add_columns. split.
      + intros [[? | ?] | (f' & Hf' & Hc)]; [auto | right | right].
        * exists f. split; [apply list_elem_of_here | done].
        * exists f'. split; [by apply list_elem_of_further | done].
      + intros [? | (f' & [-> | Hf']%elem_of_cons & Hc)]; eauto. }
  rewrite H, elem_of_nil. tauto.
Qed.

Lemma clean_all_files_derived (paths : list (string * DataFrame))
    (config : option Cleaning.CleaningConfig) (out : DataFrame) (c : string) :
  Cleaning.clean_all_files paths config = Ok out ->
  c ∈ derived_columns -> Frame.has_column out c = true.
Proof.
  intros Ho Hc. destruct (clean_all_files_frames _ _ _ Ho) as (frames & Hall & ->).
  unfold Frame.has_column. apply bool_decide_eq_true.
  cbn [Cleaning.pd_concat columns]. apply elem_of_union_columns.
  destruct paths as [|p paths]; [discriminate|].
  apply Forall2_cons_inv_l in Hall as (f & frames' & Hf & _ & ->).
  exists f. split; [apply list_elem_of_here|].
  pose proof (clean_single_file_derived _ _ _ _ c Hf Hc) as H.
  by apply bool_decide_eq_true in H.
Qed.

End Reconcile.

(** X11: the summaries of a cleaned table reconcile.  On the table
    [clean_single_file] returns, and on the consolidated table
    [clean_all_files] returns, [kpis], [by_site_month] and
    [category_split] all succeed, the refund count of [kpis] is the number
    of rows of the table, and so is the sum of the counts of either
    breakdown: every cleaned row is counted once by each. *)
Theorem cleaned_table_reconciles :
  (forall (P : Pandas) (name : string) (raw : DataFrame)
          (config : option Cleaning.CleaningConfig) (out : DataFrame),
      Cleaning.clean_single_file name raw config = Ok out -> reconciles out)
  /\ (forall (P : Pandas) (paths : list (string * DataFrame))
             (config : option Cleaning.CleaningConfig) (out : DataFrame),
         Cleaning.clean_all_files paths config = Ok out -> reconciles out).
Proof.
  split.
  - intros P name raw config out Ho. apply reconciles_intro.
    + intros c Hc. apply (clean_single_file_derived _ _ _ _ c Ho).
      solve_elem_of.
    + intros r. by apply (clean_single_file_has_amount name raw config).
  - intros P paths config out Ho. apply reconciles_intro.
    + intros c Hc. apply (clean_all_files_derived _ _ _ c Ho).
      solve_elem_of.
    + intros r. by apply (clean_all_files_has_amount paths config).
Qed.

Lemma cleaned_table_reconciles_witness :
  exists out : DataFrame,
    Cleaning.clean_all_files (P := Reference.pandas)
      [("Brighton_November_refund.csv", Examples.brighton_november);
       ("Newhaven_Jan_refund.csv", Examples.brighton_november)] None = Ok out
    /\ length (rows out) = 4%nat
    /\ reconciles (P := Reference.pandas) out.
Proof.
  eexists. split; [vm_compute; reflexivity|]. split; [reflexivity|].
  eapply (proj2 cleaned_table_reconciles Reference.pandas
            [("Brighton_November_refund.csv", Examples.brighton_november);
             ("Newhaven_Jan_refund.csv", Examples.brighton_november)] None).
  vm_compute. reflexivity.
Defined.

(** ** The ranking of the sites *)

Section SqriOutcome.
Context {P : Pandas}.

Lemma Forall2_with_elem_of {A B} (R : A -> B -> Prop) (l : list A) (k : list B) :
  Forall2 R l k -> Forall2 (fun x y => x ∈ l /\ R x y) l k.
Proof.
  assert (H : forall (l0 l' : list A) (k' : list B),
             Forall2 R l' k' -> (forall x, x ∈ l' -> x ∈ l0) ->
             Forall2 (fun x y => x ∈ l0 /\ R x y) l' k').
  { intros l0 l' k' HF. induction HF as [|x y l' k' Hxy _ IH]; intros Hsub; constructor.
    - split; [apply Hsub, list_elem_of_here | exact Hxy].
    - apply IH. intros z Hz. by apply Hsub, list_elem_of_further. }
  intros HF. by apply H.
Qed.

Lemma Forall2_filter_length {A B} (p : A -> bool) (q : B -> bool)
    (l : list A) (k : list B) :
  Forall2 (fun x y => p x = q y) l k ->
  length (filter (fun x => p x = true) l) = length (filter (fun y => q y = true) k).
Proof.
  induction 1 as [|x y l k Hxy _ IH]; [reflexivity|].
  rewrite !filter_cons, <- Hxy. destruct (p x) eqn:E.
  - rewrite !decide_True by done. cbn [length]. by rewrite IH.
  - rewrite !decide_False by congruence. exact IH.
Qed.

Lemma Forall2_elem_of_l {A B} (R : A -> B -> Prop) (l : list A) (k : list B) (x : A) :
  Forall2 R l k -> x ∈ l -> exists y, y ∈ k /\ R x y.
Proof.
  induction 1 as [|x' y l k Hxy _ IH]; intros Hx.
  - by apply not_elem_of_nil in Hx.
  - apply elem_of_cons in Hx as [-> | Hx].
    + exists y. split; [apply list_elem_of_here | exact Hxy].
    + destruct (IH Hx) as (y' & Hy' & HR). exists y'. split; [|exact HR].
      by apply list_elem_of_further.
Qed.

(** How the result is put together on a table that is not empty: one row
    for each group of [sqri_rows df] by site, then sorted. *)
Lemma sqri_structure (df : DataFrame) (w : option Metrics.SQRIWeights) (thr : float)
    (out : list Metrics.SqriRow) :
  Frame.empty df = false ->
  Metrics.sqri df w thr = Ok out ->
  exists (s1 s2 s3 : list (list Cell * float)) (out0 : list Metrics.SqriRow),
    Forall2 (fun g r =>
               Metrics.sqri_row (default Metrics.default_weights w) s1 s2 s3
                 (fst g, Group.fsum (Group.values "refund_amount" (snd g))) = Ok r)
            (Group.groupby ["site"] true (Metrics.sqri_rows df)) out0
    /\ out = Group.sort_values_desc Metrics.sqri_score out0.
Proof.
  intros He. unfold Metrics.sqri. cbv zeta. rewrite He.
  destruct (negb (Frame.has_column df "refund_amount")); [discriminate|].
  destruct (negb (Frame.has_column df "site")); [discriminate|].
  destruct (negb (Frame.has_column df "refund_category")); [discriminate|].
  destruct (mapM _ _) as [out0|e] eqn:Hm; [|discriminate].
  unfold bind. intros [= <-].
  apply mapM_Forall2, Forall2_fmap_l in Hm.
  eexists _, _, _, out0. split; [exact Hm | reflexivity].
Qed.

Lemma sqri_empty (df : DataFrame) (w : option Metrics.SQRIWeights) (thr : float) :
  Frame.empty df = true -> Metrics.sqri df w thr = Ok [].
Proof. intros He. unfold Metrics.sqri. cbv zeta. by rewrite He. Qed.

Lemma sqri_Ok_columns (df : DataFrame) (w : option Metrics.SQRIWeights) (thr : float)
    (out : list Metrics.SqriRow) (c : string) :
  Frame.empty df = false ->
  Metrics.sqri df w thr = Ok out ->
  c ∈ ["refund_amount"; "site"; "refund_category"] ->
  Frame.has_column df c = true.
Proof.
  intros He. unfold Metrics.sqri. cbv zeta. rewrite He.
  destruct (Frame.has_column df "refund_amount") eqn:Ha; cbn [negb]; [|discriminate].
  destruct (Frame.has_column df "site") eqn:Hs; cbn [negb]; [|discriminate].
  destruct (Frame.has_column df "refund_category") eqn:Hcat; cbn [negb]; [|discriminate].
  intros _ Hc. rewrite !elem_of_cons, elem_of_nil in Hc.
  destruct Hc as [-> | [-> | [-> | []]]]; assumption.
Qed.

Lemma sqri_fails_amount (df : DataFrame) (w : option Metrics.SQRIWeights) (thr : float) :
  Frame.empty df = false ->
  Frame.has_column df "refund_amount" = false ->
  Metrics.sqri df w thr = Raise (KeyError "refund_amount").
Proof. intros He Ha. unfold Metrics.sqri. cbv zeta. by rewrite He, Ha. Qed.

Lemma sqri_fails_site (df : DataFrame) (w : option Metrics.SQRIWeights) (thr : float) :
  Frame.empty df = false ->
  Frame.has_column df "refund_amount" = true ->
  Frame.has_column df "site" = false ->
  Metrics.sqri df w thr = Raise (KeyErrorList ["site"]).
Proof. intros He Ha Hs. unfold Metrics.sqri. cbv zeta. by rewrite He, Ha, Hs. Qed.

Lemma sqri_rows_grouped (df : DataFrame) :
  Group.grouped_rows ["site"] true (Metrics.sqri_rows df) = Metrics.sqri_rows df.
Proof.
  unfold Group.grouped_rows. apply filter_every. intros r Hr.
  unfold Metrics.sqri_rows in Hr. cbv zeta in Hr.
  apply list_elem_of_filter in Hr as [[_ Hs] _].
  cbn [Group.key_of map Group.key_has_null existsb]. by rewrite Hs.
Qed.

Lemma site_group_key (df : DataFrame) (g : list Cell * list Row) :
  g ∈ Group.groupby ["site"] true (Metrics.sqri_rows df) ->
  fst g = [nth 0 (fst g) CNull].
Proof. intros [(r & _ & ->) _]%groupby_elem_of. reflexivity. Qed.

Lemma sqri_sorted (df : DataFrame) (w : option Metrics.SQRIWeights) (thr : float)
    (out : list Metrics.SqriRow) :
  Metrics.sqri df w thr = Ok out ->
  Sorted (Group.value_ge_by Metrics.sqri_score) out.
Proof.
  destruct (Frame.empty df) eqn:He.
  - rewrite (sqri_empty df w thr He). intros [= <-]. constructor.
  - intros (s1 & s2 & s3 & out0 & _ & ->)%sqri_structure; [|exact He].
    apply Sorted_merge_sort, value_ge_by_total.
Qed.

Lemma sqri_one_per_site (df : DataFrame) (w : option Metrics.SQRIWeights) (thr : float)
    (out : list Metrics.SqriRow) (s : Cell) :
  Metrics.sqri df w thr = Ok out ->
  (length (filter (fun r => Group.cell_eqb (Metrics.site r) s = true) out) <= 1)%nat.
Proof.
  destruct (Frame.empty df) eqn:He.
  - rewrite (sqri_empty df w thr He). intros [= <-]. simpl. lia.
  - intros (s1 & s2 & s3 & out0 & HF & ->)%sqri_structure; [|exact He].
    unfold Group.sort_values_desc. rewrite merge_sort_Permutation.
    etransitivity; [|apply (groupby_one_per_key ["site"] true (Metrics.sqri_rows df) [s])].
    apply Nat.eq_le_incl. symmetry.
    apply (Forall2_filter_length (fun g => Group.key_eqb (fst g) [s])
                                 (fun r => Group.cell_eqb (Metrics.site r) s)).
    eapply Forall2_impl; [apply Forall2_with_elem_of, HF|].
    intros g r [Hg Hrow]. cbv beta in *.
    apply sqri_row_Ok in Hrow as (-> & _). cbn [fst].
    rewrite (site_group_key df g Hg) at 1. cbn [Group.key_eqb]. apply andb_true_r.
Qed.

Lemma sqri_every_site (df : DataFrame) (w : option Metrics.SQRIWeights) (thr : float)
    (out : list Metrics.SqriRow) (r : Row) :
  Frame.empty df = false ->
  Metrics.sqri df w thr = Ok out ->
  r ∈ Metrics.sqri_rows df ->
  exists o, o ∈ out /\ Group.cell_eqb (Metrics.site o) (Frame.cell r "site") = true.
Proof.
  intros He Ho Hr.
  apply sqri_structure in Ho as (s1 & s2 & s3 & out0 & HF & ->); [|exact He].
  destruct (groupby_complete ["site"] true (Metrics.sqri_rows df) r) as (g & Hg & Hk).
  { by rewrite sqri_rows_grouped. }
  destruct (Forall2_elem_of_l _ _ _ _ HF Hg) as (o & Ho & Hrow).
  exists o. split; [unfold Group.sort_values_desc; by rewrite merge_sort_Permutation|].
  apply sqri_row_Ok in Hrow as (-> & _). cbn [fst].
  rewrite (site_group_key df g Hg) in Hk. cbn [Group.key_of map Group.key_eqb] in Hk.
  by rewrite andb_true_r in Hk.
Qed.

End SqriOutcome.

Section SqriValues.
Context {P : Pandas}.

Lemma sqri_total_value (df : DataFrame) (w : option Metrics.SQRIWeights) (thr : float)
    (out : list Metrics.SqriRow) (o : Metrics.SqriRow) :
  Frame.empty df = false ->
  Metrics.sqri df w thr = Ok out ->
  o ∈ out ->
  Metrics.total_value o
  = Metrics.fillna0
      (Group.fsum (Group.values "refund_amount"
                     (rows_of_key ["site"] (Metrics.sqri_rows df) [Metrics.site o]))).
Proof.
  intros He Ho Hin.
  apply sqri_structure in Ho as (s1 & s2 & s3 & out0 & HF & ->); [|exact He].
  unfold Group.sort_values_desc in Hin. rewrite merge_sort_Permutation in Hin.
  destruct (Forall2_elem_of_r _ _ _ _ (Forall2_with_elem_of _ _ _ HF) Hin)
    as (g & _ & Hg & Hrow).
  pose proof (site_group_key df g Hg) as Hkey.
  apply groupby_elem_of in Hg as [_ Hrows]. rewrite sqri_rows_grouped in Hrows.
  unfold Metrics.sqri_row in Hrow. cbv zeta in Hrow.
  rewrite accommodation_share_total in Hrow. unfold bind in Hrow.
  injection Hrow as <-. cbn [Metrics.total_value Metrics.site fst snd].
  unfold rows_of_key. by rewrite <- Hkey, <- Hrows.
Qed.

End SqriValues.

(** X12: the ranking [sqri] returns.  On an empty table it has no row.
    On a table that is not empty [sqri] fails with the [KeyError] of
    [refund_amount] when that column is absent, and, when it is there
    and [site] is not, with the [KeyError] of the list of the one name
    [site].  A ranking that is computed on a table that is not empty is
    one of a table that has the columns [refund_amount], [site] and
    [refund_category].  It is in descending order of the score, a NaN
    score last; it has at most one row for a site; and on a table that
    is not empty it has a row for the site of every row that has an
    amount and a site, whose [total_value] is the sum that pandas
    computes of the amounts of those rows at that site, zero when that
    sum is NaN. *)
Theorem sqri_ranking :
  (forall (P : Pandas) (df : DataFrame) (w : option Metrics.SQRIWeights) (thr : float),
      Frame.empty df = true -> Metrics.sqri df w thr = Ok [])
  /\ (forall (P : Pandas) (df : DataFrame) (w : option Metrics.SQRIWeights) (thr : float),
         Frame.empty df = false ->
         Frame.has_column df "refund_amount" = false ->
         Metrics.sqri df w thr = Raise (KeyError "refund_amount"))
  /\ (forall (P : Pandas) (df : DataFrame) (w : option Metrics.SQRIWeights) (thr : float),
         Frame.empty df = false ->
         Frame.has_column df "refund_amount" = true ->
         Frame.has_column df "site" = false ->
         Metrics.sqri df w thr = Raise (KeyErrorList ["site"]))
  /\ (forall (P : Pandas) (df : DataFrame) (w : option Metrics.SQRIWeights) (thr : float)
             (out : list Metrics.SqriRow),
         Metrics.sqri df w thr = Ok out ->
         Sorted (Group.value_ge_by Metrics.sqri_score) out
         /\ (forall s, (length (filter (fun r => Group.cell_eqb (Metrics.site r) s = true)
                                       out) <= 1)%nat)
         /\ (Frame.empty df = true -> out = [])
         /\ (Frame.empty df = false ->
             (forall c, c ∈ ["refund_amount"; "site"; "refund_category"] ->
                        Frame.has_column df c = true)
             /\ (forall r, r ∈ Metrics.sqri_rows df ->
                           exists o, o ∈ out
                                     /\ Group.cell_eqb (Metrics.site o) (Frame.cell r "site")
                                        = true)
             /\ (forall o, o ∈ out ->
                   Metrics.total_value o
                   = Metrics.fillna0
                       (Group.fsum
                          (Group.values "refund_amount"
                             (rows_of_key ["site"] (Metrics.sqri_rows df)
                                          [Metrics.site o])))))).
Proof.
  split; [intros P; apply sqri_empty|].
  split; [intros P; apply sqri_fails_amount|].
  split; [intros P; apply sqri_fails_site|].
  intros P df w thr out Ho.
  split; [by eapply sqri_sorted|]. split; [intros s; by eapply sqri_one_per_site|].
  split.
  - intros He. rewrite (sqri_empty df w thr He) in Ho. by injection Ho as <-.
  - intros He. split; [|split].
    + intros c. by eapply sqri_Ok_columns.
    + intros r. by eapply sqri_every_site.
    + intros o. by eapply sqri_total_value.
Qed.

Lemma sqri_ranking_witness :
  exists out : list Metrics.SqriRow,
    Metrics.sqri (P := Reference.pandas) Examples.consolidated None 100.0 = Ok out
    /\ map Metrics.site out = [CStr "Brighton"; CStr "Newhaven"]
    /\ map Metrics.total_value out = [211.0%float; 0.0%float]
    /\ Sorted (Group.value_ge_by Metrics.sqri_score) out
    /\ Metrics.sqri (P := Reference.pandas)
         {| columns := ["refund_amount"];
            rows := [Examples.row_of [("refund_amount", CNum 1.0)]] |} None 100.0
       = Raise (KeyErrorList ["site"])
    /\ Metrics.sqri (P := Reference.pandas)
         {| columns := ["site"]; rows := [Examples.row_of [("site", CStr "Brighton")]] |}
         None 100.0
       = Raise (KeyError "refund_amount").
Proof.
  eexists. split; [vm_compute; reflexivity|]. split; [reflexivity|].
  split; [reflexivity|]. split; [|split].
  - refine (proj1 (proj2 (proj2 (proj2 sqri_ranking)) Reference.pandas
                     Examples.consolidated None 100.0%float _ _)).
    vm_compute. reflexivity.
  - apply (proj1 (proj2 (proj2 sqri_ranking)) Reference.pandas);
      vm_compute; reflexivity.
  - apply (proj1 (proj2 sqri_ranking) Reference.pandas); vm_compute; reflexivity.
Defined.

(** ** The validation report *)

Section Extremes.
Local Open Scope float_scope.

Lemma foldl_min_spec (l : list float) (x : float) :
  is_nan x = false ->
  Forall (fun y => is_nan y = false) l ->
  let m := foldl (fun m y => if y <? m then y else m) x l in
  m ∈ x :: l /\ (m <=? x) = true /\ forall v, v ∈ l -> (m <=? v) = true.
Proof.
  revert x. induction l as [|y l IH]; intros x Hx Hl; cbn [foldl].
  - split; [apply list_elem_of_here|]. split; [by apply float_leb_refl|].
    intros v Hv. by apply not_elem_of_nil in Hv.
  - apply Forall_cons in Hl as [Hy Hl].
    set (x' := if y <? x then y else x).
    assert (Hx' : is_nan x' = false) by (subst x'; by destruct (y <? x)).
    assert (Hle : (x' <=? x) = true /\ (x' <=? y) = true).
    { subst x'. destruct (y <? x) eqn:E.
      - split; [by apply float_ltb_leb | by apply float_leb_refl].
      - split; [by apply float_leb_refl|]. by rewrite float_leb_negb_ltb, E. }
    destruct (IH x' Hx' Hl) as (Hin & Hmx & Hall). cbv zeta in *.
    split; [|split].
    + apply elem_of_cons in Hin as [-> | Hin].
      * subst x'. destruct (y <? x); [apply list_elem_of_further|]; apply list_elem_of_here.
      * by apply list_elem_of_further, list_elem_of_further.
    + eapply float_leb_trans; [exact Hmx | tauto].
    + intros v [-> | Hv]%elem_of_cons; [|by apply Hall].
      eapply float_leb_trans; [exact Hmx | tauto].
Qed.

Lemma foldl_max_spec (l : list float) (x : float) :
  is_nan x = false ->
  Forall (fun y => is_nan y = false) l ->
  let m := foldl (fun m y => if m <? y then y else m) x l in
  m ∈ x :: l /\ (x <=? m) = true /\ forall v, v ∈ l -> (v <=? m) = true.
Proof.
  revert x. induction l as [|y l IH]; intros x Hx Hl; cbn [foldl].
  - split; [apply list_elem_of_here|]. split; [by apply float_leb_refl|].
    intros v Hv. by apply not_elem_of_nil in Hv.
  - apply Forall_cons in Hl as [Hy Hl].
    set (x' := if x <? y then y else x).
    assert (Hx' : is_nan x' = false) by (subst x'; by destruct (x <? y)).
    assert (Hle : (x <=? x') = true /\ (y <=? x') = true).
    { subst x'. destruct (x <? y) eqn:E.
      - split; [by apply float_ltb_leb | by apply float_leb_refl].
      - split; [by apply float_leb_refl|]. by rewrite float_leb_negb_ltb, E. }
    destruct (IH x' Hx' Hl) as (Hin & Hmx & Hall). cbv zeta in *.
    split; [|split].
    + apply elem_of_cons in Hin as [-> | Hin].
      * subst x'. destruct (x <? y); [apply list_elem_of_further|]; apply list_elem_of_here.
      * by apply list_elem_of_further, list_elem_of_further.
    + eapply float_leb_trans; [|exact Hmx]. tauto.
    + intros v [-> | Hv]%elem_of_cons; [|by apply Hall].
      eapply float_leb_trans; [|exact Hmx]. tauto.
Qed.

(** The least and the greatest of a series without NaN are values of the
    series and bound every value of it. *)
Lemma fmin_spec (l : list float) :
  l <> [] -> Forall (fun y => is_nan y = false) l ->
  Validation.fmin l ∈ l /\ forall v, v ∈ l -> (Validation.fmin l <=? v) = true.
Proof.
  destruct l as [|x l]; [done|]. intros _ [Hx Hl]%Forall_cons.
  destruct (foldl_min_spec l x Hx Hl) as (Hin & Hmx & Hall). cbv zeta in *.
  split; [exact Hin|]. intros v [-> | Hv]%elem_of_cons; auto.
Qed.

Lemma fmax_spec (l : list float) :
  l <> [] -> Forall (fun y => is_nan y = false) l ->
  Validation.fmax l ∈ l /\ forall v, v ∈ l -> (v <=? Validation.fmax l) = true.
Proof.
  destruct l as [|x l]; [done|]. intros _ [Hx Hl]%Forall_cons.
  destruct (foldl_max_spec l x Hx Hl) as (Hin & Hmx & Hall). cbv zeta in *.
  split; [exact Hin|]. intros v [-> | Hv]%elem_of_cons; auto.
Qed.

End Extremes.

Section AmountSummary.
Context {P : Pandas}.
Variable quantile : list float -> float -> float.
Local Open Scope float_scope.

(** The numbers of a column, as [amount_sanity_checks] reads them. *)
Lemma numbers_elem_of (df : DataFrame) (c : string) (v : float) :
  v ∈ filter (fun f => is_nan f = false) (map Cleaning.to_numeric (Frame.column df c))
  <-> is_nan v = false
      /\ exists r, r ∈ rows df /\ v = Cleaning.to_numeric (Frame.cell r c).
Proof.
  rewrite list_elem_of_filter. unfold Frame.column. rewrite List.map_map.
  rewrite list_elem_of_fmap. split; intros (Hn & r & H1 & H2); eauto.
Qed.

Lemma numbers_not_nan (df : DataFrame) (c : string) :
  Forall (fun y => is_nan y = false)
         (filter (fun f => is_nan f = false)
                 (map Cleaning.to_numeric (Frame.column df c))).
Proof. apply List.Forall_forall. intros v Hv. apply list_elem_of_In, list_elem_of_filter in Hv. tauto. Qed.

Lemma amount_summary_keys (df : DataFrame) (c k : string) :
  is_Some (Validation.amount_sanity_checks quantile df c !! k)
  <-> k ∈ ["min"; "p50"; "p90"; "max"].
Proof.
  assert (Hkeys : forall a b c' d : float,
             is_Some ((<["min" := a]> (<["p50" := b]> (<["p90" := c']>
                         (<["max" := d]> (∅ : gmap string float)))))
                        !! k)
             <-> k ∈ ["min"; "p50"; "p90"; "max"]).
  { intros a b c' d. rewrite !elem_of_cons, elem_of_nil.
    rewrite !lookup_insert_is_Some, lookup_empty, is_Some_alt. intuition congruence. }
  unfold Validation.amount_sanity_checks, Validation.nan_summary.
  destruct (_ || _); [apply Hkeys|]. cbv zeta. destruct (filter _ _); apply Hkeys.
Qed.

Lemma amount_summary_nan (df : DataFrame) (c : string) :
  Frame.has_column df c = false
  \/ Frame.empty df = true
  \/ (forall r, r ∈ rows df -> is_nan (Cleaning.to_numeric (Frame.cell r c)) = true) ->
  Validation.amount_sanity_checks quantile df c = Validation.nan_summary.
Proof.
  unfold Validation.amount_sanity_checks. intros [Hc | [He | Hall]].
  - by rewrite Hc.
  - rewrite He. by rewrite orb_true_r.
  - destruct (_ || _); [reflexivity|]. cbv zeta.
    rewrite filter_none; [reflexivity|].
    intros v Hv Hn. unfold Frame.column in Hv. rewrite List.map_map in Hv.
    apply list_elem_of_fmap in Hv as (r & -> & Hr). rewrite (Hall r Hr) in Hn. discriminate.
Qed.

Lemma amount_summary_bounds (df : DataFrame) (c : string) (r : Row) :
  Frame.has_column df c = true ->
  Frame.empty df = false ->
  r ∈ rows df ->
  is_nan (Cleaning.to_numeric (Frame.cell r c)) = false ->
  exists lo hi r_lo r_hi,
    Validation.amount_sanity_checks quantile df c !! "min" = Some lo
    /\ Validation.amount_sanity_checks quantile df c !! "max" = Some hi
    /\ r_lo ∈ rows df /\ lo = Cleaning.to_numeric (Frame.cell r_lo c)
    /\ r_hi ∈ rows df /\ hi = Cleaning.to_numeric (Frame.cell r_hi c)
    /\ forall r', r' ∈ rows df ->
         is_nan (Cleaning.to_numeric (Frame.cell r' c)) = false ->
         (lo <=? Cleaning.to_numeric (Frame.cell r' c)) = true
         /\ (Cleaning.to_numeric (Frame.cell r' c) <=? hi) = true.
Proof.
  intros Hc He Hr Hn. unfold Validation.amount_sanity_checks.
  rewrite Hc, He. cbn [negb orb]. cbv zeta.
  pose proof (numbers_elem_of df c) as Hmem. pose proof (numbers_not_nan df c) as Hnn.
  set (s := filter _ _) in *.
  assert (Hne : s <> []).
  { intros Hs. assert (Hin : Cleaning.to_numeric (Frame.cell r c) ∈ s)
      by (apply Hmem; eauto). rewrite Hs in Hin. by apply not_elem_of_nil in Hin. }
  destruct (fmin_spec s Hne Hnn) as (Hmin & Hlo).
  destruct (fmax_spec s Hne Hnn) as (Hmax & Hhi).
  apply Hmem in Hmin as (_ & r_lo & Hrlo & Hlo_eq).
  apply Hmem in Hmax as (_ & r_hi & Hrhi & Hhi_eq).
  clearbody s. destruct s as [|x s']; [done|]. cbv beta iota.
  eexists _, _, r_lo, r_hi.
  split; [apply lookup_insert_eq|].
  split; [do 3 (rewrite lookup_insert_ne by done); apply lookup_insert_eq|].
  repeat (split; [assumption|]).
  intros r' Hr' Hn'. split; [apply Hlo | apply Hhi]; apply Hmem; eauto.
Qed.

End AmountSummary.

(** X13: the amount summary of [amount_sanity_checks].  It always has
    the four entries [min], [p50], [p90] and [max], and nothing else.  All
    four are NaN when the column is absent, when the table is empty, or
    when no entry of the column reads as a number.  Otherwise [min] and
    [max] are the readings of two rows of the table, and every entry that
    reads as a number lies between them. *)
Theorem amount_summary_spec `{P : Pandas} (quantile : list float -> float -> float)
    (df : DataFrame) (c : string) :
  let summary := Validation.amount_sanity_checks quantile df c in
  (forall k, is_Some (summary !! k) <-> k ∈ ["min"; "p50"; "p90"; "max"])
  /\ (Frame.has_column df c = false
      \/ Frame.empty df = true
      \/ (forall r, r ∈ rows df -> is_nan (Cleaning.to_numeric (Frame.cell r c)) = true) ->
      summary = Validation.nan_summary)
  /\ (forall r,
        Frame.has_column df c = true ->
        Frame.empty df = false ->
        r ∈ rows df ->
        is_nan (Cleaning.to_numeric (Frame.cell r c)) = false ->
        exists lo hi r_lo r_hi,
          summary !! "min" = Some lo
          /\ summary !! "max" = Some hi
          /\ r_lo ∈ rows df /\ lo = Cleaning.to_numeric (Frame.cell r_lo c)
          /\ r_hi ∈ rows df /\ hi = Cleaning.to_numeric (Frame.cell r_hi c)
          /\ forall r', r' ∈ rows df ->
               is_nan (Cleaning.to_numeric (Frame.cell r' c)) = false ->
               (lo <=? Cleaning.to_numeric (Frame.cell r' c))%float = true
               /\ (Cleaning.to_numeric (Frame.cell r' c) <=? hi)%float = true).
Proof.
  intros summary. split; [intros k; apply amount_summary_keys|].
  split; [apply amount_summary_nan|].
  intros r. apply amount_summary_bounds.
Qed.

Lemma amount_summary_spec_witness :
  exists lo hi r_lo r_hi,
    Validation.amount_sanity_checks (P := Reference.pandas) (fun _ _ => nan)
      Examples.consolidated "refund_amount" !! "min" = Some lo
    /\ Validation.amount_sanity_checks (P := Reference.pandas) (fun _ _ => nan)
         Examples.consolidated "refund_amount" !! "max" = Some hi
    /\ r_lo ∈ rows Examples.consolidated
    /\ lo = Cleaning.to_numeric (P := Reference.pandas) (Frame.cell r_lo "refund_amount")
    /\ r_hi ∈ rows Examples.consolidated
    /\ hi = Cleaning.to_numeric (P := Reference.pandas) (Frame.cell r_hi "refund_amount")
    /\ forall r', r' ∈ rows Examples.consolidated ->
         is_nan (Cleaning.to_numeric (P := Reference.pandas)
                   (Frame.cell r' "refund_amount")) = false ->
         (lo <=? Cleaning.to_numeric (P := Reference.pandas)
                   (Frame.cell r' "refund_amount"))%float = true
         /\ (Cleaning.to_numeric (P := Reference.pandas)
               (Frame.cell r' "refund_amount") <=? hi)%float = true.
Proof.
  eapply (proj2 (proj2 (amount_summary_spec (P := Reference.pandas) (fun _ _ => nan)
                          Examples.consolidated "refund_amount"))).
  - vm_compute. reflexivity.
  - vm_compute. reflexivity.
  - apply list_elem_of_here.
  - vm_compute. reflexivity.
Defined.

(** ** The duplicate report *)

Section DuplicateReport.

Lemma duplicated_as_map (key_cols : list string) (rs : list Row) :
  Validation.duplicated key_cols rs
  = map (fun r => (2 <=? Validation.occurrences (Group.key_of key_cols r)
                           (map (Group.key_of key_cols) rs))%nat) rs.
Proof. unfold Validation.duplicated. cbv zeta. by rewrite List.map_map. Qed.

Lemma occurrences_rows (key_cols : list string) (rs : list Row) (k : list Cell) :
  Validation.occurrences k (map (Group.key_of key_cols) rs)
  = length (rows_of_key key_cols rs k).
Proof.
  unfold Validation.occurrences, rows_of_key.
  induction rs as [|r rs IH]; [reflexivity|]. cbn [map]. rewrite !filter_cons.
  destruct (Group.key_eqb (Group.key_of key_cols r) k) eqn:E.
  - rewrite !decide_True by done. cbn [length]. by rewrite IH.
  - rewrite !decide_False by congruence. exact IH.
Qed.

Lemma occurrences_same (k k' : list Cell) (ks : list (list Cell)) :
  Group.key_eqb k k' = true ->
  Validation.occurrences k ks = Validation.occurrences k' ks.
Proof.
  intros He. unfold Validation.occurrences. f_equal. apply list_filter_iff.
  intros x. split; intros Hx.
  - by eapply key_eqb_trans.
  - eapply key_eqb_trans; [exact Hx|]. by rewrite key_eqb_sym.
Qed.

Lemma count_true_map {A} (p : A -> bool) (l : list A) :
  length (filter (fun b => b = true) (map p l))
  = length (filter (fun x => p x = true) l).
Proof.
  induction l as [|x l IH]; [reflexivity|]. cbn [map]. rewrite !filter_cons.
  destruct (p x) eqn:E.
  - rewrite !decide_True by done. cbn [length]. by rewrite IH.
  - rewrite !decide_False by congruence. exact IH.
Qed.

Lemma sum_list_with_ge {A} (f : A -> nat) (c : nat) (l : list A) :
  (forall x, x ∈ l -> (c <= f x)%nat) -> (c * length l <= sum_list_with f l)%nat.
Proof.
  induction l as [|x l IH]; intros Hall; cbn [length sum_list_with]; [lia|].
  pose proof (Hall x (list_elem_of_here _ _)).
  assert (c * length l <= sum_list_with f l)%nat
    by (apply IH; intros y Hy; by apply Hall, list_elem_of_further).
  lia.
Qed.

Lemma sum_list_with_one {A} (l : list A) : sum_list_with (fun _ => 1%nat) l = length l.
Proof. induction l as [|x l IH]; [reflexivity|]. cbn [sum_list_with length]. by rewrite IH. Qed.

Lemma duplicated_selected (key_cols : list string) (rs : list Row) :
  Frame.select (Validation.duplicated key_cols rs) rs
  = filter (fun r => (2 <=? Validation.occurrences (Group.key_of key_cols r)
                              (map (Group.key_of key_cols) rs))%nat = true) rs.
Proof. rewrite duplicated_as_map. apply select_map_same. Qed.

Lemma duplicated_count (key_cols : list string) (rs : list Row) :
  length (filter (fun b => b = true) (Validation.duplicated key_cols rs))
  = length (Frame.select (Validation.duplicated key_cols rs) rs).
Proof. rewrite duplicated_selected, duplicated_as_map. apply count_true_map. Qed.

(** Every key among the marked rows is the key of two marked rows at
    least. *)
Lemma duplicate_keys_twice (key_cols : list string) (rs : list Row) :
  (2 * length (Group.distinct
                 (map (Group.key_of key_cols)
                      (Frame.select (Validation.duplicated key_cols rs) rs)))
   <= length (Frame.select (Validation.duplicated key_cols rs) rs))%nat.
Proof.
  rewrite duplicated_selected. set (sel := filter _ rs).
  rewrite <- (sum_list_with_one sel).
  rewrite <- (groups_partition key_cols (fun _ => 1%nat) sel).
  apply sum_list_with_ge. intros k Hk. rewrite sum_list_with_one.
  apply distinct_elem_of, list_elem_of_fmap in Hk as (r & -> & Hr).
  apply list_elem_of_filter in Hr as [Hmark Hr]. apply Nat.leb_le in Hmark.
  assert (Hsame : rows_of_key key_cols sel (Group.key_of key_cols r)
                  = rows_of_key key_cols rs (Group.key_of key_cols r)).
  { unfold rows_of_key. subst sel. apply list_filter_filter_l. intros r' He.
    apply Nat.leb_le. by rewrite (occurrences_same _ _ _ He). }
  by rewrite Hsame, <- occurrences_rows.
Qed.

Lemma missing_none (df : DataFrame) (key_cols : list string) :
  filter (fun c => Frame.has_column df c = false) key_cols = [] ->
  forall c, c ∈ key_cols -> Frame.has_column df c = true.
Proof.
  intros Hf c Hc. destruct (Frame.has_column df c) eqn:E; [reflexivity|].
  assert (c ∈ filter (fun c => Frame.has_column df c = false) key_cols) as Hin
    by (by apply list_elem_of_filter).
  rewrite Hf in Hin. by apply not_elem_of_nil in Hin.
Qed.

Lemma duplicate_report_present (df : DataFrame) (key_cols : list string) :
  (forall c, c ∈ key_cols -> Frame.has_column df c = true) ->
  exists n d : nat,
    Validation.duplicate_check df key_cols
    = <["duplicate_rows" := Z.of_nat n]> (<["distinct_duplicate_keys" := Z.of_nat d]> ∅)
    /\ (n <= length (rows df))%nat /\ (2 * d <= n)%nat /\ (d = 0%nat <-> n = 0%nat).
Proof.
  intros Hall. rewrite (duplicate_check_present df key_cols Hall).
  eexists _, _. split; [reflexivity|].
  pose proof (duplicate_keys_twice key_cols (rows df)) as Htwice.
  rewrite duplicated_count.
  set (sel := Frame.select _ (rows df)) in *.
  split; [apply length_select|]. split; [exact Htwice|].
  split; [|intros Hn; apply length_zero_iff_nil in Hn; by rewrite Hn].
  intros Hd. apply length_zero_iff_nil in Hd.
  destruct sel as [|r sel']; [reflexivity | discriminate].
Qed.

End DuplicateReport.

(** X14: the report of [duplicate_check] for at least one key column.
    It always has an entry [duplicate_rows], between zero and the number
    of rows and never one, since the members of a group of duplicates are
    all counted.  It has an entry [distinct_duplicate_keys] exactly when
    every key column is in the table; that entry is at most half of
    [duplicate_rows], and is zero exactly when [duplicate_rows] is.  It
    has an entry [note_missing_key_cols] exactly when a key column is
    absent; then [duplicate_rows] is zero and the note is the number of
    the key columns that are absent, at least one. *)
Theorem duplicate_report_invariants (df : DataFrame) (key_cols : list string) :
  key_cols <> [] ->
  let report := Validation.duplicate_check df key_cols in
  exists n : Z,
    report !! "duplicate_rows" = Some n
    /\ (0 <= n <= Z.of_nat (length (rows df)))%Z
    /\ n <> 1%Z
    /\ (is_Some (report !! "distinct_duplicate_keys")
        <-> forall c, c ∈ key_cols -> Frame.has_column df c = true)
    /\ (is_Some (report !! "note_missing_key_cols")
        <-> exists c, c ∈ key_cols /\ Frame.has_column df c = false)
    /\ (forall d, report !! "distinct_duplicate_keys" = Some d ->
                  (0 <= d)%Z /\ (2 * d <= n)%Z /\ (d = 0%Z <-> n = 0%Z))
    /\ (forall m, report !! "note_missing_key_cols" = Some m ->
                  n = 0%Z
                  /\ m = Z.of_nat (length (filter (fun c => Frame.has_column df c = false)
                                                  key_cols))
                  /\ (1 <= m <= Z.of_nat (length key_cols))%Z).
Proof.
  intros _ report. subst report.
  destruct (filter (fun c => Frame.has_column df c = false) key_cols) as [|c0 l] eqn:Hf.
  - pose proof (missing_none df key_cols Hf) as Hall.
    destruct (duplicate_report_present df key_cols Hall) as (n & d & -> & Hn & Hd & Hz).
    exists (Z.of_nat n). split; [apply lookup_insert_eq|].
    rewrite (lookup_insert_ne _ "duplicate_rows" "distinct_duplicate_keys") by done.
    rewrite lookup_insert_eq.
    rewrite !(lookup_insert_ne _ _ "note_missing_key_cols") by done.
    rewrite lookup_empty.
    split; [lia|]. split; [lia|]. split; [split; [done | eauto]|].
    split.
    + split; [by intros [? ?]|]. intros (c & Hc & Hm). rewrite (Hall c Hc) in Hm.
      discriminate.
    + split; [|discriminate]. intros d' [= <-]. lia.
  - assert (Hc0 : c0 ∈ key_cols /\ Frame.has_column df c0 = false).
    { assert (c0 ∈ filter (fun c => Frame.has_column df c = false) key_cols) as Hin
        by (rewrite Hf; apply list_elem_of_here).
      apply list_elem_of_filter in Hin. tauto. }
    destruct Hc0 as [Hc0 Hm0].
    destruct (duplicate_check_missing df key_cols c0 Hc0 Hm0) as [-> Hlen].
    pose proof (length_filter (fun c => Frame.has_column df c = false) key_cols) as Hle.
    exists 0%Z. split; [apply lookup_insert_eq|].
    rewrite (lookup_insert_ne _ "duplicate_rows" "note_missing_key_cols") by done.
    rewrite lookup_insert_eq.
    rewrite !(lookup_insert_ne _ _ "distinct_duplicate_keys") by done.
    rewrite lookup_empty.
    split; [lia|]. split; [lia|]. split.
    + split; [by intros [? ?]|]. intros Hall. rewrite (Hall c0 Hc0) in Hm0. discriminate.
    + split; [split; eauto|]. split; [discriminate|].
      intros m [= <-]. split; [reflexivity|]. split; [by rewrite Hf | lia].
Qed.

Lemma duplicate_report_invariants_witness :
  exists n : Z,
    Validation.duplicate_check Examples.date_fallback Validation.default_key_cols
    !! "duplicate_rows" = Some n
    /\ forall m,
         Validation.duplicate_check Examples.date_fallback Validation.default_key_cols
         !! "note_missing_key_cols" = Some m ->
         n = 0%Z /\ m = 4%Z.
Proof.
  destruct (duplicate_report_invariants Examples.date_fallback Validation.default_key_cols
              ltac:(discriminate))
    as (n & Hn & _ & _ & _ & _ & _ & Hnote).
  exists n. split; [exact Hn|]. intros m Hm.
  destruct (Hnote m Hm) as (H0 & Hm' & _). split; [exact H0|].
  rewrite Hm'. vm_compute. reflexivity.
Defined.

(** ** The audit of missing values *)

Section NullAudit.

Lemma null_audit_lookup (df : DataFrame) (cols : list string) (c : string) :
  Validation.null_audit df cols !! c
  = if decide (c ∈ cols)
    then Some (if Frame.has_column df c
               then Validation.null_rate (Frame.column df c)
               else 1.0%float)
    else None.
Proof.
  unfold Validation.null_audit.
  assert (H : forall acc : gmap string float,
             foldl (fun out c =>
                      if Frame.has_column df c
                      then <[c := Validation.null_rate (Frame.column df c)]> out
                      else <[c := 1.0%float]> out) acc cols !! c
             = if decide (c ∈ cols)
               then Some (if Frame.has_column df c
                          then Validation.null_rate (Frame.column df c)
                          else 1.0%float)
               else acc !! c).
  { induction cols as [|c0 cols IH]; intros acc; cbn [foldl].
    - rewrite decide_False by apply not_elem_of_nil. reflexivity.
    - rewrite IH. destruct (decide (c ∈ cols)) as [Hin | Hnin].
      + rewrite decide_True by (by apply list_elem_of_further). reflexivity.
      + destruct (decide (c = c0)) as [-> | Hne].
        * rewrite decide_True by apply list_elem_of_here.
          destruct (Frame.has_column df c0); apply lookup_insert_eq.
        * rewrite decide_False by (rewrite elem_of_cons; tauto).
          destruct (Frame.has_column df c0); by rewrite lookup_insert_ne. }
  rewrite H. by rewrite lookup_empty.
Qed.

End NullAudit.

(** X15: the report of [null_audit] has an entry for each tracked column
    and for no other name.  The entry of a column that is absent from the
    table is 1.0; the entry of a column of the table is the number of its
    missing entries divided by the number of rows, and NaN, not zero,
    when the table has no row. *)
Theorem null_audit_spec (df : DataFrame) (cols : list string) (c : string) :
  (is_Some (Validation.null_audit df cols !! c) <-> c ∈ cols)
  /\ (c ∈ cols -> Frame.has_column df c = false ->
      Validation.null_audit df cols !! c = Some 1.0%float)
  /\ (c ∈ cols -> Frame.has_column df c = true -> rows df <> [] ->
      Validation.null_audit df cols !! c
      = Some (Group.float_of_nat
                (length (filter (fun r => Frame.isna (Frame.cell r c) = true) (rows df)))
              / Group.float_of_nat (length (rows df)))%float)
  /\ (c ∈ cols -> Frame.has_column df c = true -> rows df = [] ->
      exists v, Validation.null_audit df cols !! c = Some v /\ is_nan v = true).
Proof.
  rewrite null_audit_lookup. split; [|split; [|split]].
  - destruct (decide (c ∈ cols)) as [Hin | Hnin].
    + split; [done | eauto].
    + split; [by intros [? ?] | done].
  - intros Hc Hm. by rewrite decide_True, Hm.
  - intros Hc Hp Hne. rewrite decide_True, Hp by done. f_equal.
    unfold Validation.null_rate, Frame.column.
    destruct (rows df) as [|r rs] eqn:Hrows; [done|]. cbn [map]. rewrite <- Hrows.
    change (Frame.cell r c :: map (fun r0 => Frame.cell r0 c) rs)
      with (map (fun r0 => Frame.cell r0 c) (r :: rs)).
    rewrite <- Hrows, length_map. f_equal. f_equal.
    clear. induction (rows df) as [|x l IH]; [reflexivity|].
    cbn [map]. rewrite !filter_cons. destruct (Frame.isna (Frame.cell x c)) eqn:E.
    + rewrite !decide_True by done. cbn [length]. by rewrite IH.
    + rewrite !decide_False by congruence. exact IH.
  - intros Hc Hp He. rewrite decide_True, Hp by done. eexists. split; [reflexivity|].
    unfold Frame.column. rewrite He. reflexivity.
Qed.

Lemma null_audit_spec_witness :
  Validation.null_audit Examples.consolidated Validation.default_null_cols !! "site"
  = Some (Group.float_of_nat 1 / Group.float_of_nat 5)%float
  /\ Validation.null_audit Examples.date_fallback Validation.default_null_cols !! "site"
     = Some 1.0%float.
Proof.
  split.
  - apply (proj1 (proj2 (proj2 (null_audit_spec Examples.consolidated
                                  Validation.default_null_cols "site")))).
    + apply list_elem_of_further, list_elem_of_further, list_elem_of_here.
    + vm_compute. reflexivity.
    + discriminate.
  - apply (proj1 (proj2 (null_audit_spec Examples.date_fallback
                           Validation.default_null_cols "site"))).
    + apply list_elem_of_further, list_elem_of_further, list_elem_of_here.
    + vm_compute. reflexivity.
Defined.

(** ** The validation of a cleaned table *)

Section ValidateCleaned.
Context {P : Pandas}.
Variable quantile : list float -> float -> float.
Local Open Scope float_scope.

Lemma clean_row_capped (name : string) (raw : DataFrame)
    (config : option Cleaning.CleaningConfig) (out : DataFrame) (r : Row) :
  Cleaning.clean_single_file name raw config = Ok out ->
  r ∈ rows out ->
  exists a, r !! "refund_amount" = Some (CNum a)
            /\ (a <=? Cleaning.max_refund_amount (Cleaning.config_or_default config)) = true.
Proof.
  intros Ho Hr.
  destruct (clean_row_origin _ _ _ _ _ Ho Hr)
    as (site & fm & r_raw & v & a & _ & _ & _ & Ha & ->).
  exists a. split; [by rewrite lookup_insert_ne, lookup_insert_eq|].
  unfold row_amount in Ha. destruct (Frame.has_column _ "ROOM"); [|discriminate].
  unfold Cleaning.where_le in Ha.
  destruct (abs _ <=? _) eqn:Hle; [|discriminate]. by injection Ha as <-.
Qed.

Lemma clean_all_row_capped (paths : list (string * DataFrame))
    (config : option Cleaning.CleaningConfig) (out : DataFrame) (r : Row) :
  Cleaning.clean_all_files paths config = Ok out ->
  r ∈ rows out ->
  exists a, r !! "refund_amount" = Some (CNum a)
            /\ (a <=? Cleaning.max_refund_amount (Cleaning.config_or_default config)) = true.
Proof.
  intros Ho Hr. destruct (clean_all_files_frames _ _ _ Ho) as (frames & Hall & ->).
  cbn [Cleaning.pd_concat rows] in Hr.
  apply list_elem_of_In, in_concat in Hr as (l & Hl & Hr).
  apply in_map_iff in Hl as (df & <- & Hdf).
  apply in_map_iff in Hr as (r0 & <- & Hr0).
  apply list_elem_of_In in Hdf, Hr0.
  destruct (Forall2_elem_of_r _ _ _ _ Hall Hdf) as (q & _ & Hq).
  destruct (clean_row_capped _ _ _ _ _ Hq Hr0) as (a & Ha & Hc).
  exists a. split; [by apply pad_row_lookup_Some | exact Hc].
Qed.

Lemma duplicate_check_without_receipt (df : DataFrame) :
  Frame.has_column df "site" = true ->
  Frame.has_column df "transaction_date" = true ->
  Frame.has_column df "refund_amount" = true ->
  Frame.has_column df "RECEIPT_NO" = false ->
  Validation.duplicate_check df ["site"; "transaction_date"; "RECEIPT_NO"; "refund_amount"]
  = <["duplicate_rows" := 0%Z]> (<["note_missing_key_cols" := 1%Z]> ∅).
Proof.
  intros H1 H2 H3 H4. unfold Validation.duplicate_check. cbv zeta.
  rewrite !filter_cons, filter_nil, H1, H2, H3, H4.
  rewrite !(decide_False (P := true = false)) by done.
  rewrite decide_True by done. reflexivity.
Qed.

Lemma validate_cleaned (ceiling : float) (raw_rows refund_rows : Z) (df : DataFrame) :
  (forall c, c ∈ ["site"; "transaction_date"; "refund_amount"] ->
             Frame.has_column df c = true) ->
  (forall r, r ∈ rows df ->
             exists a, r !! "refund_amount" = Some (CNum a) /\ (a <=? ceiling) = true) ->
  cleaned_report ceiling df (Validation.validate_dataset quantile raw_rows refund_rows df).
Proof.
  intros Hcols Hrows.
  assert (H1 : Frame.has_column df "site" = true) by (apply Hcols; solve_elem_of).
  assert (H2 : Frame.has_column df "transaction_date" = true)
    by (apply Hcols; solve_elem_of).
  assert (H3 : Frame.has_column df "refund_amount" = true) by (apply Hcols; solve_elem_of).
  assert (Hnum : forall r, r ∈ rows df ->
            exists a, Cleaning.to_numeric (Frame.cell r "refund_amount") = a
                      /\ (a <=? ceiling) = true).
  { intros r Hr. destruct (Hrows r Hr) as (a & Ha & Hb). exists a.
    unfold Frame.cell. rewrite Ha. auto. }
  unfold cleaned_report, Validation.validate_dataset. cbv zeta.
  cbn [Validation.counts Validation.duplicates Validation.amount_summary
       Validation.null_rates].
  split; [|split; [|split; [|split; [|split]]]].
  - unfold Validation.row_count_reconciliation.
    do 2 (rewrite lookup_insert_ne by done). apply lookup_insert_eq.
  - by apply duplicate_check_without_receipt.
  - intros H4. rewrite duplicate_check_present.
    + split.
      * do 2 (rewrite lookup_insert_ne by done). apply lookup_empty.
      * rewrite lookup_insert_ne by done. rewrite lookup_insert_eq. eauto.
    + intros c Hc. rewrite !elem_of_cons, elem_of_nil in Hc.
      destruct Hc as [-> | [-> | [-> | [-> | []]]]]; assumption.
  - intros He. apply amount_summary_nan. right. left.
    unfold Frame.empty. by rewrite He.
  - intros Hne.
    assert (exists r, r ∈ rows df) as [r Hr].
    { destruct (rows df) as [|r rs]; [done|]. exists r. apply list_elem_of_here. }
    assert (Hempty : Frame.empty df = false).
    { unfold Frame.empty. destruct (rows df); [done|]. unfold Frame.has_column in H3.
      apply bool_decide_eq_true in H3. destruct (columns df); [|reflexivity].
      by apply not_elem_of_nil in H3. }
    destruct (Hnum r Hr) as (a & Ha & Ha0).
    destruct (amount_summary_bounds quantile df "refund_amount" r H3 Hempty Hr)
      as (lo & hi & r_lo & r_hi & Hmin & Hmax & Hrlo & -> & Hrhi & -> & Hall).
    { rewrite Ha. by apply float_leb_not_nan in Ha0 as [? _]. }
    eexists _, _. split; [exact Hmin|]. split; [exact Hmax|].
    destruct (Hnum r_hi Hrhi) as (a2 & Heq2 & Hhic).
    split; [|by rewrite Heq2].
    apply (Hall r_hi Hrhi). rewrite Heq2. by apply float_leb_not_nan in Hhic as [? _].
  - intros c. rewrite null_audit_lookup.
    destruct (decide (c ∈ ["transaction_date"; "refund_amount"; "site"])) as [Hin | Hnin].
    + split; [done | eauto].
    + split; [by intros [? ?] | done].
Qed.

End ValidateCleaned.

Section ReceiptColumn.
Context {P : Pandas}.

Lemma clean_single_file_receipt (name : string) (raw : DataFrame)
    (config : option Cleaning.CleaningConfig) (out : DataFrame) :
  Cleaning.clean_single_file name raw config = Ok out ->
  Frame.has_column out "RECEIPT_NO" = Frame.has_column raw "RECEIPT_NO".
Proof.
  intros Ho. destruct (clean_single_file_stages _ _ _ _ Ho) as (site & fm & _ & _ & Hcols).
  unfold Frame.has_column. apply bool_decide_ext.
  rewrite Hcols, !elem_of_add_column_name, dated_stage_columns.
  rewrite !elem_of_cons, elem_of_nil. split; [|auto].
  intros [? | [? | [[? | [? | [? | []]]] | [? _]]]]; done.
Qed.

End ReceiptColumn.

(** X16: the validation report of a cleaned table, of one file or
    consolidated.  Its count of analysis rows is the number of rows of the
    table.  When the table has no [RECEIPT_NO] column the duplicate check
    is not made: the report says zero duplicate rows and one missing key
    column; when it has one, the check is made.  No amount being missing
    after cleaning, the amount summary of a table with rows has a [min]
    and a [max] with [min <= max <= ceiling], the ceiling being that of
    the cleaning configuration, and that of a table without rows is all
    NaN.  The missing-value rates are given for [transaction_date],
    [refund_amount] and [site].  The table of one file has a [RECEIPT_NO]
    column exactly when the raw export has one. *)
Theorem validate_cleaned_table :
  (forall (P : Pandas) (quantile : list float -> float -> float)
          (name : string) (raw : DataFrame) (config : option Cleaning.CleaningConfig)
          (out : DataFrame) (raw_rows refund_rows : Z),
      Cleaning.clean_single_file name raw config = Ok out ->
      cleaned_report (Cleaning.max_refund_amount (Cleaning.config_or_default config)) out
        (Validation.validate_dataset quantile raw_rows refund_rows out)
      /\ Frame.has_column out "RECEIPT_NO" = Frame.has_column raw "RECEIPT_NO")
  /\ (forall (P : Pandas) (quantile : list float -> float -> float)
             (paths : list (string * DataFrame)) (config : option Cleaning.CleaningConfig)
             (out : DataFrame) (raw_rows refund_rows : Z),
         Cleaning.clean_all_files paths config = Ok out ->
         cleaned_report (Cleaning.max_refund_amount (Cleaning.config_or_default config)) out
           (Validation.validate_dataset quantile raw_rows refund_rows out)).
Proof.
  split.
  - intros P quantile name raw config out raw_rows refund_rows Ho.
    split; [|by eapply clean_single_file_receipt].
    apply validate_cleaned.
    + intros c Hc. apply (clean_single_file_derived _ _ _ _ c Ho). solve_elem_of.
    + intros r. by apply (clean_row_capped name raw config).
  - intros P quantile paths config out raw_rows refund_rows Ho.
    apply validate_cleaned.
    + intros c Hc. apply (clean_all_files_derived _ _ _ c Ho). solve_elem_of.
    + intros r. by apply (clean_all_row_capped paths config).
Qed.

Lemma validate_cleaned_table_witness :
  exists out : DataFrame,
    Cleaning.clean_single_file (P := Reference.pandas)
      "Brighton_November_refund.csv" Examples.brighton_november None = Ok out
    /\ length (rows out) = 2%nat
    /\ cleaned_report 1000.0 out
         (Validation.validate_dataset (P := Reference.pandas) (fun _ _ => nan) 4 3 out)
    /\ Frame.has_column out "RECEIPT_NO"
       = Frame.has_column Examples.brighton_november "RECEIPT_NO".
Proof.
  eexists. split; [vm_compute; reflexivity|]. split; [reflexivity|].
  eapply (proj1 validate_cleaned_table Reference.pandas (fun _ _ => nan)
            "Brighton_November_refund.csv" Examples.brighton_november None).
  vm_compute. reflexivity.
Defined.

(** ** The refund filter *)

Section Substrings.




End Substrings.

Section RefundFilter.
Context {P : Pandas}.





End RefundFilter.



(** ** The KPIs of any table *)

Section KpisOutcome.
Context {P : Pandas}.

Lemma length_filter_map {A B} (f : A -> B) (q : B -> bool) (l : list A) :
  length (filter (fun y => q y = false) (map f l))
  = length (filter (fun x => q (f x) = false) l).
Proof.
  induction l as [|x l IH]; [reflexivity|]. cbn [map]. rewrite !filter_cons.
  destruct (q (f x)) eqn:E.
  - rewrite !decide_False by congruence. exact IH.
  - rewrite !decide_True by done. cbn [length]. by rewrite IH.
Qed.

Lemma kpis_fails (df : DataFrame) (e : Error) :
  Metrics.kpis df = Raise e
  <-> e = KeyError "refund_amount" /\ Frame.empty df = false
      /\ Frame.has_column df "refund_amount" = false.
Proof.
  unfold Metrics.kpis. destruct (Frame.empty df).
  - split; [discriminate | intros (_ & ? & _); discriminate].
  - destruct (Frame.has_column df "refund_amount"); cbn [negb].
    + split; [discriminate | intros (_ & _ & ?); discriminate].
    + split; [intros [= <-]; auto | intros (-> & _); reflexivity].
Qed.

Lemma kpis_Ok (df : DataFrame) (k : Metrics.Kpis) :
  Metrics.kpis df = Ok k ->
  (0 <= Metrics.refund_count k <= Z.of_nat (length (rows df)))%Z
  /\ (Frame.empty df = false ->
      Metrics.refund_count k
      = Z.of_nat (length (filter (fun r => is_nan (Cleaning.to_numeric
                                                      (Frame.cell r "refund_amount")) = false)
                                 (rows df))))
  /\ (Metrics.refund_count k = 0%Z ->
      Metrics.total_refund_value k = 0.0%float /\ Metrics.avg_refund_value k = 0.0%float)
  /\ (Metrics.refund_count k <> 0%Z ->
      Metrics.avg_refund_value k
      = (Metrics.total_refund_value k
         / Group.float_of_nat (Z.to_nat (Metrics.refund_count k)))%float).
Proof.
  unfold Metrics.kpis. destruct (Frame.empty df).
  - intros [= <-]. cbn. split; [lia|]. split; [discriminate|]. split; [auto | done].
  - destruct (Frame.has_column df "refund_amount"); cbn [negb]; [|discriminate].
    cbv zeta. intros [= <-].
    cbn [Metrics.refund_count Metrics.total_refund_value Metrics.avg_refund_value].
    unfold Frame.column. rewrite List.map_map.
    pose proof (length_filter_map
                  (fun r => Cleaning.to_numeric (Frame.cell r "refund_amount"))
                  is_nan (rows df)) as Hlen.
    pose proof (length_filter (fun r => is_nan (Cleaning.to_numeric
                                               (Frame.cell r "refund_amount")) = false)
                              (rows df)) as Hle.
    set (s := filter _ (map _ (rows df))) in *.
    split; [rewrite Hlen; lia|]. split; [intros _; by rewrite Hlen|].
    destruct s as [|x s']; cbn [length].
    + split; [auto | done].
    + split; [lia|]. intros _. unfold Metrics.series_mean. by rewrite Nat2Z.id.
Qed.

End KpisOutcome.

(** X18: [kpis] on any table.  It fails only on a table that is not empty
    and has no [refund_amount] column, with the [KeyError] of that
    column.  Otherwise its refund count is between zero and the number of
    rows, and on a table that is not empty it is the number of rows whose
    amount reads as a number; with a count of zero the total and the
    average are both 0.0, and otherwise the average is the total divided
    by the count. *)
Theorem kpis_outcome `{P : Pandas} (df : DataFrame) :
  (forall e, Metrics.kpis df = Raise e
             <-> e = KeyError "refund_amount" /\ Frame.empty df = false
                 /\ Frame.has_column df "refund_amount" = false)
  /\ (forall k, Metrics.kpis df = Ok k ->
        (0 <= Metrics.refund_count k <= Z.of_nat (length (rows df)))%Z
        /\ (Frame.empty df = false ->
            Metrics.refund_count k
            = Z.of_nat (length (filter (fun r => is_nan (Cleaning.to_numeric
                                                   (Frame.cell r "refund_amount")) = false)
                                       (rows df))))
        /\ (Metrics.refund_count k = 0%Z ->
            Metrics.total_refund_value k = 0.0%float
            /\ Metrics.avg_refund_value k = 0.0%float)
        /\ (Metrics.refund_count k <> 0%Z ->
            Metrics.avg_refund_value k
            = (Metrics.total_refund_value k
               / Group.float_of_nat (Z.to_nat (Metrics.refund_count k)))%float)).
Proof. split; [apply kpis_fails | apply kpis_Ok]. Qed.

Lemma kpis_outcome_witness :
  Metrics.kpis (P := Reference.pandas) Examples.date_fallback
  = Raise (KeyError "refund_amount")
  /\ exists k, Metrics.kpis (P := Reference.pandas) Examples.consolidated = Ok k
               /\ Metrics.refund_count k = 5%Z
               /\ Metrics.avg_refund_value k
                  = (Metrics.total_refund_value k
                     / Group.float_of_nat (Z.to_nat (Metrics.refund_count k)))%float.
Proof.
  split.
  - apply (proj1 (kpis_outcome (P := Reference.pandas) Examples.date_fallback)).
    repeat split.
  - eexists. split; [vm_compute; reflexivity|]. split; [reflexivity|].
    refine (proj2 (proj2 (proj2 (proj2 (kpis_outcome (P := Reference.pandas)
                                         Examples.consolidated) _ _))) _).
    + vm_compute. reflexivity.
    + discriminate.
Defined.

(** ** The peak days of any table *)

Section PeakOutcome.
Context {P : Pandas}.

Lemma with_date_only_has_column (df : DataFrame) (c : string) :
  c <> "date_only" ->
  Frame.has_column (Metrics.with_date_only df) c = Frame.has_column df c.
Proof.
  intros Hne. unfold Metrics.with_date_only. rewrite has_column_set_column.
  by rewrite bool_decide_eq_false_2.
Qed.

Lemma peak_days_Ok_columns (df : DataFrame) (top_n : Z) (out : list Metrics.PeakRow) :
  Frame.has_column df "transaction_date" = true ->
  Metrics.peak_days df top_n = Ok out ->
  Frame.has_column df "site" = true /\ Frame.has_column df "refund_amount" = true.
Proof.
  intros Hc. unfold Metrics.peak_days. rewrite Hc. cbn [negb]. cbv zeta.
  rewrite !with_date_only_has_column by done.
  destruct (Frame.has_column df "site"); cbn [negb]; [|discriminate].
  destruct (Frame.has_column df "refund_amount"); cbn [negb]; [|discriminate]. done.
Qed.

Lemma length_distinct (ks : list (list Cell)) :
  (length (Group.distinct ks) <= length ks)%nat.
Proof.
  induction ks as [|k ks IH]; [reflexivity|]. cbn [Group.distinct length].
  pose proof (length_filter (fun k' => Group.key_eqb k k' = false) (Group.distinct ks)).
  lia.
Qed.

Lemma length_groupby (by_cols : list string) (dropna : bool) (rs : list Row) :
  (length (Group.groupby by_cols dropna rs) <= length rs)%nat.
Proof.
  unfold Group.groupby. cbv zeta. rewrite length_map, merge_sort_Permutation.
  etransitivity; [apply length_distinct|]. rewrite length_map.
  unfold Group.grouped_rows. destruct dropna; [apply length_filter | reflexivity].
Qed.

Lemma length_head {A} (n : Z) (l : list A) : (length (Group.head n l) <= length l)%nat.
Proof. destruct (head_is_take n l) as (m & -> & _). rewrite length_take. lia. Qed.

Lemma length_filter_map_in {A B} (f : A -> B) (p : A -> bool) (q : B -> bool)
    (l : list A) :
  (forall x, x ∈ l -> q (f x) = p x) ->
  length (filter (fun y => q y = true) (map f l))
  = length (filter (fun x => p x = true) l).
Proof.
  induction l as [|x l IH]; intros Hext; [reflexivity|]. cbn [map].
  assert (IH' := IH (fun y Hy => Hext y (list_elem_of_further _ _ _ Hy))).
  rewrite !filter_cons, (Hext x) by apply list_elem_of_here.
  destruct (decide (p x = true)); cbn [length]; by rewrite IH'.
Qed.

Lemma length_filter_take {A} (Q : A -> Prop) `{forall x, Decision (Q x)} (m : nat)
    (l : list A) :
  (length (filter Q (take m l)) <= length (filter Q l))%nat.
Proof.
  revert m. induction l as [|x l IH]; intros [|m]; cbn [take]; try (simpl; lia).
  rewrite !filter_cons. specialize (IH m). destruct (decide (Q x)); cbn [length]; lia.
Qed.

Lemma peak_days_length (df : DataFrame) (top_n : Z) (out : list Metrics.PeakRow) :
  Metrics.peak_days df top_n = Ok out -> (length out <= length (rows df))%nat.
Proof.
  destruct (Frame.has_column df "transaction_date") eqn:Hc.
  - intros ->%peak_days_Ok; [|exact Hc].
    etransitivity; [apply length_head|].
    unfold Group.sort_values_desc. rewrite merge_sort_Permutation.
    unfold Metrics.peak_groups. rewrite length_map.
    etransitivity; [apply length_groupby|].
    unfold Metrics.with_date_only. cbn [Frame.set_column rows].
    rewrite length_zip_with. apply Nat.le_min_l.
  - unfold Metrics.peak_days. rewrite Hc. cbn [negb]. intros [= <-]. simpl. lia.
Qed.

Lemma peak_days_one_per_key (df : DataFrame) (top_n : Z) (out : list Metrics.PeakRow)
    (s d : Cell) :
  Metrics.peak_days df top_n = Ok out ->
  (length (filter (fun p => Group.key_eqb [Metrics.peak_site p; Metrics.peak_date p]
                                          [s; d] = true) out) <= 1)%nat.
Proof.
  destruct (Frame.has_column df "transaction_date") eqn:Hc.
  - intros ->%peak_days_Ok; [|exact Hc].
    destruct (head_is_take top_n (Group.sort_values_desc Metrics.daily_refund_value
                (Metrics.peak_groups (Metrics.with_date_only df)))) as (m & -> & _).
    etransitivity; [apply length_filter_take|].
    unfold Group.sort_values_desc. rewrite merge_sort_Permutation.
    etransitivity;
      [|apply (groupby_one_per_key ["site"; "date_only"] true
                 (rows (Metrics.with_date_only df)) [s; d])].
    apply Nat.eq_le_incl. unfold Metrics.peak_groups.
    apply (length_filter_map_in Metrics.peak_row
             (fun g => Group.key_eqb (fst g) [s; d])
             (fun p => Group.key_eqb [Metrics.peak_site p; Metrics.peak_date p] [s; d])).
    intros g [(r & _ & Hg) _]%groupby_elem_of.
    unfold Metrics.peak_row. cbn [Metrics.peak_site Metrics.peak_date].
    by rewrite Hg.
  - unfold Metrics.peak_days. rewrite Hc. cbn [negb]. intros [= <-]. simpl. lia.
Qed.

End PeakOutcome.

(** X19: [peak_days] on any table.  Without a [transaction_date] column
    its result has no row.  A result that it returns has at most one row
    for a site and a date, and never more rows than the table; and when
    the table has a [transaction_date] column, a result is returned only
    for a table that also has the columns [site] and [refund_amount]. *)
Theorem peak_days_outcome :
  (forall (P : Pandas) (df : DataFrame) (top_n : Z),
      Frame.has_column df "transaction_date" = false ->
      Metrics.peak_days df top_n = Ok [])
  /\ (forall (P : Pandas) (df : DataFrame) (top_n : Z) (out : list Metrics.PeakRow),
         Metrics.peak_days df top_n = Ok out ->
         (length out <= length (rows df))%nat
         /\ (forall s d,
               (length (filter (fun p => Group.key_eqb
                                           [Metrics.peak_site p; Metrics.peak_date p]
                                           [s; d] = true) out) <= 1)%nat)
         /\ (Frame.has_column df "transaction_date" = true ->
             Frame.has_column df "site" = true
             /\ Frame.has_column df "refund_amount" = true)).
Proof.
  split.
  - intros P df top_n Hc. unfold Metrics.peak_days. by rewrite Hc.
  - intros P df top_n out Ho. split; [by eapply peak_days_length|]. split.
    + intros s d. by eapply peak_days_one_per_key.
    + intros Hc. by eapply peak_days_Ok_columns.
Qed.

Lemma peak_days_outcome_witness :
  Metrics.peak_days (P := Reference.pandas) Examples.date_fallback 10 = Ok []
  /\ exists out, Metrics.peak_days (P := Reference.pandas) Examples.consolidated 10 = Ok out
                 /\ length out = 2%nat
                 /\ (length out <= length (rows Examples.consolidated))%nat.
Proof.
  split.
  - apply (proj1 peak_days_outcome Reference.pandas). vm_compute. reflexivity.
  - eexists. split; [vm_compute; reflexivity|]. split; [reflexivity|].
    refine (proj1 (proj2 peak_days_outcome Reference.pandas
                     Examples.consolidated 10%Z _ _)).
    vm_compute. reflexivity.
Defined.

(** ** The tags of a file *)

Section FileMetadata.

Lemma set_scalar_rows (df : DataFrame) (c : string) (v : Cell) :
  rows (Frame.set_scalar df c v) = map (fun r => <[c := v]> r) (rows df).
Proof. unfold Frame.set_scalar. cbn [Frame.set_column rows]. apply zip_with_map_same. Qed.

Lemma add_file_metadata_Ok (df : DataFrame) (filename : string) (out : DataFrame) :
  Cleaning.add_file_metadata df filename = Ok out ->
  exists site file_month,
    Cleaning.parse_site_and_month_from_filename filename = Ok (site, file_month)
    /\ rows out
       = map (fun r => <["file_month" := CStr file_month]> (<["site" := CStr site]> r))
             (rows df)
    /\ columns out
       = Frame.add_column_name "file_month" (Frame.add_column_name "site" (columns df)).
Proof.
  unfold Cleaning.add_file_metadata.
  destruct (Cleaning.parse_site_and_month_from_filename filename) as [[site fm]|e];
    [|discriminate].
  unfold bind. cbv zeta. cbn [fst snd]. intros [= <-]. exists site, fm.
  split; [reflexivity|]. split; [|reflexivity].
  by rewrite !set_scalar_rows, List.map_map.
Qed.

End FileMetadata.

(** X20: [add_file_metadata] fails exactly when the file name does not
    resolve, with the error of the resolver.  Otherwise the table it
    returns has the rows of the given one, as many and in the same order,
    each with the site and the month of the file name under [site] and
    [file_month], whatever the row had there, and its other entries
    unchanged; its columns are those of the given table with [site] and
    [file_month]. *)
Theorem add_file_metadata_spec (df : DataFrame) (filename : string) :
  (forall e, Cleaning.add_file_metadata df filename = Raise e
             <-> Cleaning.parse_site_and_month_from_filename filename = Raise e)
  /\ (forall out, Cleaning.add_file_metadata df filename = Ok out ->
        exists site file_month,
          Cleaning.parse_site_and_month_from_filename filename = Ok (site, file_month)
          /\ length (rows out) = length (rows df)
          /\ (forall c, c ∈ columns out
                        <-> c ∈ columns df \/ c = "site" \/ c = "file_month")
          /\ (forall i r', rows out !! i = Some r' ->
                exists r, rows df !! i = Some r
                          /\ r' !! "site" = Some (CStr site)
                          /\ r' !! "file_month" = Some (CStr file_month)
                          /\ forall c, c <> "site" -> c <> "file_month" ->
                                       r' !! c = r !! c)).
Proof.
  split.
  - intros e. unfold Cleaning.add_file_metadata.
    destruct (Cleaning.parse_site_and_month_from_filename filename) as [[site fm]|e0];
      unfold bind.
    + split; discriminate.
    + split; intros [= <-]; reflexivity.
  - intros out (site & fm & Hparse & Hrows & Hcols)%add_file_metadata_Ok.
    exists site, fm. split; [exact Hparse|]. rewrite Hrows, Hcols.
    split; [apply length_map|]. split.
    + intros c. rewrite !elem_of_add_column_name. tauto.
    + intros i r' Hi. rewrite list_lookup_fmap in Hi.
      destruct (rows df !! i) as [r|]; [|discriminate]. injection Hi as <-.
      exists r. split; [reflexivity|].
      split; [by rewrite lookup_insert_ne, lookup_insert_eq|].
      split; [apply lookup_insert_eq|].
      intros c H1 H2. by rewrite !lookup_insert_ne.
Qed.

Lemma add_file_metadata_spec_witness :
  exists out,
    Cleaning.add_file_metadata Examples.consolidated "Newhaven_Dec_refund.csv" = Ok out
    /\ exists site file_month,
        Cleaning.parse_site_and_month_from_filename "Newhaven_Dec_refund.csv"
        = Ok (site, file_month)
        /\ site = "Newhaven" /\ file_month = "Dec-2025"
        /\ length (rows out) = length (rows Examples.consolidated).
Proof.
  eexists. split; [vm_compute; reflexivity|].
  destruct (proj2 (add_file_metadata_spec Examples.consolidated "Newhaven_Dec_refund.csv")
              _ ltac:(vm_compute; reflexivity))
    as (site & fm & Hparse & Hlen & _).
  exists site, fm. split; [exact Hparse|].
  vm_compute in Hparse. injection Hparse as <- <-.
  split; [reflexivity|]. split; [reflexivity | exact Hlen].
Defined.
